(** * readme-forge: the project analyzer and the README generator

    A shallow embedding of [src/analyzer.js] (parseToml, analyzeStructure,
    extractFeatures, detectScripts, analyzeProject) and of
    [src/generator.js] (generateBadges, generateInstallation, generateUsage,
    generateApi, generateFeatures, generateReadme).

    Conventions of the model.
    - A JavaScript string is a [string]: the sequence of the bytes of its
      UTF-8 text; an unpaired surrogate is the three bytes ED A0..BF xx
      that encode it.  Character classes are the ASCII ones: the white
      space and the line terminators that JavaScript also finds outside
      ASCII (U+00A0, U+FEFF, U+2028, ...) are not in the model, and
      upper/lower casing acts on ASCII letters only.  A statement about
      the TOML parser on an arbitrary text therefore carries the
      hypothesis that the text is ASCII ([Laws.ascii_text]).
    - A JavaScript value is a [value]; an object is the list of its own
      properties in the order JavaScript enumerates them: for what
      JSON.parse returns, the keys that are array indices first, in
      ascending order, then the other keys as the text has them.  The
      objects the analyzer builds by copying ([Object.assign], spread)
      keep that order, and the keys it adds after (the Makefile
      targets) are no array indices; the mappings of [parseToml] are
      looked up, never enumerated.  A key is looked up among own
      properties only:
      the properties every object inherits are listed in
      [Laws.inherited], and a statement about section headers of an
      arbitrary TOML text excludes them ([Laws.plain]); an assignment to
      the key [__proto__] stores no own property.  The statements about
      [analyzeProject] that do not depend on what a manifest holds take
      the outcome of [parseToml] as a parameter ([analyzeProject_on]).
    - A thrown exception is the [Throw] branch of [result].  The source
      files are CommonJS modules without [use strict]: an assignment to
      a property of a primitive does nothing.
    - A value put into a template literal goes through [JS.to_string],
      which throws for an object with an own [toString] property (the
      property then holds JSON data, not a function).
    - A Number is the binary64 value nearest to its literal (ties to
      even, subnormals, overflow to Infinity), kept as an exact decimal
      [m * 10 ^ e], and prints with the shortest digits that read back
      as the same value.
    - The file system is an input: which manifest exists, whether it can
      be read, and its text ([package.json] comes already through
      JSON.parse). *)

From Stdlib Require Import String Ascii List Bool Arith ZArith NArith Lia.
From Stdlib Require Import Permutation.
Import ListNotations.
Open Scope string_scope.
Open Scope list_scope.
Open Scope nat_scope.
Set Warnings "-register-all".

(** String concatenation and string equality, kept apart from the list
    and number notations. *)
Infix "+++" := String.append (right associativity, at level 60).
Infix "==" := String.eqb (at level 70, no associativity).

(** ** Strings *)

Module Str.

Definition chars : string -> list ascii := list_ascii_of_string.
Definition str : list ascii -> string := string_of_list_ascii.

Definition code (c : ascii) : nat := nat_of_ascii c.

(** LineTerminator (ASCII part): LF, CR. *)
Definition is_lt (c : ascii) : bool :=
  (code c =? 10) || (code c =? 13).

(** WhiteSpace and LineTerminator, as [\s] and [trim] see them. *)
Definition is_ws (c : ascii) : bool :=
  ((9 <=? code c) && (code c <=? 13)) || (code c =? 32).


Definition is_digit (c : ascii) : bool :=
  (48 <=? code c) && (code c <=? 57).
Definition is_upper (c : ascii) : bool :=
  (65 <=? code c) && (code c <=? 90).
Definition is_lower (c : ascii) : bool :=
  (97 <=? code c) && (code c <=? 122).
Definition is_alpha (c : ascii) : bool := is_upper c || is_lower c.
(** [\w] *)
Definition is_word (c : ascii) : bool :=
  is_alpha c || is_digit c || (code c =? 95).

Definition to_upper_c (c : ascii) : ascii :=
  if is_lower c then ascii_of_nat (code c - 32) else c.
Definition to_lower_c (c : ascii) : ascii :=
  if is_upper c then ascii_of_nat (code c + 32) else c.

Definition toLowerCase (s : string) : string := str (map to_lower_c (chars s)).

Fixpoint drop_while (p : ascii -> bool) (l : list ascii) : list ascii :=
  match l with
  | [] => []
  | c :: r => if p c then drop_while p r else l
  end.

Fixpoint take_while (p : ascii -> bool) (l : list ascii) : list ascii :=
  match l with
  | [] => []
  | c :: r => if p c then c :: take_while p r else []
  end.

Definition trim_l (l : list ascii) : list ascii :=
  rev (drop_while is_ws (rev (drop_while is_ws l))).

Definition trim (s : string) : string := str (trim_l (chars s)).

(** [s.split(c)] for a one-character separator: n separators give n+1
    pieces, the empty string gives one empty piece. *)
Fixpoint split_l (sep : ascii) (l : list ascii) : list (list ascii) :=
  match l with
  | [] => [[]]
  | c :: r =>
      if Ascii.eqb c sep then [] :: split_l sep r
      else match split_l sep r with
           | h :: t => (c :: h) :: t
           | [] => [[c]]
           end
  end.

Definition split (sep : ascii) (s : string) : list string :=
  map str (split_l sep (chars s)).

Fixpoint starts_l (p l : list ascii) : bool :=
  match p, l with
  | [], _ => true
  | _ :: _, [] => false
  | a :: p', b :: l' => Ascii.eqb a b && starts_l p' l'
  end.

Definition startsWith (s p : string) : bool := starts_l (chars p) (chars s).
Definition endsWith (s p : string) : bool :=
  starts_l (rev (chars p)) (rev (chars s)).

Fixpoint includes_l (l p : list ascii) : bool :=
  starts_l p l ||
  match l with
  | [] => false
  | _ :: r => includes_l r p
  end.

Definition includes (s p : string) : bool := includes_l (chars s) (chars p).

(** [s.slice(1, -1)] *)
Definition slice_1_m1 (s : string) : string :=
  str (removelast (tl (chars s))).

(** [s.substring(0, n)] *)
Definition substring0 (n : nat) (s : string) : string :=
  str (firstn n (chars s)).

(** [s.replace(/x/g, y)] for one-character [x] and [y]. *)
Definition replace_char (p : ascii -> bool) (y : ascii) (s : string) : string :=
  str (map (fun c => if p c then y else c) (chars s)).

(** [a.join(sep)] *)
Fixpoint join (sep : string) (l : list string) : string :=
  match l with
  | [] => ""
  | [x] => x
  | x :: r => x +++ sep +++ join sep r
  end.

(** The double quote. *)
Definition DQ : string := String (ascii_of_nat 34) "".

Definition is_empty (s : string) : bool :=
  match s with "" => true | _ => false end.

(** Decimal digits of a natural number. *)
Fixpoint digits_fuel (fuel n : nat) (acc : list ascii) : list ascii :=
  match fuel with
  | 0 => acc
  | S f =>
      let d := ascii_of_nat (48 + n mod 10) in
      if n <? 10 then d :: acc else digits_fuel f (n / 10) (d :: acc)
  end.

Definition of_nat (n : nat) : string := str (digits_fuel (S n) n []).

End Str.

(** ** Numbers

    A Number is a binary64 value.  [Fin neg m e] stands for the value
    nearest to (-1)^neg * m * 10^e (ties to the even mantissa), and for
    an infinity when that is beyond the largest value; [of_string]
    returns the exact decimal of the rounded value, an integer with
    exponent 0 and any other value without a trailing zero. *)

Module Num.
Import Str.

Inductive num : Type :=
| NaN
| Inf (neg : bool)
| Fin (neg : bool) (m : N) (e : Z).

Definition digit_val (c : ascii) : N := N.of_nat (code c - 48).

Definition hex_val (c : ascii) : N :=
  if is_digit c then digit_val c
  else if is_upper c then N.of_nat (code c - 55)
  else N.of_nat (code c - 87).

Definition is_hex (c : ascii) : bool :=
  is_digit c || ((65 <=? code c) && (code c <=? 70))
             || ((97 <=? code c) && (code c <=? 102)).
Definition is_oct (c : ascii) : bool := (48 <=? code c) && (code c <=? 55).
Definition is_bin (c : ascii) : bool := (48 <=? code c) && (code c <=? 49).

Definition radix_val (base : N) (l : list ascii) : N :=
  fold_left (fun acc c => (acc * base + hex_val c)%N) l 0%N.

Definition is_nil {A} (l : list A) : bool :=
  match l with [] => true | _ => false end.

(** NonDecimalIntegerLiteral after its two-character prefix. *)
Definition radix_literal (p : ascii -> bool) (base : N) (l : list ascii) : num :=
  if negb (is_nil l) && forallb p l then Fin false (radix_val base l) 0 else NaN.

(** ExponentPart: [e] or [E], an optional sign, one digit at least; the
    end of the input gives exponent 0. *)
Definition exponent_part (l : list ascii) : option Z :=
  match l with
  | [] => Some 0%Z
  | c :: r =>
      if (code c =? 101) || (code c =? 69) then
        let '(neg, ds) :=
          match r with
          | s :: r' =>
              if code s =? 45 then (true, r')
              else if code s =? 43 then (false, r') else (false, r)
          | [] => (false, r)
          end in
        if negb (is_nil ds) && forallb is_digit ds then
          let v := Z.of_N (radix_val 10 ds) in
          Some (if neg then (- v)%Z else v)
        else None
      else None
  end.

(** StrUnsignedDecimalLiteral, without [Infinity]. *)
Definition unsigned_decimal (neg : bool) (l : list ascii) : num :=
  let ip := take_while is_digit l in
  let r1 := drop_while is_digit l in
  let '(fp, r2) :=
    match r1 with
    | c :: r =>
        if code c =? 46 then (take_while is_digit r, drop_while is_digit r)
        else ([], r1)
    | [] => ([], r1)
    end in
  if is_nil ip && is_nil fp then NaN
  else match exponent_part r2 with
       | Some ex =>
           Fin neg (radix_val 10 (ip ++ fp)) (ex - Z.of_nat (length fp))
       | None => NaN
       end.

Definition str_decimal (neg : bool) (l : list ascii) : num :=
  if (str l == "Infinity") then Inf neg else unsigned_decimal neg l.

(** The mathematical value of a StringNumericLiteral, before rounding. *)
Definition literal (s : string) : num :=
  match trim_l (chars s) with
  | [] => Fin false 0 0
  | c :: r =>
      if code c =? 43 then str_decimal false r
      else if code c =? 45 then str_decimal true r
      else
        match r with
        | x :: r' =>
            if (code c =? 48) && ((code x =? 120) || (code x =? 88))
            then radix_literal is_hex 16 r'
            else if (code c =? 48) && ((code x =? 111) || (code x =? 79))
            then radix_literal is_oct 8 r'
            else if (code c =? 48) && ((code x =? 98) || (code x =? 66))
            then radix_literal is_bin 2 r'
            else str_decimal false (c :: r)
        | [] => str_decimal false (c :: r)
        end
  end.

Fixpoint digits_N (fuel : nat) (n : N) (acc : list ascii) : list ascii :=
  match fuel with
  | 0 => acc
  | S f =>
      let d := ascii_of_N (48 + n mod 10)%N in
      if (n <? 10)%N then d :: acc else digits_N f (n / 10)%N (d :: acc)
  end.

Definition dec_N (n : N) : list ascii := digits_N (S (N.size_nat n)) n [].

Definition pow10 (k : Z) : N := (10 ^ Z.to_N k)%N.
Definition pow2 (k : Z) : N := (2 ^ Z.to_N k)%N.
Definition pow5 (k : Z) : N := (5 ^ Z.to_N k)%N.

(** The place of the decimal point: 10^(n-1) <= m * 10^e < 10^n. *)
Definition magnitude (m : N) (e : Z) : Z := (Z.of_nat (length (dec_N m)) + e)%Z.

(** m * 10^e as a fraction. *)
Definition fraction (m : N) (e : Z) : N * N :=
  if (0 <=? e)%Z then ((m * pow10 e)%N, 1%N) else (m, pow10 (- e)).

(** (p / q) / 2^t as a fraction. *)
Definition scale2 (t : Z) (p q : N) : N * N :=
  if (0 <=? t)%Z then (p, (q * pow2 t)%N) else ((p * pow2 (- t))%N, q).

(** The largest t with 2^t <= p / q. *)
Definition log2_floor (p q : N) : Z :=
  let t := (Z.of_N (N.log2 p) - Z.of_N (N.log2 q))%Z in
  let '(a, b) := scale2 t p q in
  if (b <=? a)%N then t else (t - 1)%Z.

(** The integer nearest to a / b, the even one of two. *)
Definition div_half_even (a b : N) : N :=
  let d := (a / b)%N in
  match (2 * (a mod b) ?= b)%N with
  | Lt => d
  | Gt => (d + 1)%N
  | Eq => if N.even d then d else (d + 1)%N
  end.

(** Trailing zeros of a fraction's digits go. *)
Fixpoint strip_zeros (fuel : nat) (m : N) (e : Z) : N * Z :=
  match fuel with
  | 0 => (m, e)
  | S f =>
      if negb (m =? 0)%N && (m mod 10 =? 0)%N
      then strip_zeros f (m / 10)%N (e + 1)%Z
      else (m, e)
  end.

Definition canon (m : N) (e : Z) : N * Z :=
  if (m =? 0)%N then (0%N, 0%Z)
  else if (0 <=? e)%Z then ((m * pow10 e)%N, 0%Z)
  else strip_zeros (Z.to_nat (- e)) m e.

(** The binary64 value nearest to m * 10^e, ties to even, as its exact
    decimal; [None] when it is beyond the largest value.  An integer
    below 2^53 is a value as it stands; a literal far outside the range
    is settled by its magnitude.  Otherwise the value is
    [mant * 2^k] with [mant] the quotient rounded at the 53rd bit, or
    at the bit of weight 2^-1074 for a subnormal. *)
Definition round (m : N) (e : Z) : option (N * Z) :=
  if (m =? 0)%N then Some (0%N, 0%Z)
  else if (0 <=? e)%Z && (e <=? 15)%Z && (m * pow10 e <? 9007199254740992)%N
  then Some ((m * pow10 e)%N, 0%Z)
  else if (310 <? magnitude m e)%Z then None
  else if (magnitude m e <? -330)%Z then Some (0%N, 0%Z)
  else
    let '(p, q) := fraction m e in
    let t := log2_floor p q in
    let k := (Z.max t (-1022) - 52)%Z in
    let '(a, b) := scale2 k p q in
    let mant := div_half_even a b in
    if (0 <=? k)%Z then
      if (pow2 1024 <=? mant * pow2 k)%N then None
      else Some ((mant * pow2 k)%N, 0%Z)
    else Some (canon (mant * pow5 (- k)) k).

(** The Number a decimal stands for. *)
Definition norm (x : num) : num :=
  match x with
  | Fin neg m e =>
      match round m e with
      | Some (m', e') => Fin neg m' e'
      | None => Inf neg
      end
  | _ => x
  end.

(** StringToNumber: the Number a string converts to ([Number(s)],
    [isNaN(s)]). *)
Definition of_string (s : string) : num := norm (literal s).

Definition isNaN (n : num) : bool :=
  match n with NaN => true | _ => false end.

(** ToBoolean of a Number. *)
Definition truthy (n : num) : bool :=
  match norm n with
  | NaN => false
  | Inf _ => true
  | Fin _ m _ => negb (m =? 0)%N
  end.

(** Two decimals with the same value. *)
Definition same (x y : N * Z) : bool :=
  let c := Z.min (snd x) (snd y) in
  (fst x * pow10 (snd x - c) =? fst y * pow10 (snd y - c))%N.

(** Number::toString, the choice of the digits: the decimal with the
    fewest digits that rounds to the value [m * 10^e]; of two with [d]
    digits the nearer one, and the even one when they are as near.
    With [d] digits the candidates are the value cut after [d] digits
    and the next decimal up. *)
Fixpoint shortest (fuel : nat) (d : Z) (m : N) (e : Z) : N * Z :=
  match fuel with
  | 0 => (m, e)
  | S f =>
      let s := (magnitude m e - d)%Z in
      let lo := if (s <=? e)%Z then (m * pow10 (e - s))%N
                else (m / pow10 (s - e))%N in
      let hi := (lo + 1)%N in
      let back c := match round c s with
                    | Some y => same y (m, e)
                    | None => false
                    end in
      let c := Z.min e s in
      let x := (m * pow10 (e - c))%N in
      let below := (x - lo * pow10 (s - c))%N in
      let above := (hi * pow10 (s - c) - x)%N in
      match back lo, back hi with
      | true, true =>
          match (below ?= above)%N with
          | Lt => (lo, s)
          | Gt => (hi, s)
          | Eq => if N.even lo then (lo, s) else (hi, s)
          end
      | true, false => (lo, s)
      | false, true => (hi, s)
      | false, false => shortest f (d + 1)%Z m e
      end
  end.

Definition zeros (n : Z) : list ascii := repeat "0"%char (Z.to_nat n).

(** Number::toString, radix 10, on the digits and the exponent. *)
Definition to_string (x : num) : string :=
  match norm x with
  | NaN => "NaN"
  | Inf neg => if neg then "-Infinity" else "Infinity"
  | Fin neg m0 e0 =>
      if (m0 =? 0)%N then "0" else
      let '(m1, e1) := shortest 17 1 m0 e0 in
      let '(m, e) := strip_zeros (N.size_nat m1) m1 e1 in
      let ds := dec_N m in
      let k := Z.of_nat (length ds) in
      let n := (k + e)%Z in
      let body :=
        if ((k <=? n) && (n <=? 21))%Z then ds ++ zeros (n - k)
        else if ((0 <? n) && (n <=? 21))%Z then
          firstn (Z.to_nat n) ds ++ "."%char :: skipn (Z.to_nat n) ds
        else if ((-6 <? n) && (n <=? 0))%Z then
          "0"%char :: "."%char :: zeros (- n) ++ ds
        else
          let ex := (n - 1)%Z in
          let es := (if (ex <? 0)%Z then "-"%char else "+"%char)
                      :: dec_N (Z.to_N (Z.abs ex)) in
          match ds with
          | [d] => d :: "e"%char :: es
          | d :: r => d :: "."%char :: r ++ "e"%char :: es
          | [] => []
          end in
      str (if neg then "-"%char :: body else body)
  end.

End Num.

(** ** Values, exceptions and the operators the program uses *)

Module JS.
Import Str.

Inductive value : Type :=
| VUndef
| VNull
| VBool (b : bool)
| VNum (n : Num.num)
| VStr (s : string)
| VArr (l : list value)
| VObj (o : list (string * value)).

Definition object : Type := list (string * value).

Inductive error : Type :=
| TypeError     (* a property of undefined or null, a method of a non-string,
                   an object that cannot be made a string *)
| URIError      (* [encodeURIComponent] on a lone surrogate *)
| SystemError.  (* a file or a directory that cannot be read *)

Inductive result (A : Type) : Type :=
| Ok (a : A)
| Throw (e : error).
Arguments Ok {A} a.
Arguments Throw {A} e.

Definition bind {A B} (c : result A) (k : A -> result B) : result B :=
  match c with
  | Ok a => k a
  | Throw e => Throw e
  end.

Notation "x <- c ;; k" := (bind c (fun x => k))
  (at level 61, c at next level, right associativity).

(** ToBoolean *)
Definition truthy (v : value) : bool :=
  match v with
  | VUndef | VNull => false
  | VBool b => b
  | VNum n => Num.truthy n
  | VStr s => negb (is_empty s)
  | VArr _ | VObj _ => true
  end.

(** [a || b] *)
Definition or_else (a b : value) : value := if truthy a then a else b.

Fixpoint lookup (k : string) (o : object) : option value :=
  match o with
  | [] => None
  | (k', v) :: r => if k' == k then Some v else lookup k r
  end.

(** [o[k] = v] on an object: an existing key keeps its place, a new key
    goes last. *)
Fixpoint assign (k : string) (v : value) (o : object) : object :=
  match o with
  | [] => [(k, v)]
  | (k', v') :: r => if k' == k then (k, v) :: r else (k', v') :: assign k v r
  end.

(** A canonical array index: the decimal digits of a number, no leading
    zero. *)
Definition index_of_key (k : string) : option nat :=
  let l := chars k in
  if negb (Num.is_nil l) && forallb is_digit l && (Str.of_nat (N.to_nat (Num.radix_val 10 l)) == k)
  then Some (N.to_nat (Num.radix_val 10 l)) else None.

Definition opt_value (o : option value) : value :=
  match o with Some v => v | None => VUndef end.

Definition len_value (n : nat) : value := VNum (Num.Fin false (N.of_nat n) 0).

(** [v[k]] (own properties, see the conventions). *)
Definition get (v : value) (k : string) : result value :=
  match v with
  | VUndef | VNull => Throw TypeError
  | VBool _ | VNum _ => Ok VUndef
  | VStr s =>
      if k == "length" then Ok (len_value (String.length s))
      else match index_of_key k with
           | Some i => Ok (opt_value (option_map (fun c => VStr (String c "")) (nth_error (chars s) i)))
           | None => Ok VUndef
           end
  | VArr l =>
      if k == "length" then Ok (len_value (length l))
      else match index_of_key k with
           | Some i => Ok (opt_value (nth_error l i))
           | None => Ok VUndef
           end
  | VObj o => Ok (opt_value (lookup k o))
  end.

(** [v?.k] *)
Definition get_opt (v : value) (k : string) : value :=
  match get v k with
  | Ok x => x
  | Throw _ => VUndef
  end.

Definition is_string (v : value) : bool :=
  match v with VStr _ => true | _ => false end.

Definition isArray (v : value) : bool :=
  match v with VArr _ => true | _ => false end.

Definition indices (n : nat) : list string := map Str.of_nat (seq 0 n).

(** [Object.keys(v)] *)
Definition keys (v : value) : result (list string) :=
  match v with
  | VUndef | VNull => Throw TypeError
  | VBool _ | VNum _ => Ok []
  | VStr s => Ok (indices (String.length s))
  | VArr l => Ok (indices (length l))
  | VObj o => Ok (map fst o)
  end.

(** [Object.entries(v)] on an object. *)
Definition entries (o : object) : list (string * value) := o.

(** ToString, as a template literal and [join] apply it.  An object is
    converted by its [toString] method.  The inherited one gives
    [[object Object]]; an own property of that name hides it, and in a
    value that comes out of a manifest it is never a function: the
    conversion then throws (the inherited [valueOf] returns the object
    itself, an own one is no function either).  An array joins its
    elements with commas, null and undefined as empty texts. *)
Fixpoint to_string (v : value) : result string :=
  match v with
  | VUndef => Ok "undefined"
  | VNull => Ok "null"
  | VBool b => Ok (if b then "true" else "false")
  | VNum n => Ok (Num.to_string n)
  | VStr s => Ok s
  | VArr l =>
      ss <- (fix items (l : list value) : result (list string) :=
               match l with
               | [] => Ok []
               | x :: r =>
                   s <- match x with
                        | VUndef | VNull => Ok ""
                        | _ => to_string x
                        end ;;
                   t <- items r ;;
                   Ok (s :: t)
               end) l ;;
      Ok (join "," ss)
  | VObj o =>
      match lookup "toString" o with
      | Some _ => Throw TypeError
      | None => Ok "[object Object]"
      end
  end.

(** The receiver of a string method: a non-string has no such method. *)
Definition as_string (v : value) : result string :=
  match v with
  | VStr s => Ok s
  | _ => Throw TypeError
  end.

(** [{...a, ...b}] on objects: the keys of [a] in order, then the new
    keys of [b]; [b] wins on a common key. *)
Definition spread (a b : object) : object :=
  fold_left (fun acc kv => assign (fst kv) (snd kv) acc) b
            (fold_left (fun acc kv => assign (fst kv) (snd kv) acc) a []).

(** The own enumerable properties [{...v}] copies from any value. *)
Definition own_props (v : value) : object :=
  match v with
  | VObj o => o
  | VStr s => combine (indices (String.length s)) (map (fun c => VStr (String c "")) (chars s))
  | VArr l => combine (indices (length l)) l
  | _ => []
  end.

End JS.

(** ** analyzer.js: parseToml *)

Module Toml.
Import Str JS.

(** [currentSection]: a reference to an object inside [result], kept as
    the path of keys that leads to it from the root, or a value that is
    not an object (a primitive held by value, or undefined). *)
Inductive cursor : Type :=
| AtPath (p : list string)
| Detached (v : value).

Fixpoint get_path (v : value) (p : list string) : value :=
  match p with
  | [] => v
  | k :: r =>
      match v with
      | VObj o => get_path (opt_value (lookup k o)) r
      | _ => VUndef
      end
  end.

Fixpoint update_path (o : object) (p : list string) (f : object -> object) : object :=
  match p with
  | [] => f o
  | k :: r =>
      match lookup k o with
      | Some (VObj o') => assign k (VObj (update_path o' r f)) o
      | _ => o
      end
  end.

Definition deref (root : object) (c : cursor) : value :=
  match c with
  | AtPath p => get_path (VObj root) p
  | Detached v => v
  end.

(** [currentSection[k] = v].  The module is not in strict mode: on a
    primitive the assignment does nothing, on undefined it throws.  On
    a mapping the key [__proto__] is the accessor every object
    inherits, and assigning a primitive to it does nothing. *)
Definition put (root : object) (c : cursor) (k : string) (v : value) : result object :=
  match c with
  | AtPath p =>
      Ok (if k == "__proto__" then root else update_path root p (assign k v))
  | Detached VUndef | Detached VNull => Throw TypeError
  | Detached _ => Ok root
  end.

(** One turn of [for (const part of parts)]:
    [if (!currentSection[part]) currentSection[part] = {};
     currentSection = currentSection[part]]. *)
Definition descend (st : object * cursor) (part : string) : result (object * cursor) :=
  let '(root, c) := st in
  x <- get (deref root c) part ;;
  root' <- (if truthy x then Ok root else put root c part (VObj [])) ;;
  x' <- get (deref root' c) part ;;
  Ok (root', match c, x' with
             | AtPath p, VObj _ => AtPath (p ++ [part])
             | _, _ => Detached x'
             end).

Fixpoint descend_all (st : object * cursor) (parts : list string) : result (object * cursor) :=
  match parts with
  | [] => Ok st
  | part :: r => st' <- descend st part ;; descend_all st' r
  end.

Definition not_char (n : nat) (c : ascii) : bool := negb (code c =? n).

(** [/^\[([^\]]+)\]$/]: the captured group. *)
Definition section_match (s : string) : option string :=
  match chars s with
  | c :: r =>
      match rev r with
      | d :: b =>
          if (code c =? 91) && (code d =? 93) && negb (Num.is_nil b)
             && forallb (not_char 93) b
          then Some (str (rev b)) else None
      | [] => None
      end
  | [] => None
  end.

(** [/^([^=]+)=\s*(.+)$/]: the two captured groups.  [\s*] takes all the
    white space after [=]; it gives back its last character only when
    nothing else is left for [.+]. *)
Definition kv_match (s : string) : option (string * string) :=
  let l := chars s in
  let k := take_while (not_char 61) l in
  match drop_while (not_char 61) l with
  | _ :: after =>
      let v := drop_while is_ws after in
      let g := match v with
               | [] => match rev after with w :: _ => [w] | [] => [] end
               | _ => v
               end in
      if negb (Num.is_nil k) && negb (Num.is_nil g)
         && forallb (fun c => negb (is_lt c)) g
      then Some (str k, str g) else None
  | [] => None
  end.

(** The coercion of a value text. *)
Definition parse_value (raw : string) : value :=
  let v := trim raw in
  if startsWith v DQ && endsWith v DQ then VStr (slice_1_m1 v)
  else if startsWith v "'" && endsWith v "'" then VStr (slice_1_m1 v)
  else if v == "true" then VBool true
  else if v == "false" then VBool false
  else if negb (Num.isNaN (Num.of_string v)) then VNum (Num.of_string v)
  else VStr v.

(** What a line is to the parser. *)
Inductive line_kind : Type :=
| Skipped                          (* blank or comment *)
| Header (name : string)
| KeyValue (key : string) (v : value)
| Unmatched.

Definition classify (line : string) : line_kind :=
  let trimmed := trim line in
  if is_empty trimmed || startsWith trimmed "#" then Skipped
  else match section_match trimmed with
       | Some name => Header name
       | None =>
           match kv_match trimmed with
           | Some (k, v) => KeyValue (trim k) (parse_value v)
           | None => Unmatched
           end
       end.

(** The body of [for (const line of lines)]. *)
Definition parse_line (st : object * cursor) (line : string) : result (object * cursor) :=
  match classify line with
  | Skipped => Ok st
  | Header name => descend_all (fst st, AtPath []) (split "."%char name)
  | KeyValue k v => root' <- put (fst st) (snd st) k v ;; Ok (root', snd st)
  | Unmatched => Ok st
  end.

Fixpoint parse_lines (st : object * cursor) (lines : list string) : result (object * cursor) :=
  match lines with
  | [] => Ok st
  | line :: r => st' <- parse_line st line ;; parse_lines st' r
  end.

Definition LF : ascii := ascii_of_nat 10.

Definition parseToml (content : string) : result object :=
  st <- parse_lines ([], AtPath []) (split LF content) ;; Ok (fst st).

End Toml.

(** ** The file system, as the analyzer reads it *)

Module FS.
Import Str JS.

(** A file to [fs.existsSync] and [fs.readFileSync(_, 'utf8')]. *)
Inductive file : Type :=
| Absent
| Unreadable                (* exists, reading it throws *)
| Content (text : string).

(** [package.json], to [fs.existsSync] and to
    [JSON.parse(fs.readFileSync(_, 'utf8'))]. *)
Inductive json_file : Type :=
| JAbsent
| JInvalid                  (* exists; unreadable, or not JSON *)
| JParsed (pkg : value).

(** A [fs.Dirent]. *)
Record entry : Type := { name : string; isDirectory : bool }.

Record directory : Type := {
  path : string;
  package_json : json_file;
  pyproject_toml : file;
  setup_py : bool;
  requirements_txt : bool;
  go_mod : file;
  Cargo_toml : file;
  Makefile : file;
  (** [fs.readdirSync(dir, { withFileTypes: true })]; [None] when it
      throws. *)
  children : option (list entry)
}.

Definition exists_file (f : file) : bool :=
  match f with Absent => false | _ => true end.

Definition exists_json (f : json_file) : bool :=
  match f with JAbsent => false | _ => true end.

Definition read (f : file) : result string :=
  match f with
  | Content t => Ok t
  | _ => Throw SystemError
  end.

Definition read_json (f : json_file) : result value :=
  match f with
  | JParsed v => Ok v
  | _ => Throw SystemError
  end.

Definition is_slash (c : ascii) : bool := code c =? 47.

(** [path.basename(p)] (POSIX): the last segment, trailing slashes
    apart. *)
Definition basename (p : string) : string :=
  str (rev (take_while (fun c => negb (is_slash c))
                       (drop_while is_slash (rev (chars p))))).

End FS.

(** ** analyzer.js: analyzeStructure *)

Module Structure.
Import Str JS FS.

Record structure : Type := {
  hasTests : bool;
  hasDocs : bool;
  hasExamples : bool;
  hasSrc : bool;
  hasLib : bool;
  hasBin : bool;
  hasConfig : bool;
  hasCI : bool;
  mainFiles : list string;
  directories : list string
}.

Definition empty : structure := {|
  hasTests := false; hasDocs := false; hasExamples := false;
  hasSrc := false; hasLib := false; hasBin := false; hasConfig := false;
  hasCI := false; mainFiles := []; directories := []
|}.

Definition set_hasCI (s : structure) : structure :=
  {| hasTests := hasTests s; hasDocs := hasDocs s; hasExamples := hasExamples s;
     hasSrc := hasSrc s; hasLib := hasLib s; hasBin := hasBin s;
     hasConfig := hasConfig s; hasCI := true;
     mainFiles := mainFiles s; directories := directories s |}.

Definition push_mainFile (n : string) (s : structure) : structure :=
  {| hasTests := hasTests s; hasDocs := hasDocs s; hasExamples := hasExamples s;
     hasSrc := hasSrc s; hasLib := hasLib s; hasBin := hasBin s;
     hasConfig := hasConfig s; hasCI := hasCI s;
     mainFiles := mainFiles s ++ [n]; directories := directories s |}.

(** The flag a subdirectory raises, by the [if ... else if] chain on its
    lowercased name. *)
Inductive flag : Type :=
| FTests | FDocs | FExamples | FSrc | FLib | FBin | FConfig.

Definition flag_of (lower : string) : option flag :=
  if (lower == "test") || (lower == "tests") || (lower == "__tests__")
     || (lower == "spec") then Some FTests
  else if (lower == "docs") || (lower == "documentation") then Some FDocs
  else if (lower == "examples") || (lower == "example") then Some FExamples
  else if (lower == "src") || (lower == "source") then Some FSrc
  else if lower == "lib" then Some FLib
  else if lower == "bin" then Some FBin
  else if lower == "config" then Some FConfig
  else None.

Definition raises (f : option flag) (g : flag) : bool :=
  match f, g with
  | Some FTests, FTests | Some FDocs, FDocs | Some FExamples, FExamples
  | Some FSrc, FSrc | Some FLib, FLib | Some FBin, FBin
  | Some FConfig, FConfig => true
  | _, _ => false
  end.

(** [structure.directories.push(entry.name)] and the flag of the name. *)
Definition push_directory (n : string) (s : structure) : structure :=
  let f := flag_of (toLowerCase n) in
  {| hasTests := hasTests s || raises f FTests;
     hasDocs := hasDocs s || raises f FDocs;
     hasExamples := hasExamples s || raises f FExamples;
     hasSrc := hasSrc s || raises f FSrc;
     hasLib := hasLib s || raises f FLib;
     hasBin := hasBin s || raises f FBin;
     hasConfig := hasConfig s || raises f FConfig;
     hasCI := hasCI s;
     mainFiles := mainFiles s; directories := directories s ++ [n] |}.

(** The body of [for (const entry of entries)]. *)
Definition scan_entry (s : structure) (e : entry) : structure :=
  if startsWith (name e) "." then
    if (name e == ".github") || (name e == ".gitlab-ci.yml")
    then set_hasCI s else s
  else if isDirectory e then push_directory (name e) s
  else
    let lower := toLowerCase (name e) in
    if endsWith lower ".md" || (lower == "makefile") || (lower == "dockerfile")
    then push_mainFile (name e) s else s.

Definition analyzeStructure (dir : directory) : structure :=
  match children dir with
  | Some entries => fold_left scan_entry entries empty
  | None => empty
  end.

End Structure.

(** ** The Metadata Record

    The object [analyzeProject] builds and [generateReadme] reads.  A
    field the analyzer can fill with any value of a manifest is a
    [value]; the others have the one type the analyzer gives them.  The
    [structure] field starts as the empty object, which reads as
    [Structure.empty] (every flag falsy). *)

Module Record.
Import JS.

Record analysis : Type := {
  dir : string;
  detected : bool;
  type : string;
  name : value;
  description : value;
  version : value;
  author : value;
  license : value;
  repository : value;
  homepage : value;
  keywords : value;
  dependencies : list string;
  devDependencies : list string;
  scripts : value;
  features : list string;
  structure : Structure.structure;
  installCommand : string;
  runCommand : string;
  buildCommand : string;
  testCommand : string
}.

Definition set_detected (x : bool) (a : analysis) : analysis :=
  {| dir := dir a; detected := x; type := type a; name := name a;
     description := description a; version := version a; author := author a;
     license := license a; repository := repository a;
     homepage := homepage a; keywords := keywords a;
     dependencies := dependencies a; devDependencies := devDependencies a;
     scripts := scripts a; features := features a; structure := structure a;
     installCommand := installCommand a; runCommand := runCommand a;
     buildCommand := buildCommand a; testCommand := testCommand a |}.

Definition set_type (x : string) (a : analysis) : analysis :=
  {| dir := dir a; detected := detected a; type := x; name := name a;
     description := description a; version := version a; author := author a;
     license := license a; repository := repository a;
     homepage := homepage a; keywords := keywords a;
     dependencies := dependencies a; devDependencies := devDependencies a;
     scripts := scripts a; features := features a; structure := structure a;
     installCommand := installCommand a; runCommand := runCommand a;
     buildCommand := buildCommand a; testCommand := testCommand a |}.

Definition set_name (x : value) (a : analysis) : analysis :=
  {| dir := dir a; detected := detected a; type := type a; name := x;
     description := description a; version := version a; author := author a;
     license := license a; repository := repository a;
     homepage := homepage a; keywords := keywords a;
     dependencies := dependencies a; devDependencies := devDependencies a;
     scripts := scripts a; features := features a; structure := structure a;
     installCommand := installCommand a; runCommand := runCommand a;
     buildCommand := buildCommand a; testCommand := testCommand a |}.

Definition set_description (x : value) (a : analysis) : analysis :=
  {| dir := dir a; detected := detected a; type := type a; name := name a;
     description := x; version := version a; author := author a;
     license := license a; repository := repository a;
     homepage := homepage a; keywords := keywords a;
     dependencies := dependencies a; devDependencies := devDependencies a;
     scripts := scripts a; features := features a; structure := structure a;
     installCommand := installCommand a; runCommand := runCommand a;
     buildCommand := buildCommand a; testCommand := testCommand a |}.

Definition set_version (x : value) (a : analysis) : analysis :=
  {| dir := dir a; detected := detected a; type := type a; name := name a;
     description := description a; version := x; author := author a;
     license := license a; repository := repository a;
     homepage := homepage a; keywords := keywords a;
     dependencies := dependencies a; devDependencies := devDependencies a;
     scripts := scripts a; features := features a; structure := structure a;
     installCommand := installCommand a; runCommand := runCommand a;
     buildCommand := buildCommand a; testCommand := testCommand a |}.

Definition set_author (x : value) (a : analysis) : analysis :=
  {| dir := dir a; detected := detected a; type := type a; name := name a;
     description := description a; version := version a; author := x;
     license := license a; repository := repository a;
     homepage := homepage a; keywords := keywords a;
     dependencies := dependencies a; devDependencies := devDependencies a;
     scripts := scripts a; features := features a; structure := structure a;
     installCommand := installCommand a; runCommand := runCommand a;
     buildCommand := buildCommand a; testCommand := testCommand a |}.

Definition set_license (x : value) (a : analysis) : analysis :=
  {| dir := dir a; detected := detected a; type := type a; name := name a;
     description := description a; version := version a; author := author a;
     license := x; repository := repository a; homepage := homepage a;
     keywords := keywords a; dependencies := dependencies a;
     devDependencies := devDependencies a; scripts := scripts a;
     features := features a; structure := structure a;
     installCommand := installCommand a; runCommand := runCommand a;
     buildCommand := buildCommand a; testCommand := testCommand a |}.

Definition set_repository (x : value) (a : analysis) : analysis :=
  {| dir := dir a; detected := detected a; type := type a; name := name a;
     description := description a; version := version a; author := author a;
     license := license a; repository := x; homepage := homepage a;
     keywords := keywords a; dependencies := dependencies a;
     devDependencies := devDependencies a; scripts := scripts a;
     features := features a; structure := structure a;
     installCommand := installCommand a; runCommand := runCommand a;
     buildCommand := buildCommand a; testCommand := testCommand a |}.

Definition set_homepage (x : value) (a : analysis) : analysis :=
  {| dir := dir a; detected := detected a; type := type a; name := name a;
     description := description a; version := version a; author := author a;
     license := license a; repository := repository a; homepage := x;
     keywords := keywords a; dependencies := dependencies a;
     devDependencies := devDependencies a; scripts := scripts a;
     features := features a; structure := structure a;
     installCommand := installCommand a; runCommand := runCommand a;
     buildCommand := buildCommand a; testCommand := testCommand a |}.

Definition set_keywords (x : value) (a : analysis) : analysis :=
  {| dir := dir a; detected := detected a; type := type a; name := name a;
     description := description a; version := version a; author := author a;
     license := license a; repository := repository a;
     homepage := homepage a; keywords := x; dependencies := dependencies a;
     devDependencies := devDependencies a; scripts := scripts a;
     features := features a; structure := structure a;
     installCommand := installCommand a; runCommand := runCommand a;
     buildCommand := buildCommand a; testCommand := testCommand a |}.

Definition set_dependencies (x : list string) (a : analysis) : analysis :=
  {| dir := dir a; detected := detected a; type := type a; name := name a;
     description := description a; version := version a; author := author a;
     license := license a; repository := repository a;
     homepage := homepage a; keywords := keywords a; dependencies := x;
     devDependencies := devDependencies a; scripts := scripts a;
     features := features a; structure := structure a;
     installCommand := installCommand a; runCommand := runCommand a;
     buildCommand := buildCommand a; testCommand := testCommand a |}.

Definition set_devDependencies (x : list string) (a : analysis) : analysis :=
  {| dir := dir a; detected := detected a; type := type a; name := name a;
     description := description a; version := version a; author := author a;
     license := license a; repository := repository a;
     homepage := homepage a; keywords := keywords a;
     dependencies := dependencies a; devDependencies := x;
     scripts := scripts a; features := features a; structure := structure a;
     installCommand := installCommand a; runCommand := runCommand a;
     buildCommand := buildCommand a; testCommand := testCommand a |}.

Definition set_scripts (x : value) (a : analysis) : analysis :=
  {| dir := dir a; detected := detected a; type := type a; name := name a;
     description := description a; version := version a; author := author a;
     license := license a; repository := repository a;
     homepage := homepage a; keywords := keywords a;
     dependencies := dependencies a; devDependencies := devDependencies a;
     scripts := x; features := features a; structure := structure a;
     installCommand := installCommand a; runCommand := runCommand a;
     buildCommand := buildCommand a; testCommand := testCommand a |}.

Definition set_features (x : list string) (a : analysis) : analysis :=
  {| dir := dir a; detected := detected a; type := type a; name := name a;
     description := description a; version := version a; author := author a;
     license := license a; repository := repository a;
     homepage := homepage a; keywords := keywords a;
     dependencies := dependencies a; devDependencies := devDependencies a;
     scripts := scripts a; features := x; structure := structure a;
     installCommand := installCommand a; runCommand := runCommand a;
     buildCommand := buildCommand a; testCommand := testCommand a |}.

Definition set_structure (x : Structure.structure) (a : analysis) : analysis :=
  {| dir := dir a; detected := detected a; type := type a; name := name a;
     description := description a; version := version a; author := author a;
     license := license a; repository := repository a;
     homepage := homepage a; keywords := keywords a;
     dependencies := dependencies a; devDependencies := devDependencies a;
     scripts := scripts a; features := features a; structure := x;
     installCommand := installCommand a; runCommand := runCommand a;
     buildCommand := buildCommand a; testCommand := testCommand a |}.

Definition set_installCommand (x : string) (a : analysis) : analysis :=
  {| dir := dir a; detected := detected a; type := type a; name := name a;
     description := description a; version := version a; author := author a;
     license := license a; repository := repository a;
     homepage := homepage a; keywords := keywords a;
     dependencies := dependencies a; devDependencies := devDependencies a;
     scripts := scripts a; features := features a; structure := structure a;
     installCommand := x; runCommand := runCommand a;
     buildCommand := buildCommand a; testCommand := testCommand a |}.

Definition set_runCommand (x : string) (a : analysis) : analysis :=
  {| dir := dir a; detected := detected a; type := type a; name := name a;
     description := description a; version := version a; author := author a;
     license := license a; repository := repository a;
     homepage := homepage a; keywords := keywords a;
     dependencies := dependencies a; devDependencies := devDependencies a;
     scripts := scripts a; features := features a; structure := structure a;
     installCommand := installCommand a; runCommand := x;
     buildCommand := buildCommand a; testCommand := testCommand a |}.

Definition set_buildCommand (x : string) (a : analysis) : analysis :=
  {| dir := dir a; detected := detected a; type := type a; name := name a;
     description := description a; version := version a; author := author a;
     license := license a; repository := repository a;
     homepage := homepage a; keywords := keywords a;
     dependencies := dependencies a; devDependencies := devDependencies a;
     scripts := scripts a; features := features a; structure := structure a;
     installCommand := installCommand a; runCommand := runCommand a;
     buildCommand := x; testCommand := testCommand a |}.

Definition set_testCommand (x : string) (a : analysis) : analysis :=
  {| dir := dir a; detected := detected a; type := type a; name := name a;
     description := description a; version := version a; author := author a;
     license := license a; repository := repository a;
     homepage := homepage a; keywords := keywords a;
     dependencies := dependencies a; devDependencies := devDependencies a;
     scripts := scripts a; features := features a; structure := structure a;
     installCommand := installCommand a; runCommand := runCommand a;
     buildCommand := buildCommand a; testCommand := x |}.

End Record.

(** ** analyzer.js: extractFeatures, detectScripts, analyzeProject *)

Module Analyzer.
Import Str JS FS Structure Record.

Definition push_if (b : bool) (x : string) (l : list string) : list string :=
  if b then l ++ [x] else l.

(** The node part of [extractFeatures]: nothing is pushed when reading
    or parsing fails, or when the first read of [pkg] throws. *)
Definition node_features (d : directory) (features : list string) : list string :=
  match read_json (package_json d) with
  | Ok pkg =>
      match get pkg "bin", get pkg "types", get pkg "typings", get pkg "scripts" with
      | Ok bin, Ok types, Ok typings, Ok sc =>
          push_if (truthy (get_opt sc "build")) "Build system configured"
          (push_if (truthy (get_opt sc "test")) "Test scripts configured"
          (push_if (truthy (or_else types typings)) "TypeScript definitions"
          (push_if (truthy bin) "Executable CLI tool" features)))
      | _, _, _, _ => features
      end
  | Throw _ => features
  end.

Definition extractFeatures (d : directory) (projectType : string) : list string :=
  let st := analyzeStructure d in
  let features :=
    push_if (hasBin st) "CLI support"
    (push_if (hasCI st) "CI/CD integration"
    (push_if (hasExamples st) "Example code included"
    (push_if (hasDocs st) "Detailed documentation"
    (push_if (hasTests st) "Comprehensive test suite" [])))) in
  if projectType == "node" then node_features d features else features.

(** [[a-zA-Z_-]] *)
Definition is_target_char (c : ascii) : bool :=
  is_alpha c || (code c =? 95) || (code c =? 45).

(** [/([a-zA-Z_-]+):/] tried at the head of [l]: the matched text. *)
Definition target_at (l : list ascii) : option (list ascii) :=
  let n := take_while is_target_char l in
  match drop_while is_target_char l with
  | c :: _ => if (code c =? 58) && negb (Num.is_nil n) then Some (n ++ [c]) else None
  | [] => None
  end.

(** [content.match(/^([a-zA-Z_-]+):/gm)]: the matches in order.  With
    the [m] flag [^] holds at the start of the text and after a line
    terminator; a match ends in [:], so the search that resumes after it
    is not at such a place and matches never overlap. *)
Fixpoint match_targets (bol : bool) (l : list ascii) : list string :=
  match l with
  | [] => []
  | c :: r =>
      (if bol then match target_at l with
                   | Some m => [str m]
                   | None => []
                   end
       else []) ++ match_targets (is_lt c) r
  end.

(** [target.replace(':', '')]: the first colon goes. *)
Fixpoint remove_first (n : nat) (l : list ascii) : list ascii :=
  match l with
  | [] => []
  | c :: r => if code c =? n then r else c :: remove_first n r
  end.

Definition target_name (target : string) : string :=
  str (remove_first 58 (chars target)).

(** The body of [for (const target of targets)]. *)
Definition add_target (scripts : object) (target : string) : object :=
  let name := target_name target in
  if negb (startsWith name ".")
  then assign ("make " +++ name) (VStr "Makefile target") scripts
  else scripts.

(** The Makefile block of [detectScripts]. *)
Definition makefile_scripts (d : directory) (scripts : object) : object :=
  if exists_file (Makefile d) then
    match read (Makefile d) with
    | Ok content => fold_left add_target (match_targets true (chars content)) scripts
    | Throw _ => scripts
    end
  else scripts.

(** [Object.assign(scripts, v)]: each own property of [v] is assigned.
    Assigning to [__proto__] goes to the accessor every object
    inherits and adds no property. *)
Definition object_assign (scripts : object) (v : value) : object :=
  fold_left (fun acc kv => assign (fst kv) (snd kv) acc)
            (filter (fun kv => negb (fst kv == "__proto__")) (own_props v))
            scripts.

(** The node block of [detectScripts]. *)
Definition node_scripts (d : directory) (scripts : object) : object :=
  match read_json (package_json d) with
  | Ok pkg =>
      match get pkg "scripts" with
      | Ok sc => if truthy sc then object_assign scripts sc else scripts
      | Throw _ => scripts
      end
  | Throw _ => scripts
  end.

(** [scripts] after [if (projectType === 'node') { ... }]. *)
Definition package_scripts (d : directory) (projectType : string) : object :=
  if projectType == "node" then node_scripts d [] else [].

Definition detectScripts (d : directory) (projectType : string) : object :=
  makefile_scripts d (package_scripts d projectType).

(** A [try { ... } catch (e) {}] block: the statements run in order on
    the record; the first one that throws ends the block and the record
    keeps what the earlier ones wrote. *)
Definition stmt : Type := analysis -> result analysis.

Fixpoint try_block (body : list stmt) (a : analysis) : analysis :=
  match body with
  | [] => a
  | s :: r =>
      match s a with
      | Ok a' => try_block r a'
      | Throw _ => a
      end
  end.

Definition does (f : analysis -> analysis) : stmt := fun a => Ok (f a).

(** [analysis.f = pkg.k || dflt] *)
Definition copy_or (pkg : value) (k : string) (dflt : value)
    (set : value -> analysis -> analysis) : stmt :=
  fun a => x <- get pkg k ;; Ok (set (or_else x dflt) a).

(** [typeof v === 'string' ? v : v?.k || ''] *)
Definition string_or_field (v : value) (k : string) : value :=
  if is_string v then v else or_else (get_opt v k) (VStr "").

Definition first_key (ks : list string) : value :=
  match ks with
  | k :: _ => VStr k
  | [] => VUndef
  end.

Definition node_body (pkg : value) : list stmt := [
  does (set_detected true);
  does (set_type "node");
  (fun a => x <- get pkg "name" ;; Ok (set_name (or_else x (name a)) a));
  copy_or pkg "description" (VStr "") set_description;
  copy_or pkg "version" (VStr "") set_version;
  (fun a => x <- get pkg "author" ;; Ok (set_author (string_or_field x "name") a));
  copy_or pkg "license" (VStr "") set_license;
  (fun a => x <- get pkg "repository" ;;
            Ok (set_repository (string_or_field x "url") a));
  copy_or pkg "homepage" (VStr "") set_homepage;
  copy_or pkg "keywords" (VArr []) set_keywords;
  (fun a => x <- get pkg "dependencies" ;; ks <- keys (or_else x (VObj [])) ;;
            Ok (set_dependencies ks a));
  (fun a => x <- get pkg "devDependencies" ;; ks <- keys (or_else x (VObj [])) ;;
            Ok (set_devDependencies ks a));
  copy_or pkg "scripts" (VObj []) set_scripts;
  does (set_installCommand "npm install");
  (fun a =>
     bin <- get pkg "bin" ;;
     if truthy bin then
       binName <- (if is_string bin then Ok (name a)
                   else ks <- keys bin ;; Ok (first_key ks)) ;;
       s <- to_string binName ;;
       Ok (set_runCommand ("npx " +++ s) a)
     else
       main <- get pkg "main" ;;
       if truthy main then
         s <- to_string main ;; Ok (set_runCommand ("node " +++ s) a)
       else Ok a);
  (fun a => sc <- get pkg "scripts" ;;
            if truthy (get_opt sc "build")
            then Ok (set_buildCommand "npm run build" a) else Ok a);
  (fun a => sc <- get pkg "scripts" ;;
            if truthy (get_opt sc "test")
            then Ok (set_testCommand "npm test" a) else Ok a)
].

(** Reading and parsing come first in the block: when either throws,
    nothing is written. *)
Definition node_probe (d : directory) (a : analysis) : analysis :=
  if exists_json (package_json d) then
    match read_json (package_json d) with
    | Ok pkg => try_block (node_body pkg) a
    | Throw _ => a
    end
  else a.

Definition is_hyphen (c : ascii) : bool := code c =? 45.

(** [project.authors] or [pkg.authors], when truthy. *)
Definition copy_authors (pkg : value) : stmt :=
  fun a =>
    x <- get pkg "authors" ;;
    if truthy x then
      if isArray x then y <- get x "0" ;; Ok (set_author y a)
      else Ok (set_author x a)
    else Ok a.

Definition python_body (toml : value) : list stmt :=
  let project :=
    or_else (or_else (get_opt toml "project")
                     (get_opt (get_opt toml "tool") "poetry")) (VObj []) in
  [ does (set_detected true);
    does (set_type "python");
    (fun a => x <- get project "name" ;; Ok (set_name (or_else x (name a)) a));
    copy_or project "description" (VStr "") set_description;
    copy_or project "version" (VStr "") set_version;
    copy_or project "license" (VStr "") set_license;
    copy_or project "keywords" (VArr []) set_keywords;
    copy_authors project;
    does (set_installCommand "pip install .");
    (fun a => n <- as_string (name a) ;;
              Ok (set_runCommand ("python -m " +++ replace_char is_hyphen "_"%char n) a));
    (fun a => if truthy (get_opt (get_opt toml "tool") "pytest")
              then Ok (set_testCommand "pytest" a) else Ok a) ].

(** What [parseToml(fs.readFileSync(path, 'utf8'))] does on a manifest:
    it returns a mapping or throws. *)
Definition parsed (f : file) : result object :=
  content <- read f ;; Toml.parseToml content.

(** The Python step, given what reading and parsing pyproject.toml
    does. *)
Definition python_probe_on (py : result object) (d : directory) (a : analysis)
    : analysis :=
  if exists_file (pyproject_toml d) then
    match py with
    | Ok toml => try_block (python_body (VObj toml)) a
    | Throw _ => a
    end
  else if setup_py d || requirements_txt d then
    set_installCommand
      (if setup_py d then "pip install ." else "pip install -r requirements.txt")
      (set_type "python" (set_detected true a))
  else a.

Definition python_probe (d : directory) (a : analysis) : analysis :=
  python_probe_on (parsed (pyproject_toml d)) d a.

(** [/module\s+(.+)/] tried at the head of [l]: the captured group.
    [\s+] takes all the white space and [.+] runs to the next line
    terminator.  When the white space reaches the end of the text, [\s+]
    gives characters back, keeping one at least, until [.+] can start:
    on the last of them that is not a line terminator. *)
Definition module_at (l : list ascii) : option (list ascii) :=
  if starts_l (chars "module") l then
    let after := skipn 6 l in
    let ws := take_while is_ws after in
    match ws, take_while (fun c => negb (is_lt c)) (drop_while is_ws after) with
    | [], _ => None
    | _ :: _, (_ :: _) as g => Some g
    | _ :: back, [] =>
        match filter (fun c => negb (is_lt c)) (rev back) with
        | w :: _ => Some [w]
        | [] => None
        end
    end
  else None.

(** The leftmost place where a pattern matches. *)
Fixpoint first_match {A} (f : list ascii -> option A) (l : list ascii) : option A :=
  match f l with
  | Some x => Some x
  | None =>
      match l with
      | [] => None
      | _ :: r => first_match f r
      end
  end.

(** [content.match(/module\s+(.+)/)]: the captured group. *)
Definition module_match (content : string) : option string :=
  option_map str (first_match module_at (chars content)).

(** [a.pop()] on the pieces of a split, which are never none. *)
Definition pop (l : list string) : string := last l "".

Definition go_body (content : string) : list stmt := [
  does (set_detected true);
  does (set_type "go");
  does (fun a =>
    match module_match content with
    | Some m =>
        let modulePath := trim m in
        set_repository
          (VStr (if startsWith modulePath "github.com"
                 then "https://" +++ modulePath else ""))
          (set_name (VStr (pop (split "/"%char modulePath))) a)
    | None => a
    end);
  does (set_installCommand "go install");
  does (set_runCommand "go run .");
  does (set_buildCommand "go build");
  does (set_testCommand "go test ./...")
].

Definition go_probe (d : directory) (a : analysis) : analysis :=
  if exists_file (go_mod d) then
    match read (go_mod d) with
    | Ok content => try_block (go_body content) a
    | Throw _ => a
    end
  else a.

Definition rust_body (toml : value) : list stmt :=
  let pkg := or_else (get_opt toml "package") (VObj []) in
  [ does (set_detected true);
    does (set_type "rust");
    (fun a => x <- get pkg "name" ;; Ok (set_name (or_else x (name a)) a));
    copy_or pkg "description" (VStr "") set_description;
    copy_or pkg "version" (VStr "") set_version;
    copy_or pkg "license" (VStr "") set_license;
    copy_or pkg "repository" (VStr "") set_repository;
    copy_or pkg "homepage" (VStr "") set_homepage;
    copy_or pkg "keywords" (VArr []) set_keywords;
    copy_authors pkg;
    does (set_installCommand "cargo install --path .");
    does (set_runCommand "cargo run");
    does (set_buildCommand "cargo build --release");
    does (set_testCommand "cargo test") ].

(** The Rust step, given what reading and parsing Cargo.toml does. *)
Definition rust_probe_on (rs : result object) (d : directory) (a : analysis)
    : analysis :=
  if exists_file (Cargo_toml d) then
    match rs with
    | Ok toml => try_block (rust_body (VObj toml)) a
    | Throw _ => a
    end
  else a.

Definition rust_probe (d : directory) (a : analysis) : analysis :=
  rust_probe_on (parsed (Cargo_toml d)) d a.

(** The record [analyzeProject] starts from. *)
Definition initial (d : directory) : analysis := {|
  dir := path d;
  detected := false;
  type := "unknown";
  name := VStr (basename (path d));
  description := VStr "";
  version := VStr "";
  author := VStr "";
  license := VStr "";
  repository := VStr "";
  homepage := VStr "";
  keywords := VArr [];
  dependencies := [];
  devDependencies := [];
  scripts := VObj [];
  features := [];
  structure := Structure.empty;
  installCommand := "";
  runCommand := "";
  buildCommand := "";
  testCommand := ""
|}.

(** The four probes, in the order of the source; [py] and [rs] are what
    the two calls of [parseToml] do. *)
Definition probes_on (py rs : result object) (d : directory) : analysis :=
  rust_probe_on rs d (go_probe d (python_probe_on py d (node_probe d (initial d)))).

Definition probes (d : directory) : analysis :=
  rust_probe d (go_probe d (python_probe d (node_probe d (initial d)))).

(** What follows the probes: structure, features and the merged
    scripts. *)
Definition finish (d : directory) (a : analysis) : analysis :=
  let a := set_structure (analyzeStructure d) a in
  let a := set_features (extractFeatures d (type a)) a in
  set_scripts (VObj (spread (own_props (scripts a)) (detectScripts d (type a)))) a.

Definition analyzeProject_on (py rs : result object) (d : directory) : analysis :=
  finish d (probes_on py rs d).

Definition analyzeProject (d : directory) : analysis :=
  finish d (probes d).

End Analyzer.

(** ** generator.js *)

Module Generator.
Import Str JS Structure Record.

Definition NL : string := String (ascii_of_nat 10) "".

(** [name.replace(/[-_]/g, ' ')] *)
Definition is_sep (c : ascii) : bool := (code c =? 45) || (code c =? 95).

(** [s.replace(/\b\w/g, c => c.toUpperCase())]: a word character whose
    left neighbour is not one (or is missing) goes to upper case. *)
Fixpoint cap_words (prev_word : bool) (l : list ascii) : list ascii :=
  match l with
  | [] => []
  | c :: r =>
      (if is_word c && negb prev_word then to_upper_c c else c)
        :: cap_words (is_word c) r
  end.

Definition formatTitle (name : value) : result string :=
  if negb (truthy name) then Ok "Project"
  else
    n <- as_string name ;;
    Ok (str (cap_words false (chars (replace_char is_sep " "%char n)))).

(** [s.replace(/[-_](.)/g, (_, c) => c.toUpperCase())] *)
Fixpoint camel (l : list ascii) : list ascii :=
  match l with
  | [] => []
  | c :: l' =>
      match l' with
      | d :: r =>
          if is_sep c && negb (is_lt d) then to_upper_c d :: camel r
          else c :: camel l'
      | [] => [c]
      end
  end.

(** [s.replace(/^(.)/, c => c.toLowerCase())] *)
Definition lower_first (l : list ascii) : list ascii :=
  match l with
  | c :: r => to_lower_c c :: r
  | [] => []
  end.

Definition toCamelCase (s : value) : result string :=
  n <- as_string s ;; Ok (str (lower_first (camel (chars n)))).

Definition descriptions : list (string * string) := [
  ("test", "Run tests");
  ("build", "Build the project");
  ("start", "Start the application");
  ("dev", "Run in development mode");
  ("lint", "Run linter");
  ("format", "Format code")
].

Fixpoint table_lookup (k : string) (t : list (string * string)) : option string :=
  match t with
  | [] => None
  | (k', v) :: r => if k' == k then Some v else table_lookup k r
  end.

(** [descriptions[name] || script.substring(0, 50)] *)
Definition describeScript (name : string) (script : value) : result string :=
  match table_lookup name descriptions with
  | Some d => Ok d
  | None => s <- as_string script ;; Ok (substring0 50 s)
  end.

(** [encodeURIComponent]: the bytes of the UTF-8 text, each one kept
    when it is unreserved and written [%XX] otherwise.  A surrogate
    that is not part of a pair has no UTF-8 form, and the function
    throws; in the text it is the three bytes ED, A0..BF, 80..BF. *)
Definition unreserved (c : ascii) : bool :=
  is_alpha c || is_digit c ||
  existsb (fun n => code c =? n) [45; 95; 46; 33; 126; 42; 39; 40; 41].

Definition hex_digit (n : nat) : ascii :=
  ascii_of_nat (if n <? 10 then 48 + n else 55 + n).

Definition encode_char (c : ascii) : list ascii :=
  if unreserved c then [c]
  else ["%"%char; hex_digit (code c / 16); hex_digit (code c mod 16)].

Fixpoint lone_surrogate (l : list ascii) : bool :=
  match l with
  | [] => false
  | c :: r =>
      match r with
      | d :: _ => (code c =? 237) && (160 <=? code d) && (code d <=? 191)
      | [] => false
      end || lone_surrogate r
  end.

Definition encodeURIComponent (s : string) : result string :=
  if lone_surrogate (chars s) then Throw URIError
  else Ok (str (flat_map encode_char (chars s))).

(** [/github\.com[\/:]([^\/]+\/[^\/\.]+)/] tried at the head of [l]: the
    captured group. *)
Definition github_at (l : list ascii) : option (list ascii) :=
  if starts_l (chars "github.com") l then
    match skipn 10 l with
    | c :: r =>
        if (code c =? 47) || (code c =? 58) then
          let owner := take_while (fun x => negb (code x =? 47)) r in
          match drop_while (fun x => negb (code x =? 47)) r with
          | sl :: r2 =>
              let repo :=
                take_while (fun x => negb ((code x =? 47) || (code x =? 46))) r2 in
              if negb (Num.is_nil owner) && negb (Num.is_nil repo)
              then Some (owner ++ sl :: repo) else None
          | [] => None
          end
        else None
    | [] => None
    end
  else None.

Definition github_match (repository : string) : option string :=
  option_map str (Analyzer.first_match github_at (chars repository)).

(** [v.includes(x)]: a string method and an array method; no other
    value has it. *)
Definition includes_method (v : value) (x : string) : result bool :=
  match v with
  | VStr s => Ok (includes s x)
  | VArr l => Ok (existsb (fun e => match e with VStr y => y == x | _ => false end) l)
  | _ => Throw TypeError
  end.

Definition npm_badges (a : analysis) : result (list string) :=
  if (type a == "node") && truthy (name a) then
    nm <- as_string (name a) ;;
    if negb (startsWith nm ".") then
      n <- to_string (name a) ;;
      Ok [ "[![npm version](https://img.shields.io/npm/v/" +++ n
             +++ ".svg)](https://www.npmjs.com/package/" +++ n +++ ")";
           "[![npm downloads](https://img.shields.io/npm/dm/" +++ n
             +++ ".svg)](https://www.npmjs.com/package/" +++ n +++ ")" ]
    else Ok []
  else Ok [].

Definition crates_badges (a : analysis) : result (list string) :=
  if (type a == "rust") && truthy (name a) then
    n <- to_string (name a) ;;
    Ok [ "[![Crates.io](https://img.shields.io/crates/v/" +++ n
           +++ ".svg)](https://crates.io/crates/" +++ n +++ ")";
         "[![Crates.io](https://img.shields.io/crates/d/" +++ n
           +++ ".svg)](https://crates.io/crates/" +++ n +++ ")" ]
  else Ok [].

Definition pypi_badges (a : analysis) : result (list string) :=
  if (type a == "python") && truthy (name a) then
    n <- to_string (name a) ;;
    Ok [ "[![PyPI version](https://img.shields.io/pypi/v/" +++ n
           +++ ".svg)](https://pypi.org/project/" +++ n +++ "/)";
         "[![PyPI downloads](https://img.shields.io/pypi/dm/" +++ n
           +++ ".svg)](https://pypi.org/project/" +++ n +++ "/)" ]
  else Ok [].

(** The license badge.  [licenseSlug] is computed and not used; its
    [toLowerCase] still needs a string. *)
Definition license_badge (a : analysis) : result (list string) :=
  if truthy (license a) then
    _ <- as_string (license a) ;;
    l <- to_string (license a) ;;
    e <- encodeURIComponent l ;;
    Ok [ "[![License: " +++ l
           +++ "](https://img.shields.io/badge/License-" +++ e
           +++ "-blue.svg)](LICENSE)" ]
  else Ok [].

Definition stars_badge (repo : string) : string :=
  "[![GitHub stars](https://img.shields.io/github/stars/" +++ repo
    +++ ".svg?style=social)](https://github.com/" +++ repo +++ ")".

Definition github_badge (a : analysis) : result (list string) :=
  if truthy (repository a) then
    inc <- includes_method (repository a) "github.com" ;;
    if inc : bool then
      r <- as_string (repository a) ;;
      match github_match r with
      | Some repo => Ok [stars_badge repo]
      | None => Ok []
      end
    else Ok []
  else Ok [].

Definition generateBadges (a : analysis) : result (list string) :=
  b1 <- npm_badges a ;;
  b2 <- crates_badges a ;;
  b3 <- pypi_badges a ;;
  b4 <- license_badge a ;;
  b5 <- github_badge a ;;
  Ok (b1 ++ b2 ++ b3 ++ b4 ++ b5).

(** [analysis.scripts && Object.keys(analysis.scripts).some(k =>
    k.includes('bin')) || analysis.runCommand?.includes('npx')] *)
Definition is_cli (a : analysis) : bool :=
  (truthy (scripts a) &&
   match keys (scripts a) with
   | Ok ks => existsb (fun k => includes k "bin") ks
   | Throw _ => false
   end)
  || includes (runCommand a) "npx".

Definition installation_lines (a : analysis) : result (list string) :=
  if type a == "node" then
    n <- to_string (name a) ;;
    Ok ([ "```bash"; "# Using npm"; "npm install " +++ n; "";
          "# Using yarn"; "yarn add " +++ n; "";
          "# Using pnpm"; "pnpm add " +++ n ]
        ++ (if is_cli a
            then [ ""; "# Or run directly with npx"; "npx " +++ n ] else [])
        ++ [ "```" ])
  else if type a == "python" then
    n <- to_string (name a) ;;
    Ok [ "```bash"; "# Using pip"; "pip install " +++ n; "";
         "# Using poetry"; "poetry add " +++ n; "```" ]
  else if type a == "go" then
    r <- to_string (or_else (repository a) (name a)) ;;
    Ok [ "```bash"; "go install " +++ r +++ "@latest"; "```" ]
  else if type a == "rust" then
    n <- to_string (name a) ;;
    v <- to_string (or_else (version a) (VStr "*")) ;;
    Ok [ "```bash"; "# Using cargo"; "cargo install " +++ n; "";
         "# Or add to Cargo.toml"; "```"; ""; "```toml"; "[dependencies]";
         n +++ " = " +++ DQ +++ v +++ DQ;
         "```" ]
  else
    c <- (if truthy (repository a) then to_string (repository a)
          else n <- to_string (name a) ;;
               Ok ("https://github.com/username/" +++ n)) ;;
    n <- to_string (name a) ;;
    Ok ([ "```bash"; "# Clone the repository"; "git clone " +++ c; "cd " +++ n ]
        ++ (if negb (is_empty (installCommand a))
            then [ ""; "# Install dependencies"; installCommand a ] else [])
        ++ [ "```" ]).

Definition generateInstallation (a : analysis) : result string :=
  l <- installation_lines a ;; Ok (join NL l).

Definition usage_lines (a : analysis) : result (list string) :=
  if type a == "node" then
    cc <- toCamelCase (name a) ;;
    n <- to_string (name a) ;;
    Ok ((if includes (runCommand a) "npx"
         then [ "```bash"; runCommand a; "```"; "";
                "Or use programmatically:"; "" ]
         else [])
        ++ [ "```javascript";
             "const " +++ cc +++ " = require('" +++ n +++ "');";
             ""; "// Example usage"; "// " +++ cc +++ ".doSomething();"; "```" ])
  else if type a == "python" then
    n <- as_string (name a) ;;
    let m := replace_char Analyzer.is_hyphen "_"%char n in
    Ok [ "```python"; "import " +++ m; ""; "# Example usage";
         "# " +++ m +++ ".do_something()"; "```" ]
  else if type a == "go" then
    r <- to_string (or_else (repository a) (name a)) ;;
    Ok [ "```go"; "import " +++ DQ +++ r +++ DQ;
         ""; "func main() {"; "    // Example usage"; "}"; "```" ]
  else if type a == "rust" then
    n <- as_string (name a) ;;
    Ok [ "```rust"; "use " +++ replace_char Analyzer.is_hyphen "_"%char n +++ ";";
         ""; "fn main() {"; "    // Example usage"; "}"; "```" ]
  else if negb (is_empty (runCommand a)) then
    Ok [ "```bash"; runCommand a; "```" ]
  else
    Ok [ "```bash"; "# Add usage examples here"; "```" ].

Definition generateUsage (a : analysis) : result string :=
  l <- usage_lines a ;; Ok (join NL l).

Definition is_table_script (name : string) : bool :=
  (name == "test") || (name == "build") || (name == "start").

(** The rows of the command table: the body of
    [for (const [name, script] of Object.entries(analysis.scripts))]. *)
Fixpoint api_rows (es : list (string * value)) : result (list string) :=
  match es with
  | [] => Ok []
  | (name, script) :: r =>
      if negb (is_table_script name) then api_rows r
      else
        d <- describeScript name script ;;
        rows <- api_rows r ;;
        Ok (("| `npm run " +++ name +++ "` | " +++ d +++ " |") :: rows)
  end.

Definition has_scripts (a : analysis) : bool :=
  (type a == "node") && truthy (scripts a) &&
  match keys (scripts a) with
  | Ok ks => negb (Num.is_nil ks)
  | Throw _ => false
  end.

Definition cli_lines (a : analysis) : result (list string) :=
  if includes (runCommand a) "npx" || hasBin (structure a) then
    n <- to_string (name a) ;;
    Ok [ "### CLI Options"; ""; "```"; n +++ " [options]"; "";
         "Options:"; "  -h, --help     Show help message";
         "  -v, --version  Show version number"; "```" ]
  else Ok [].

Definition api_lines (a : analysis) : result (list string) :=
  table <- (if has_scripts a then
              rows <- api_rows (entries (own_props (scripts a))) ;;
              Ok ([ "| Command | Description |"; "|---------|-------------|" ]
                  ++ rows ++ [ "" ])
            else Ok []) ;;
  cli <- cli_lines a ;;
  Ok ([ "### Available Commands"; "" ] ++ table ++ cli).

Definition generateApi (a : analysis) : result string :=
  l <- api_lines a ;; Ok (join NL l).

Definition generic_features (type : string) : list string :=
  if type == "node" then
    [ "Easy to use API"; "Zero/minimal dependencies"; "Well documented" ]
  else if type == "python" then
    [ "Pythonic API design"; "Type hints support"; "Well documented" ]
  else if type == "go" then
    [ "Fast and efficient"; "Simple API"; "Well documented" ]
  else if type == "rust" then
    [ "Memory safe"; "High performance"; "Well documented" ]
  else [ "Easy to use"; "Well documented" ].

Definition generateFeatures (a : analysis) : string :=
  let fs := if Num.is_nil (features a) then generic_features (type a)
            else features a in
  join NL (map (fun f => "- " +++ f) fs).

Definition generateContributing (a : analysis) : string :=
  join NL [
    "Contributions are welcome! Please feel free to submit a Pull Request.";
    "";
    "1. Fork the repository";
    "2. Create your feature branch (`git checkout -b feature/amazing-feature`)";
    "3. Commit your changes (`git commit -m 'Add some amazing feature'`)";
    "4. Push to the branch (`git push origin feature/amazing-feature`)";
    "5. Open a Pull Request";
    "";
    "Please make sure to update tests as appropriate and adhere to the existing coding style."
  ].

Definition toc : list string := [
  "## Table of Contents"; "";
  "- [Features](#features)";
  "- [Installation](#installation)";
  "- [Usage](#usage)";
  "- [API](#api)";
  "- [Contributing](#contributing)";
  "- [License](#license)";
  ""
].

Definition description_line (a : analysis) : result string :=
  if truthy (description a) then
    t <- to_string (description a) ;; Ok ("> " +++ t)
  else Ok ("> A " +++ (if is_empty (type a) then "project" else type a)
             +++ " project").

Definition license_line (a : analysis) : result string :=
  if truthy (license a) then
    l <- to_string (license a) ;;
    Ok ("This project is licensed under the " +++ l
          +++ " License - see the [LICENSE](LICENSE) file for details.")
  else
    Ok "This project is licensed under the MIT License - see the [LICENSE](LICENSE) file for details.".

Definition footer (a : analysis) : result (list string) :=
  if truthy (author a) then
    t <- to_string (author a) ;;
    Ok [ "---"; ""; "Made with ❤️ by " +++ t ]
  else Ok [].

(** The pushes of [generateReadme], in the order of the source. *)
Definition sections (a : analysis) : result (list string) :=
  title <- formatTitle (name a) ;;
  badges <- generateBadges a ;;
  description <- description_line a ;;
  installation <- generateInstallation a ;;
  usage <- generateUsage a ;;
  api <- generateApi a ;;
  license <- license_line a ;;
  foot <- footer a ;;
  Ok ([ "# " +++ title; "" ]
      ++ (if negb (Num.is_nil badges) then [ join " " badges; "" ] else [])
      ++ [ description; "" ]
      ++ toc
      ++ [ "## Features"; ""; generateFeatures a; "" ]
      ++ [ "## Installation"; ""; installation; "" ]
      ++ [ "## Usage"; ""; usage; "" ]
      ++ [ "## API"; ""; api; "" ]
      ++ [ "## Contributing"; ""; generateContributing a; "" ]
      ++ [ "## License"; ""; license; "" ]
      ++ foot).

Definition generateReadme (a : analysis) : result string :=
  l <- sections a ;; Ok (join NL l).

End Generator.

(** ** Inputs of the scenarios *)

Module Scenario.
Import Str JS FS Structure Record.

Definition NL : string := Generator.NL.

Definition unlines (ls : list string) : string := join NL ls.

(** A TOML text with lines that match no pattern. *)
Definition lines_with_noise : list string :=
  [ "[tool.poetry]"; "name = widget"; "this line is no pair"; "[unclosed";
    "  # note"; "[tool.pytest]"; "=nokey"; "answer = 42" ].

(** A TOML text with a section header under a key bound to a number. *)
Definition scalar_then_header : string :=
  unlines [ "a = 1"; "[a.b.c]" ].

Definition file_entry (n : string) : entry := {| FS.name := n; isDirectory := false |}.

(** A directory with no manifest and the given children. *)
Definition bare (p : string) (es : list entry) : directory := {|
  path := p;
  package_json := JAbsent;
  pyproject_toml := Absent;
  setup_py := false;
  requirements_txt := false;
  go_mod := Absent;
  Cargo_toml := Absent;
  Makefile := Absent;
  children := Some es
|}.

Definition with_go_mod (text : string) (d : directory) : directory := {|
  path := path d;
  package_json := package_json d;
  pyproject_toml := pyproject_toml d;
  setup_py := setup_py d;
  requirements_txt := requirements_txt d;
  go_mod := Content text;
  Cargo_toml := Cargo_toml d;
  Makefile := Makefile d;
  children := children d
|}.

Definition with_Cargo_toml (text : string) (d : directory) : directory := {|
  path := path d;
  package_json := package_json d;
  pyproject_toml := pyproject_toml d;
  setup_py := setup_py d;
  requirements_txt := requirements_txt d;
  go_mod := go_mod d;
  Cargo_toml := Content text;
  Makefile := Makefile d;
  children := children d
|}.

Definition with_pyproject_toml (text : string) (d : directory) : directory := {|
  path := path d;
  package_json := package_json d;
  pyproject_toml := Content text;
  setup_py := setup_py d;
  requirements_txt := requirements_txt d;
  go_mod := go_mod d;
  Cargo_toml := Cargo_toml d;
  Makefile := Makefile d;
  children := children d
|}.

(** go.mod and a Cargo.toml that [parseToml] throws on. *)
Definition go_and_broken_cargo : directory :=
  with_Cargo_toml scalar_then_header
    (with_go_mod "module github.com/acme/widget"
       (bare "/work/widget" [ file_entry "go.mod"; file_entry "Cargo.toml" ])).

(** go.mod and a Cargo.toml with a package table. *)
Definition go_and_cargo : directory :=
  with_Cargo_toml (unlines [ "[package]"; "name = " +++ DQ +++ "widget" +++ DQ ])
    (with_go_mod "module github.com/acme/widget"
       (bare "/work/widget" [ file_entry "go.mod"; file_entry "Cargo.toml" ])).

(** Only a go.mod, with the module line of the end-to-end scenario. *)
Definition acme_widget : directory :=
  with_go_mod "module github.com/acme/widget"
    (bare "/work/checkout" [ file_entry "go.mod" ]).





(** Only a go.mod, whose module path ends in a slash. *)
Definition go_trailing_slash : directory :=
  with_go_mod "module github.com/acme/"
    (bare "/work/widget" [ file_entry "go.mod" ]).

(** Only a pyproject.toml, whose project name is a number. *)
Definition numeric_name : directory :=
  with_pyproject_toml (unlines [ "[project]"; "name = 5" ])
    (bare "/work/five" [ file_entry "pyproject.toml" ]).

(** A regular file named [.github] and nothing else. *)
Definition dot_github_file : directory :=
  bare "/work/odd" [ file_entry ".github" ].

(** A Makefile with targets, a dot target, a target with a digit and an
    indented line. *)
Definition sample_makefile : string :=
  unlines [ "all: build"; ".PHONY: all"; "v2:"; "  deep:"; "run_it-now:" ].


(** A node record with the scripts test, lint and build. *)
Definition node_with_scripts : analysis :=
  set_scripts (VObj [ ("test", VStr "jest"); ("lint", VStr "eslint .");
                      ("build", VStr "tsc") ])
    (set_type "node" (Analyzer.initial (bare "/work/pkg" []))).

(** The all-default record: no manifest, type unknown. *)
Definition default_record : analysis :=
  Analyzer.analyzeProject (bare "/work/plain" []).

End Scenario.

(** ** Predicates of the statements *)

Module Spec.
Import Str JS FS Structure Record.

(** A line of text: no line feed inside. *)
Definition no_LF (s : string) : bool :=
  forallb (fun c => negb (Ascii.eqb c Toml.LF)) (chars s).

(** A line that is neither blank, nor a comment, nor a section header,
    nor a key/value pair. *)
Definition unmatched (line : string) : bool :=
  let t := trim line in
  negb (is_empty t) && negb (startsWith t "#")
  && match Toml.section_match t with Some _ => false | None => true end
  && match Toml.kv_match t with Some _ => false | None => true end.

(** A line that is read as a section header. *)
Definition is_header (line : string) : bool :=
  match Toml.classify line with
  | Toml.Header _ => true
  | _ => false
  end.

(** The name of a CI indicator. *)
Definition ci_name (e : entry) : bool :=
  (FS.name e == ".github") || (FS.name e == ".gitlab-ci.yml").

(** A child whose name does not start with a dot. *)
Definition visible (e : entry) : bool := negb (startsWith (FS.name e) ".").

(** The directory without its dot-prefixed children. *)
Definition without_dot_children (d : directory) : directory := {|
  path := path d;
  package_json := package_json d;
  pyproject_toml := pyproject_toml d;
  setup_py := setup_py d;
  requirements_txt := requirements_txt d;
  go_mod := go_mod d;
  Cargo_toml := Cargo_toml d;
  Makefile := Makefile d;
  children := option_map (filter visible) (children d)
|}.

(** The record with [hasCI] put back to false. *)
Definition clear_hasCI (s : Structure.structure) : Structure.structure :=
  {| hasTests := hasTests s; hasDocs := hasDocs s; hasExamples := hasExamples s;
     hasSrc := hasSrc s; hasLib := hasLib s; hasBin := hasBin s;
     hasConfig := hasConfig s; hasCI := false;
     mainFiles := mainFiles s; directories := directories s |}.




(** The row of the command table for a script name: the description
    comes from the fixed table. *)
Definition table_row (name : string) : string :=
  "| `npm run " +++ name +++ "` | "
    +++ match Generator.table_lookup name Generator.descriptions with
        | Some d => d
        | None => ""
        end +++ " |".

(** Names that do not start with a dot. *)
Definition no_dot_names (l : list string) : Prop :=
  Forall (fun n => startsWith n "." = false) l.

(** A statement of a try block that leaves a field as it is. *)
Definition keeps {X} (f : analysis -> X) (s : Analyzer.stmt) : Prop :=
  forall a a', s a = Ok a' -> f a' = f a.

End Spec.

(** ** bin/readme-forge.js: the command line

    The arguments are [process.argv.slice(2)].  What the process prints
    is left out; a run is described by how it ends.  The platform is an
    input: the working directory, [path.resolve], [path.join(dir,
    'README.md')], [fs.existsSync], the content of a directory as the
    analyzer reads it, and whether [fs.writeFileSync] succeeds. *)

Module Cli.
Import Str JS FS Record.

Record flags : Type := {
  help : bool;
  version : bool;
  force : bool;
  output : option string;      (* [null] is [None] *)
  dirArg : option string       (* [undefined] is [None] *)
}.







Record platform : Type := {
  cwd : string;
  resolve : string -> string;
  join_readme : string -> string;
  exists_path : string -> bool;
  listing : string -> directory;
  can_write : string -> bool
}.

(** [flags.dir]: the working directory, unless [dirArg] is truthy. *)
Definition target_dir (p : platform) (f : flags) : string :=
  match dirArg f with
  | Some a => if is_empty a then cwd p else resolve p a
  | None => cwd p
  end.

(** [flags.output || path.join(flags.dir, 'README.md')] *)
Definition output_path (p : platform) (f : flags) : string :=
  match output f with
  | Some o => o
  | None => join_readme p (target_dir p f)
  end.

(** The directory the analyzer reads at a path. *)
Definition directory_at (p : platform) (dir : string) : directory :=
  let d := listing p dir in
  {| path := dir;
     package_json := package_json d;
     pyproject_toml := pyproject_toml d;
     setup_py := setup_py d;
     requirements_txt := requirements_txt d;
     go_mod := go_mod d;
     Cargo_toml := Cargo_toml d;
     Makefile := Makefile d;
     children := children d |}.

Inductive outcome : Type :=
| ShowedHelp
| ShowedVersion
| DirectoryNotFound (dir : string)
| OutputExists (out : string)
| Written (out : string) (readme : string)
| Failed.                    (* the [catch] of [main] *)


Definition main (p : platform) (f : flags) : outcome :=
  let dir := target_dir p f in
  if negb (exists_path p dir) then DirectoryNotFound dir
  else
    let outputPath := output_path p f in
    if exists_path p outputPath && negb (force f) then OutputExists outputPath
    else
      match Generator.generateReadme
              (Analyzer.analyzeProject (directory_at p dir)) with
      | Ok readme =>
          if can_write p outputPath then Written outputPath readme else Failed
      | Throw _ => Failed
      end.


(** A platform with one project at [/work/app] and nothing else. *)
Definition one_project : platform := {|
  cwd := "/work/app";
  resolve := fun a => a;
  join_readme := fun dir => dir +++ "/README.md";
  exists_path := fun x => (x == "/work/app") || (x == "/work/app/README.md");
  listing := fun _ => {|
    path := "";
    package_json := JAbsent;
    pyproject_toml := Absent;
    setup_py := false;
    requirements_txt := false;
    go_mod := Absent;
    Cargo_toml := Absent;
    Makefile := Absent;
    children := Some []
  |};
  can_write := fun _ => true
|}.

End Cli.

(** ** Predicates of the further statements *)

Module Laws.
Import Str JS FS Structure Record.

Definition readable (f : file) : bool :=
  match f with Content _ => true | _ => false end.

Definition json_parsed (f : json_file) : bool :=
  match f with JParsed _ => true | _ => false end.

(** A computation that returns. *)
Definition returns {A} (r : result A) : bool :=
  match r with Ok _ => true | Throw _ => false end.

(** A TOML manifest that is there and is read and parsed without an
    exception; [r] is what [parseToml(fs.readFileSync(...))] does on
    it. *)
Definition parsed_ok (f : file) (r : result object) : bool :=
  exists_file f && returns r.

(** The Python probe detects: a pyproject.toml that is read and parsed
    ([py] is what reading and parsing it does), or, with no
    pyproject.toml at all, a setup.py or a requirements.txt. *)
Definition python_detects_on (py : result object) (d : directory) : bool :=
  if exists_file (pyproject_toml d) then returns py
  else setup_py d || requirements_txt d.

(** The ecosystem of the last probe that detects; [rs] is what reading
    and parsing Cargo.toml does. *)
Definition last_detected_on (py rs : result object) (d : directory) : string :=
  if exists_file (Cargo_toml d) && returns rs then "rust"
  else if readable (go_mod d) then "go"
  else if python_detects_on py d then "python"
  else if json_parsed (package_json d) then "node"
  else "unknown".



(** package.json and requirements.txt side by side. *)
Definition node_and_requirements : directory := {|
  path := "/srv/tooling";
  package_json :=
    JParsed (VObj [ ("name", VStr "tooling"); ("main", VStr "index.js") ]);
  pyproject_toml := Absent;
  setup_py := false;
  requirements_txt := true;
  go_mod := Absent;
  Cargo_toml := Absent;
  Makefile := Absent;
  children := Some [ Scenario.file_entry "package.json";
                     Scenario.file_entry "requirements.txt" ]
|}.


(** A value that is neither null nor undefined. *)
Definition non_nullish (v : value) : bool :=
  match v with VUndef | VNull => false | _ => true end.

(** Only a package.json, with the given parsed content. *)
Definition node_only (pkg : value) : directory := {|
  path := "/srv/app";
  package_json := JParsed pkg;
  pyproject_toml := Absent;
  setup_py := false;
  requirements_txt := false;
  go_mod := Absent;
  Cargo_toml := Absent;
  Makefile := Absent;
  children := Some [ Scenario.file_entry "package.json" ]
|}.

(** The phrases [extractFeatures] can push, in the order of the source. *)
Definition structure_phrases : list string :=
  [ "Comprehensive test suite"; "Detailed documentation";
    "Example code included"; "CI/CD integration"; "CLI support" ].

Definition node_phrases : list string :=
  [ "Executable CLI tool"; "TypeScript definitions";
    "Test scripts configured"; "Build system configured" ].

(** The conditional pushes of a run, as (condition, phrase) pairs. *)
Definition pushed (l : list (bool * string)) : list string :=
  map snd (filter fst l).



Definition is_slash_only (p : string) : bool :=
  forallb is_slash (chars p).

Definition slash_free (p : string) : bool :=
  forallb (fun c => negb (is_slash c)) (chars p).

(** The double quote, as a character. *)
Definition DQc : ascii := ascii_of_nat 34.

(** A character of a bare key: a word character, a hyphen or a dot. *)
Definition is_key_char (c : ascii) : bool :=
  is_word c || (code c =? 45) || (code c =? 46).

Definition key_like (k : string) : bool :=
  negb (is_empty k) && forallb is_key_char (chars k).

(** No line terminator inside. *)
Definition one_line (s : string) : bool :=
  forallb (fun c => negb (is_lt c)) (chars s).

(** The name of a section header: not empty, no closing bracket, no
    line feed. *)
Definition header_name (n : string) : bool :=
  negb (is_empty n) && forallb (Toml.not_char 93) (chars n) && Spec.no_LF n.

(** The nested mappings a path of keys leads through, down to [leaf]. *)
Fixpoint nest_on (parts : list string) (leaf : object) : object :=
  match parts with
  | [] => leaf
  | k :: r => [ (k, VObj (nest_on r leaf)) ]
  end.

(** The key/value pairs of the lines, in order. *)
Definition bindings (ls : list string) : object :=
  flat_map (fun l => match Toml.classify l with
                     | Toml.KeyValue k v => [ (k, v) ]
                     | _ => []
                     end) ls.

(** A pair the parser stores: any key but [__proto__]. *)
Definition stored (kv : string * value) : bool :=
  negb (fst kv == "__proto__").

(** A computation that ends in an exception. *)
Definition throws {A} (r : result A) : bool :=
  match r with Ok _ => false | Throw _ => true end.

(** The types whose usage block calls a string method of the name. *)
Definition name_method_type (ty : string) : bool :=
  (ty == "node") || (ty == "python") || (ty == "rust").

(** A truthy repository on which the badge code throws: neither a
    string nor an array, or an array that has the text github.com as an
    element (it passes [includes] and has no [match]). *)
Definition repository_fails (v : value) : bool :=
  match v with
  | VStr _ => false
  | VArr l => existsb (fun e => match e with VStr y => y == "github.com" | _ => false end) l
  | _ => true
  end.

(** A value a template literal can print: no object with an own
    [toString] property in it. *)
Definition prints (v : value) : bool := returns (to_string v).

(** A license text that [encodeURIComponent] refuses. *)
Definition unencodable (v : value) : bool :=
  match v with
  | VStr s => Generator.lone_surrogate (chars s)
  | _ => false
  end.

(** A name the title cannot be made of: truthy and not a string. *)
Definition name_fails (a : analysis) : bool :=
  truthy (name a) && negb (is_string (name a)).

(** The records on which [generateReadme] throws.  The repository is
    printed in the go block and in the default block, the version in
    the rust block. *)
Definition readme_throws (a : analysis) : bool :=
  name_fails a
  || (name_method_type (type a) && negb (is_string (name a)))
  || (truthy (license a)
      && (negb (is_string (license a)) || unencodable (license a)))
  || (truthy (repository a) && repository_fails (repository a))
  || negb (prints (description a))
  || (negb (name_method_type (type a)) && negb (prints (repository a)))
  || ((type a == "rust") && negb (prints (version a)))
  || negb (prints (author a)).

(** The property names every object inherits from [Object.prototype]. *)
Definition inherited : list string :=
  [ "constructor"; "__proto__"; "toString"; "toLocaleString"; "valueOf";
    "hasOwnProperty"; "isPrototypeOf"; "propertyIsEnumerable";
    "__defineGetter__"; "__defineSetter__";
    "__lookupGetter__"; "__lookupSetter__" ].

Definition mem (x : string) (l : list string) : bool :=
  existsb (String.eqb x) l.

(** A text of ASCII characters. *)
Definition ascii_text (s : string) : bool :=
  forallb (fun c => code c <? 128) (chars s).

(** The parts of the section headers of the lines. *)
Definition header_parts (ls : list string) : list string :=
  flat_map (fun l => match Toml.classify l with
                     | Toml.Header n => split "."%char n
                     | _ => []
                     end) ls.

(** The keys the lines assign. *)
Definition assigned_keys (ls : list string) : list string :=
  flat_map (fun l => match Toml.classify l with
                     | Toml.KeyValue k _ => [ k ]
                     | _ => []
                     end) ls.

(** A TOML text on which the parser only ever meets the own properties
    of the mappings it builds: the text is ASCII, and no part of a
    section header is a property every object inherits, or a key the
    text assigns (the walk of a header then goes through mappings
    only). *)
Definition plain (text : string) : bool :=
  let ls := split Toml.LF text in
  ascii_text text
  && forallb (fun part => negb (mem part inherited)
                          && negb (mem part (assigned_keys ls)))
             (header_parts ls).

(** A key that is not among the keys [K]. *)
Definition unassigned (K : list string) (k : string) : bool := negb (mem k K).

(** A line the parser gets through on a mapping that is [tidy]: a pair
    assigns one of the keys [K], a header has no part that is an
    inherited name or one of the keys [K]. *)
Definition line_ok (K : list string) (l : string) : bool :=
  match Toml.classify l with
  | Toml.Header n =>
      forallb (fun part => negb (mem part inherited) && unassigned K part)
              (split "."%char n)
  | Toml.KeyValue k _ => mem k K
  | _ => true
  end.

(** A mapping in which every key that is not among [K] is bound to a
    mapping of the same kind: only the keys [K] hold the values of
    key/value lines. *)
Inductive tidy (K : list string) : value -> Prop :=
| tidy_obj (o : object) :
    Forall (fun kv => mem (fst kv) K = true \/ tidy K (snd kv)) o ->
    tidy K (VObj o).

(** What the run command of the Node block prints: the name of the
    binary, or else the main file. *)
Definition run_target (pkg : value) (name : value) : option value :=
  let bin := get_opt pkg "bin" in
  if truthy bin then
    Some (if is_string bin then name
          else match keys bin with
               | Ok ks => Analyzer.first_key ks
               | Throw _ => VUndef
               end)
  else if truthy (get_opt pkg "main") then Some (get_opt pkg "main")
  else None.

(** A statement of a try block that never throws. *)
Definition total_stmt (s : Analyzer.stmt) : Prop :=
  forall a, exists a', s a = Ok a'.


(** What a probe decides: [detected] and [type]. *)
Definition verdict (a : analysis) : bool * string := (detected a, type a).

End Laws.

(** * Properties *)

Import Str JS FS Structure Record.

(** ** The model on small inputs *)

Section Evaluation.
Import Scenario.

Example number_of_string :
  map (fun s => Num.to_string (Num.of_string s))
      [ "5"; "1.50"; "1e3"; "0x1F"; ".5"; "5."; "-0"; "5e"; "1_000"; "abc" ]
  = [ "5"; "1.5"; "1000"; "31"; "0.5"; "5"; "0"; "NaN"; "NaN"; "NaN" ].
Proof. vm_compute. reflexivity. Qed.

(** Rounding to binary64: the 54th bit, the largest value, the smallest
    one, and the shortest digits that give the value back. *)
Example number_rounding :
  map (fun s => Num.to_string (Num.of_string s))
      [ "9007199254740993"; "0.1"; "0.30000000000000004"; "1e21";
        "123456789012345678901"; "1.7976931348623159e308"; "5e-324";
        "1e-400"; "0.0000001" ]
  = [ "9007199254740992"; "0.1"; "0.30000000000000004"; "1e+21";
      "123456789012345680000"; "Infinity"; "5e-324"; "0"; "1e-7" ]
  /\ Num.of_string "9007199254740993" = Num.Fin false 9007199254740992 0
  /\ Num.of_string "1.50" = Num.Fin false 15 (-1)
  /\ Num.truthy (Num.of_string "1e-400") = false.
Proof. vm_compute. repeat split. Qed.

Example conversions_to_string :
  to_string (VArr [ VStr "a"; VNull; VNum (Num.Fin false 15 (-1)); VArr [ VBool true ] ])
    = Ok "a,,1.5,true"
  /\ to_string (VObj [ ("name", VStr "x") ]) = Ok "[object Object]"
  /\ to_string (VObj [ ("toString", VNull) ]) = Throw TypeError
  /\ to_string (VArr [ VStr "a"; VObj [ ("toString", VStr "x") ] ]) = Throw TypeError.
Proof. vm_compute. repeat split. Qed.

Example trim_and_split :
  trim "  a.b  " = "a.b" /\ split "."%char "a.b" = [ "a"; "b" ]
  /\ split "/"%char "github.com/acme/" = [ "github.com"; "acme"; "" ]
  /\ split "."%char "" = [ "" ].
Proof. repeat split; vm_compute; reflexivity. Qed.

Example toml_line_kinds :
  map Toml.classify
      [ ""; "  # note"; "[a.b]"; "[[bin]]"; "k = v"; "= v"; "k ="; "junk";
        "n = 0x10"; "q = 'x'" ]
  = [ Toml.Skipped; Toml.Skipped; Toml.Header "a.b"; Toml.Unmatched;
      Toml.KeyValue "k" (VStr "v"); Toml.Unmatched; Toml.Unmatched;
      Toml.Unmatched; Toml.KeyValue "n" (VNum (Num.Fin false 16 0));
      Toml.KeyValue "q" (VStr "x") ].
Proof. vm_compute. reflexivity. Qed.

Example toml_sections_are_shared :
  Toml.parseToml (unlines [ "[a]"; "x = 1"; "[a.b]"; "y = 2"; "[a]"; "x = 3" ])
  = Ok [ ("a", VObj [ ("x", VNum (Num.Fin false 3 0));
                      ("b", VObj [ ("y", VNum (Num.Fin false 2 0)) ]) ]) ].
Proof. vm_compute. reflexivity. Qed.

Example module_lines :
  Analyzer.module_match (unlines [ "// go"; "module  example.com/x/y"; "go 1.21" ])
    = Some "example.com/x/y"
  /\ Analyzer.module_match "go 1.21" = None.
Proof. split; vm_compute; reflexivity. Qed.

Example makefile_matches :
  Analyzer.match_targets true (chars sample_makefile)
  = [ "all:"; "run_it-now:" ].
Proof. vm_compute. reflexivity. Qed.

Example titles_and_identifiers :
  Generator.formatTitle (VStr "my-cool_lib") = Ok "My Cool Lib"
  /\ Generator.formatTitle (VStr "") = Ok "Project"
  /\ Generator.toCamelCase (VStr "My-cool_lib") = Ok "myCoolLib"
  /\ Generator.encodeURIComponent "Apache 2.0/MIT" = Ok "Apache%202.0%2FMIT"
  /\ Generator.encodeURIComponent
       (str [ ascii_of_nat 237; ascii_of_nat 160; ascii_of_nat 128 ])
     = Throw URIError.
Proof. repeat split; vm_compute; reflexivity. Qed.

Example github_owner_and_repo :
  Generator.github_match "git+https://github.com/acme/widget.git" = Some "acme/widget"
  /\ Generator.github_match "git@github.com:acme/widget" = Some "acme/widget"
  /\ Generator.github_match "https://github.com/acme" = None.
Proof. repeat split; vm_compute; reflexivity. Qed.

Example default_installation :
  Generator.generateInstallation default_record
  = Ok (unlines [ "```bash"; "# Clone the repository";
              "git clone https://github.com/username/plain"; "cd plain";
              "```" ]).
Proof. vm_compute. reflexivity. Qed.

End Evaluation.

(** ** parseToml *)

Section TomlExamples.
Import Toml Scenario.

(** C6: [parseToml] on the text [[a.b]], [key = "v"] gives the nested
    path a, b, key bound to the string v; [flag = true] stores the
    boolean true and [count = 5] the number 5, not strings. *)
Theorem parseToml_nested_and_coerced :
  parseToml (unlines [ "[a.b]"; "key = " +++ DQ +++ "v" +++ DQ; "" ])
    = Ok [ ("a", VObj [ ("b", VObj [ ("key", VStr "v") ]) ]) ]
  /\ parseToml "flag = true" = Ok [ ("flag", VBool true) ]
  /\ parseToml "count = 5" = Ok [ ("count", VNum (Num.Fin false 5 0)) ]
  /\ parseToml (unlines [ "flag = true"; "count = 5" ])
       = Ok [ ("flag", VBool true); ("count", VNum (Num.Fin false 5 0)) ]
  /\ Num.to_string (Num.Fin false 5 0) = "5".
Proof. repeat split; vm_compute; reflexivity. Qed.

(** C7 fails on the code: on the text [a = 1], [[a.b.c]] the walk of
    the header, which creates the sections that are missing, steps
    into the number bound to [a]; the assignment of a fresh mapping to
    its property [b] does nothing, the current section becomes
    undefined and the read of [c] throws a TypeError. *)
Theorem parseToml_throws_under_scalar :
  parseToml scalar_then_header = Throw TypeError
  /\ ~ (forall content, exists r, parseToml content = Ok r).
Proof.
  assert (H : parseToml scalar_then_header = Throw TypeError)
    by (vm_compute; reflexivity).
  split; [exact H|].
  intros Htotal. destruct (Htotal scalar_then_header) as [r Hr].
  rewrite H in Hr. discriminate.
Qed.

End TomlExamples.

(** ** Strings: conversions, split and join *)

Section StringFacts.

Lemma chars_str (l : list ascii) : chars (str l) = l.
Proof. apply list_ascii_of_string_of_list_ascii. Qed.

Lemma str_chars (s : string) : str (chars s) = s.
Proof. apply string_of_list_ascii_of_string. Qed.

Lemma chars_append (s t : string) : chars (s +++ t) = chars s ++ chars t.
Proof.
  induction s as [|c s IH]; simpl; [reflexivity|].
  unfold chars in *. simpl. now rewrite IH.
Qed.

Lemma chars_inj (s t : string) : chars s = chars t -> s = t.
Proof.
  intros H. rewrite <- (str_chars s), <- (str_chars t). now rewrite H.
Qed.

Lemma split_l_no_sep (sep : ascii) (l : list ascii) :
  forallb (fun c => negb (Ascii.eqb c sep)) l = true -> split_l sep l = [l].
Proof.
  induction l as [|c l IH]; simpl; [reflexivity|].
  intros H. apply andb_true_iff in H as [Hc Hl].
  apply negb_true_iff in Hc. rewrite Hc, (IH Hl). reflexivity.
Qed.

Lemma split_l_app (sep : ascii) (l r : list ascii) :
  forallb (fun c => negb (Ascii.eqb c sep)) l = true ->
  split_l sep (l ++ sep :: r) = l :: split_l sep r.
Proof.
  induction l as [|c l IH]; simpl.
  - intros _. now rewrite Ascii.eqb_refl.
  - intros H. apply andb_true_iff in H as [Hc Hl].
    apply negb_true_iff in Hc. rewrite Hc, (IH Hl). reflexivity.
Qed.

Lemma split_unlines (l : string) (ls : list string) :
  forallb Spec.no_LF (l :: ls) = true ->
  split Toml.LF (Scenario.unlines (l :: ls)) = l :: ls.
Proof.
  revert l. induction ls as [|l' ls IH]; intros l H.
  - simpl in H. rewrite andb_true_r in H.
    unfold split, Scenario.unlines. simpl.
    rewrite split_l_no_sep by exact H. simpl. now rewrite str_chars.
  - change (forallb Spec.no_LF (l :: l' :: ls))
      with (Spec.no_LF l && forallb Spec.no_LF (l' :: ls)) in H.
    apply andb_true_iff in H as [Hl Hls].
    unfold split, Scenario.unlines in *.
    change (join Scenario.NL (l :: l' :: ls))
      with (l +++ Scenario.NL +++ join Scenario.NL (l' :: ls)).
    rewrite !chars_append.
    change (chars Scenario.NL) with [Toml.LF]. simpl app at 2.
    rewrite split_l_app by exact Hl.
    simpl map. rewrite str_chars. f_equal. apply IH. exact Hls.
Qed.

Lemma starts_l_prefix (p l : list ascii) :
  starts_l p l = true -> l = p ++ skipn (length p) l.
Proof.
  revert l. induction p as [|a p IH]; intros l; [reflexivity|].
  destruct l as [|b l]; cbn [starts_l]; [discriminate|].
  intros H. apply andb_true_iff in H as [Hab Hp].
  apply Ascii.eqb_eq in Hab. subst b. cbn [length skipn app].
  now rewrite <- (IH l Hp).
Qed.

Lemma includes_l_intro (pre p rest : list ascii) :
  includes_l (pre ++ p ++ rest) p = true.
Proof.
  assert (Hs : forall q r, starts_l q (q ++ r) = true).
  { induction q as [|a q IH]; intros r; [reflexivity|].
    cbn [app starts_l]. now rewrite Ascii.eqb_refl, IH. }
  induction pre as [|c pre IH]; cbn [app].
  - destruct (p ++ rest) eqn:E; cbn [includes_l]; rewrite <- E, Hs; reflexivity.
  - cbn [includes_l]. rewrite IH. apply orb_true_r.
Qed.






End StringFacts.

Section TomlFacts.
Import Toml Scenario Spec.

Lemma classify_unmatched (line : string) :
  unmatched line = true -> classify line = Unmatched.
Proof.
  unfold unmatched, classify. intros H.
  repeat (apply andb_true_iff in H as [H ?]).
  apply negb_true_iff in H. 
  match goal with Hs : negb (startsWith _ _) = true |- _ =>
    apply negb_true_iff in Hs; rewrite H, Hs end. simpl.
  destruct (section_match (trim line)); [discriminate|].
  destruct (kv_match (trim line)) as [[k v]|]; [discriminate|reflexivity].
Qed.

Lemma parse_line_unmatched (st : object * cursor) (line : string) :
  unmatched line = true -> parse_line st line = Ok st.
Proof.
  intros H. unfold parse_line. now rewrite (classify_unmatched _ H).
Qed.

Lemma parse_lines_drop_unmatched (st : object * cursor) (ls : list string) :
  parse_lines st (filter (fun l => negb (unmatched l)) ls) = parse_lines st ls.
Proof.
  revert st. induction ls as [|l ls IH]; intros st; [reflexivity|].
  simpl filter. destruct (unmatched l) eqn:Hu; simpl.
  - rewrite (parse_line_unmatched _ _ Hu). simpl. apply IH.
  - destruct (parse_line st l) as [st'|e]; simpl; [apply IH|reflexivity].
Qed.

Lemma parse_lines_unlines (st : object * cursor) (ls : list string) :
  forallb no_LF ls = true ->
  parse_lines st (split LF (unlines ls)) = parse_lines st ls.
Proof.
  destruct ls as [|l ls]; intros H.
  - reflexivity.
  - now rewrite split_unlines.
Qed.

Lemma forallb_filter {A} (p q : A -> bool) (l : list A) :
  forallb p l = true -> forallb p (filter q l) = true.
Proof.
  induction l as [|x l IH]; simpl; [reflexivity|].
  intros H. apply andb_true_iff in H as [Hx Hl].
  destruct (q x); simpl; [rewrite Hx|]; auto.
Qed.

(** Without section headers the current section stays the root, where
    every assignment succeeds. *)
Lemma parse_lines_no_header (root : object) (ls : list string) :
  forallb (fun l => negb (is_header l)) ls = true ->
  exists root', parse_lines (root, AtPath []) ls = Ok (root', AtPath []).
Proof.
  revert root. induction ls as [|l ls IH]; intros root H.
  - exists root. reflexivity.
  - simpl in H. apply andb_true_iff in H as [Hl Hls].
    simpl. unfold parse_line. unfold is_header in Hl.
    destruct (classify l); simpl in *; try discriminate; auto.
Qed.

End TomlFacts.

Section TomlClaims.
Import Toml Scenario Spec.

End TomlClaims.

(** ** analyzeProject *)

Section ProbeFacts.
Import Analyzer Spec.

Lemma try_block_keeps {X} (f : analysis -> X) (body : list stmt) (a : analysis) :
  Forall (keeps f) body -> f (try_block body a) = f a.
Proof.
  intros H. revert a. induction H as [|s body Hs _ IH]; intros a; simpl.
  - reflexivity.
  - destruct (s a) as [a'|e] eqn:E; [|reflexivity].
    rewrite IH. now apply Hs.
Qed.

Lemma copy_or_keeps {X} (f : analysis -> X) (pkg : value) (k : string)
    (dflt : value) (set : value -> analysis -> analysis) :
  (forall x a, f (set x a) = f a) -> keeps f (copy_or pkg k dflt set).
Proof.
  intros Hset a a'. unfold copy_or. destruct (get pkg k); simpl; [|discriminate].
  intros [= <-]. apply Hset.
Qed.

Lemma copy_authors_keeps {X} (f : analysis -> X) (pkg : value) :
  (forall x a, f (set_author x a) = f a) -> keeps f (copy_authors pkg).
Proof.
  intros Hset a a'. unfold copy_authors.
  destruct (get pkg "authors") as [x|]; simpl; [|discriminate].
  destruct (truthy x); [|now intros [= <-]].
  destruct (isArray x); [|intros [= <-]; apply Hset].
  destruct (get x "0"); simpl; [intros [= <-]; apply Hset|discriminate].
Qed.

Lemma does_keeps {X} (f : analysis -> X) (g : analysis -> analysis) :
  (forall a, f (g a) = f a) -> keeps f (does g).
Proof. intros Hg a a' [= <-]. apply Hg. Qed.

Lemma set_name_keeps {X} (f : analysis -> X) (pkg : value) :
  (forall x a, f (set_name x a) = f a) ->
  keeps f (fun a => x <- get pkg "name" ;; Ok (set_name (or_else x (name a)) a)).
Proof.
  intros Hset a a'. destruct (get pkg "name"); simpl; [|discriminate].
  intros [= <-]. apply Hset.
Qed.

(** The statements of the Rust block after the two that write
    [detected] and [type]. *)
Lemma rust_body_tail {X} (f : analysis -> X) (toml : value) :
  (forall x a, f (set_name x a) = f a) ->
  (forall x a, f (set_description x a) = f a) ->
  (forall x a, f (set_version x a) = f a) ->
  (forall x a, f (set_license x a) = f a) ->
  (forall x a, f (set_repository x a) = f a) ->
  (forall x a, f (set_homepage x a) = f a) ->
  (forall x a, f (set_keywords x a) = f a) ->
  (forall x a, f (set_author x a) = f a) ->
  (forall x a, f (set_installCommand x a) = f a) ->
  (forall x a, f (set_runCommand x a) = f a) ->
  (forall x a, f (set_buildCommand x a) = f a) ->
  (forall x a, f (set_testCommand x a) = f a) ->
  Forall (keeps f) (skipn 2 (rust_body toml)).
Proof.
  intros. unfold rust_body. cbn [skipn].
  repeat constructor;
    auto using copy_or_keeps, copy_authors_keeps, does_keeps, set_name_keeps.
Qed.

(** Once Cargo.toml is read and parsed, the Rust block sets [detected]
    and [type]. *)
Lemma rust_body_type (toml : value) (a : analysis) :
  type (try_block (rust_body toml) a) = "rust"
  /\ detected (try_block (rust_body toml) a) = true.
Proof.
  change (try_block (rust_body toml) a)
    with (try_block (skipn 2 (rust_body toml))
            (set_type "rust" (set_detected true a))).
  split; rewrite try_block_keeps; try reflexivity;
    apply rust_body_tail; reflexivity.
Qed.

Lemma analyzeProject_type (d : directory) :
  type (analyzeProject d) = type (probes d).
Proof. reflexivity. Qed.

End ProbeFacts.

Section AnalyzerClaims.
Import Analyzer Scenario.

(** C1, as stated, fails: with a go.mod and a readable Cargo.toml on
    which [parseToml] throws, the Rust block is left before it writes
    [type], which stays "go". *)
Lemma go_survives_broken_cargo :
  exists_file (go_mod go_and_broken_cargo) = true
  /\ (exists text, Cargo_toml go_and_broken_cargo = Content text)
  /\ type (analyzeProject go_and_broken_cargo) = "go".
Proof.
  split; [reflexivity|]. split; [eexists; reflexivity|].
  vm_compute. reflexivity.
Qed.

(** What [analyzeProject] returns is [analyzeProject_on] at what
    reading and parsing the two TOML manifests does. *)
Lemma analyzeProject_on_parsed (d : directory) :
  analyzeProject d
  = analyzeProject_on (parsed (pyproject_toml d)) (parsed (Cargo_toml d)) d.
Proof. reflexivity. Qed.

(** C1 (amended): for every directory with a go.mod and a Cargo.toml
    that is read and that [parseToml] parses without throwing,
    [analyzeProject] returns type "rust", never "go": the Rust probe
    runs last and overwrites what the Go probe wrote.  What the two
    calls of [parseToml] do is taken as given ([py] for pyproject.toml,
    [rs] for Cargo.toml): the statement holds whatever mapping the
    parser returns and whatever it does on pyproject.toml. *)
Theorem rust_wins_over_go (py rs : result object) (d : directory) (toml : object) :
  exists_file (go_mod d) = true ->
  exists_file (Cargo_toml d) = true ->
  rs = Ok toml ->
  type (analyzeProject_on py rs d) = "rust"
  /\ type (analyzeProject_on py rs d) <> "go"
  /\ detected (analyzeProject_on py rs d) = true.
Proof.
  intros _ Hc ->.
  assert (Hr : probes_on py (Ok toml) d
               = try_block (rust_body (VObj toml))
                   (go_probe d (python_probe_on py d (node_probe d (initial d))))).
  { unfold probes_on, rust_probe_on. now rewrite Hc. }
  assert (Ht : type (analyzeProject_on py (Ok toml) d) = "rust").
  { change (type (analyzeProject_on py (Ok toml) d))
      with (type (probes_on py (Ok toml) d)).
    rewrite Hr. apply rust_body_type. }
  split; [exact Ht|]. split; [rewrite Ht; discriminate|].
  change (detected (analyzeProject_on py (Ok toml) d))
    with (detected (probes_on py (Ok toml) d)).
  rewrite Hr. apply rust_body_type.
Qed.

Lemma rust_wins_over_go_witness :
  type (analyzeProject go_and_cargo) = "rust"
  /\ type (analyzeProject go_and_cargo) <> "go"
  /\ detected (analyzeProject go_and_cargo) = true.
Proof.
  apply (rust_wins_over_go (parsed (pyproject_toml go_and_cargo))
           (parsed (Cargo_toml go_and_cargo)) go_and_cargo
           [ ("package", VObj [ ("name", VStr "widget") ]) ]);
    reflexivity.
Defined.

End AnalyzerClaims.

Section GoClaims.
Import Analyzer Generator Scenario.

Lemma is_lt_cases (c : ascii) :
  is_lt c = true -> c = ascii_of_nat 10 \/ c = ascii_of_nat 13.
Proof.
  destruct c as [[] [] [] [] [] [] [] []]; vm_compute; intros H;
    try discriminate; auto.
Qed.











(** C5 fails on the code: a go.mod whose module path ends in a slash
    makes the Go probe store the empty last segment as [name]. *)
Theorem go_probe_empties_name :
  basename (path go_trailing_slash) = "widget"
  /\ name (initial go_trailing_slash) = VStr "widget"
  /\ name (analyzeProject go_trailing_slash) = VStr "".
Proof. repeat split; vm_compute; reflexivity. Qed.

End GoClaims.

(** ** analyzeStructure *)

Section StructureFacts.
Import Scenario Spec.

Lemma ci_name_starts_with_dot (e : entry) :
  ci_name e = true -> startsWith (FS.name e) "." = true.
Proof.
  unfold ci_name. intros H. apply orb_true_iff in H as [H|H];
    apply String.eqb_eq in H; rewrite H; reflexivity.
Qed.

Lemma scan_entry_hasCI (s : Structure.structure) (e : entry) :
  hasCI (scan_entry s e) = hasCI s || ci_name e.
Proof.
  unfold scan_entry.
  destruct (startsWith (FS.name e) ".") eqn:Hdot.
  - fold (ci_name e). destruct (ci_name e); simpl;
      [now rewrite orb_true_r | now rewrite orb_false_r].
  - assert (Hci : ci_name e = false).
    { destruct (ci_name e) eqn:E; [|reflexivity].
      apply ci_name_starts_with_dot in E. congruence. }
    rewrite Hci, orb_false_r.
    destruct (isDirectory e); [reflexivity|].
    match goal with |- context [if ?b then _ else _] => destruct b end;
      reflexivity.
Qed.

Lemma fold_scan_hasCI (es : list entry) (s : Structure.structure) :
  hasCI (fold_left scan_entry es s) = hasCI s || existsb ci_name es.
Proof.
  revert s. induction es as [|e es IH]; intros s; simpl.
  - now rewrite orb_false_r.
  - rewrite IH, scan_entry_hasCI. now rewrite orb_assoc.
Qed.

Lemma scan_entry_clear (s : Structure.structure) (e : entry) :
  clear_hasCI (scan_entry s e)
  = if visible e then scan_entry (clear_hasCI s) e else clear_hasCI s.
Proof.
  unfold scan_entry, visible.
  destruct (startsWith (FS.name e) "."); simpl.
  - match goal with |- context [if ?b then _ else _] => destruct b end;
      reflexivity.
  - destruct (isDirectory e); [reflexivity|].
    match goal with |- context [if ?b then _ else _] => destruct b end;
      reflexivity.
Qed.

Lemma fold_scan_clear (es : list entry) (s : Structure.structure) :
  clear_hasCI (fold_left scan_entry es s)
  = fold_left scan_entry (filter visible es) (clear_hasCI s).
Proof.
  revert s. induction es as [|e es IH]; intros s; simpl; [reflexivity|].
  rewrite IH, scan_entry_clear. destruct (visible e); reflexivity.
Qed.

Lemma fold_scan_no_dot (es : list entry) (s : Structure.structure) :
  no_dot_names (directories s) -> no_dot_names (mainFiles s) ->
  no_dot_names (directories (fold_left scan_entry es s))
  /\ no_dot_names (mainFiles (fold_left scan_entry es s)).
Proof.
  revert s. induction es as [|e es IH]; intros s Hd Hm; simpl; [now split|].
  apply IH; unfold scan_entry;
    destruct (startsWith (FS.name e) ".") eqn:Hdot;
    repeat match goal with
           | |- context [if ?b then _ else _] => destruct b
           end; simpl; auto;
    apply Forall_app; split; auto.
Qed.

End StructureFacts.

Section StructureClaims.
Import Scenario Spec.

(** C4, as stated, fails: a regular file named [.github] sets [hasCI],
    with no directory of that name and no file named [.gitlab-ci.yml]. *)
Lemma hasCI_ignores_entry_kind :
  hasCI (analyzeStructure dot_github_file) = true
  /\ ~ (exists es e, children dot_github_file = Some es /\ In e es
        /\ ((FS.name e = ".github" /\ isDirectory e = true)
            \/ (FS.name e = ".gitlab-ci.yml" /\ isDirectory e = false))).
Proof.
  split; [reflexivity|].
  intros (es & e & Hes & Hin & H).
  injection Hes as <-. destruct Hin as [<-|[]].
  destruct H as [[_ H]|[H _]]; discriminate.
Qed.

(** C4 (amended): [hasCI] is true exactly when the scanned directory has
    an immediate child, of either kind, named [.github] or
    [.gitlab-ci.yml]; the dot-prefixed children take no other part: the
    rest of the record is the one of the directory without them, and no
    name in [directories] or [mainFiles] starts with a dot. *)
Theorem hasCI_by_name_only (d : directory) :
  (hasCI (analyzeStructure d) = true <->
   exists es e, children d = Some es /\ In e es
     /\ (FS.name e = ".github" \/ FS.name e = ".gitlab-ci.yml"))
  /\ clear_hasCI (analyzeStructure d) = analyzeStructure (without_dot_children d)
  /\ no_dot_names (directories (analyzeStructure d))
  /\ no_dot_names (mainFiles (analyzeStructure d)).
Proof.
  unfold analyzeStructure, without_dot_children. simpl.
  destruct (children d) as [es|]; simpl.
  - split; [|split].
    + rewrite fold_scan_hasCI. simpl. rewrite existsb_exists. split.
      * intros (e & Hin & Hci). exists es, e. repeat split; auto.
        unfold ci_name in Hci. apply orb_true_iff in Hci.
        destruct Hci as [H|H]; apply String.eqb_eq in H; auto.
      * intros (es' & e & [= <-] & Hin & H). exists e. split; [exact Hin|].
        unfold ci_name. apply orb_true_iff.
        destruct H as [H|H]; rewrite H; auto.
    + apply fold_scan_clear.
    + apply fold_scan_no_dot; constructor.
  - split; [|split; [reflexivity | split; constructor]].
    split; [discriminate|]. intros (es & e & H & _). discriminate.
Qed.

End StructureClaims.

(** ** detectScripts: the Makefile targets *)

Section ScanFacts.

Variable p : ascii -> bool.

Lemma take_drop_while (l : list ascii) :
  take_while p l ++ drop_while p l = l.
Proof.
  induction l as [|c l IH]; simpl; [reflexivity|].
  destruct (p c); simpl; [now rewrite IH | reflexivity].
Qed.

Lemma take_while_all (l : list ascii) : forallb p (take_while p l) = true.
Proof.
  induction l as [|c l IH]; simpl; [reflexivity|].
  destruct (p c) eqn:E; simpl; [now rewrite E | reflexivity].
Qed.

Lemma drop_while_head (l : list ascii) (c : ascii) (r : list ascii) :
  drop_while p l = c :: r -> p c = false.
Proof.
  induction l as [|x l IH]; simpl; [discriminate|].
  destruct (p x) eqn:E; [exact IH|]. now intros [= <- _].
Qed.

Lemma take_drop_app (n : list ascii) (c : ascii) (post : list ascii) :
  forallb p n = true -> p c = false ->
  take_while p (n ++ c :: post) = n /\ drop_while p (n ++ c :: post) = c :: post.
Proof.
  intros Hn Hc. induction n as [|x n IH]; simpl.
  - now rewrite Hc.
  - simpl in Hn. apply andb_true_iff in Hn as [Hx Hn].
    rewrite Hx. destruct (IH Hn) as [-> ->]. now split.
Qed.

End ScanFacts.

Section TargetFacts.
Import Analyzer Spec.

Lemma code_inj (c : ascii) (n : nat) :
  (code c =? n) = true -> c = ascii_of_nat n.
Proof.
  intros H. apply Nat.eqb_eq in H. rewrite <- H. unfold code.
  now rewrite ascii_nat_embedding.
Qed.









End TargetFacts.

Section ObjectFacts.

Lemma assign_keys (k k' : string) (v : value) (o : object) :
  In k (map fst (assign k' v o)) <-> k = k' \/ In k (map fst o).
Proof.
  induction o as [|[k0 v0] o IH]; simpl.
  - intuition.
  - destruct (k0 == k') eqn:E; simpl.
    + apply String.eqb_eq in E. subst k0. intuition.
    + rewrite IH. intuition.
Qed.

Lemma lookup_assign_same (k : string) (v : value) (o : object) :
  lookup k (assign k v o) = Some v.
Proof.
  induction o as [|[k0 v0] o IH]; simpl.
  - now rewrite String.eqb_refl.
  - destruct (k0 == k) eqn:E; simpl; [now rewrite String.eqb_refl|].
    now rewrite E.
Qed.

Lemma lookup_assign_other (k k' : string) (v : value) (o : object) :
  k <> k' -> lookup k (assign k' v o) = lookup k o.
Proof.
  intros Hne. induction o as [|[k0 v0] o IH]; simpl.
  - apply String.eqb_neq in Hne. rewrite String.eqb_sym in Hne. now rewrite Hne.
  - destruct (k0 == k') eqn:E; simpl.
    + apply String.eqb_eq in E. subst k0.
      assert (Hk : (k' == k) = false)
        by (rewrite String.eqb_sym; now apply String.eqb_neq).
      now rewrite Hk.
    + destruct (k0 == k); [reflexivity|exact IH].
Qed.

End ObjectFacts.

Section MakefileClaims.
Import Analyzer Spec.






End MakefileClaims.

Section MakefileTheorem.
Import Analyzer Spec Scenario.




End MakefileTheorem.

(** ** generator.js *)

Section ApiFacts.
Import Generator Spec.

Lemma describe_table_script (name : string) (script : value) :
  is_table_script name = true ->
  describeScript name script
  = Ok match table_lookup name descriptions with
       | Some d => d
       | None => ""
       end.
Proof.
  unfold is_table_script. intros H.
  repeat (apply orb_true_iff in H as [H|H]);
    apply String.eqb_eq in H; subst name; reflexivity.
Qed.

(** The table keeps the test, build and start entries, in the order of
    the object, and drops every other name; no row makes it throw. *)
Lemma api_rows_filter (es : list (string * value)) :
  api_rows es
  = Ok (map table_row (filter is_table_script (map fst es))).
Proof.
  induction es as [|[name script] es IH]; simpl; [reflexivity|].
  destruct (is_table_script name) eqn:E; simpl; [|exact IH].
  rewrite (describe_table_script name script E), IH. reflexivity.
Qed.

Lemma Permutation_filter_keep {A} (f : A -> bool) (l l' : list A) :
  Permutation l l' -> Permutation (filter f l) (filter f l').
Proof.
  induction 1 as [|x l l' _ IH|x y l|l l' l'' _ IH1 _ IH2]; simpl.
  - constructor.
  - destruct (f x); [now constructor | exact IH].
  - destruct (f x), (f y); try reflexivity. constructor.
  - now transitivity (filter f l').
Qed.

End ApiFacts.

Section ApiClaims.
Import Generator Spec Scenario.

(** C8: for a node record whose scripts are test, build and lint,
    [generateApi] renders the table with two rows, the one of test and
    the one of build, and none for lint; whatever the scripts, only the
    names test, build and start get a row.  The CLI options follow the
    table; they print the name, and [generateApi] throws when that
    throws. *)
Theorem api_table_test_build_only (a : analysis) (o : object) :
  type a = "node" ->
  scripts a = VObj o ->
  Permutation (map fst o) [ "test"; "build"; "lint" ] ->
  (exists r1 r2,
     api_lines a
     = (cli <- cli_lines a ;;
        Ok ([ "### Available Commands"; "";
              "| Command | Description |"; "|---------|-------------|";
              r1; r2; "" ] ++ cli))
     /\ generateApi a
        = (cli <- cli_lines a ;;
           Ok (join NL ([ "### Available Commands"; "";
                          "| Command | Description |"; "|---------|-------------|";
                          r1; r2; "" ] ++ cli)))
     /\ Permutation [ r1; r2 ] [ table_row "test"; table_row "build" ]
     /\ r1 <> table_row "lint" /\ r2 <> table_row "lint")
  /\ table_row "test" = "| `npm run test` | Run tests |"
  /\ table_row "build" = "| `npm run build` | Build the project |"
  /\ (forall es : list (string * value),
        api_rows es = Ok (map table_row (filter is_table_script (map fst es)))
        /\ forall name, In name (filter is_table_script (map fst es)) ->
                        name = "test" \/ name = "build" \/ name = "start").
Proof.
  intros Hty Hsc Hperm.
  assert (Hrows : Permutation
            (map table_row (filter is_table_script (map fst o)))
            [ table_row "test"; table_row "build" ]).
  { apply (Permutation_map table_row
             (l := filter is_table_script (map fst o))
             (l' := [ "test"; "build" ])).
    exact (Permutation_filter_keep is_table_script _ _ Hperm). }
  split; [|split; [reflexivity|split; [reflexivity|]]].
  - pose proof (Permutation_length Hrows) as Hlen.
    destruct (map table_row (filter is_table_script (map fst o)))
      as [|r1 [|r2 [|r3 rs]]] eqn:Erows; try discriminate.
    assert (Hapi : api_lines a
       = (cli <- cli_lines a ;;
          Ok ([ "### Available Commands"; "";
                "| Command | Description |"; "|---------|-------------|";
                r1; r2; "" ] ++ cli))).
    { unfold api_lines, has_scripts. rewrite Hty, Hsc. simpl.
      destruct o as [|kv o']; [apply Permutation_length in Hperm; discriminate|].
      simpl negb. cbn iota. unfold entries.
      rewrite api_rows_filter, Erows. reflexivity. }
    exists r1, r2. split; [exact Hapi|]. split.
    { unfold generateApi. rewrite Hapi.
      destruct (cli_lines a); reflexivity. }
    split; [exact Hrows|].
    apply Permutation_length_2_inv in Hrows.
    destruct Hrows as [[= <- <-]|[= <- <-]]; split; discriminate.
  - intros es. split; [apply api_rows_filter|].
    intros name Hin. apply filter_In in Hin as [_ Hf].
    unfold is_table_script in Hf.
    repeat (apply orb_true_iff in Hf as [Hf|Hf]);
      apply String.eqb_eq in Hf; auto.
Qed.

Lemma api_table_test_build_only_witness :
  exists r1 r2,
    generateApi node_with_scripts
    = Ok (join NL [ "### Available Commands"; "";
                    "| Command | Description |"; "|---------|-------------|";
                    r1; r2; "" ])
    /\ Permutation [ r1; r2 ] [ table_row "test"; table_row "build" ].
Proof.
  destruct (api_table_test_build_only node_with_scripts
              [ ("test", VStr "jest"); ("lint", VStr "eslint .");
                ("build", VStr "tsc") ] eq_refl eq_refl)
    as ((r1 & r2 & _ & Hgen & Hperm & _) & _).
  - apply perm_skip. apply perm_swap.
  - exists r1, r2. split; [exact Hgen | exact Hperm].
Defined.

End ApiClaims.

(** ** generateReadme: where it throws *)

Section GeneratorFacts.
Import Generator Spec Laws.

Lemma throws_bind {A B} (c : result A) (k : A -> result B) :
  throws (bind c k)
  = match c with Ok x => throws (k x) | Throw _ => true end.
Proof. destruct c; reflexivity. Qed.

(** A step whose continuation throws or not whatever the step
    returned. *)
Lemma throws_bind_then {A B} (c : result A) (k : A -> result B) (b : bool) :
  (forall x, throws (k x) = b) -> throws (bind c k) = throws c || b.
Proof. intros H. destruct c; cbn [bind throws orb]; auto. Qed.

Lemma throws_returns {A} (c : result A) : throws c = negb (returns c).
Proof. destruct c; reflexivity. Qed.

Lemma value_induction (P : value -> Prop) :
  P VUndef -> P VNull -> (forall b, P (VBool b)) -> (forall n, P (VNum n)) ->
  (forall s, P (VStr s)) -> (forall l, Forall P l -> P (VArr l)) ->
  (forall o, P (VObj o)) -> forall v, P v.
Proof.
  intros Hu Hn Hb Hm Hs Ha Ho. fix IH 1.
  intros [| |b|n|s|l|o];
    [exact Hu | exact Hn | apply Hb | apply Hm | apply Hs | | apply Ho].
  apply Ha. induction l as [|x l IHl]; constructor; [apply IH | exact IHl].
Qed.

(** The conversion to a string throws nothing but a TypeError. *)
Lemma to_string_error (v : value) (e : error) :
  to_string v = Throw e -> e = TypeError.
Proof.
  revert e. induction v as [| |b|n|s|l IHl|o] using value_induction;
    intros e; cbn [to_string]; try discriminate.
  - induction IHl as [|x l Hx _ IH]; cbn [bind]; [discriminate|].
    destruct x; cbn [bind];
      try (destruct ((fix items (l : list value) : result (list string) := _) l)
             as [t|e'] eqn:E; cbn [bind]; [discriminate|];
           intros [= <-]; apply IH; cbn [bind]; reflexivity).
    + destruct (to_string (VArr l0)) as [t0|e0] eqn:E0; cbn [bind].
      * destruct ((fix items (l : list value) : result (list string) := _) l)
          as [t|e'] eqn:E; cbn [bind]; [discriminate|].
        intros [= <-]. apply IH. cbn [bind]. reflexivity.
      * intros [= <-]. now apply Hx.
    + destruct (to_string (VObj o)) as [t0|e0] eqn:E0; cbn [bind].
      * destruct ((fix items (l : list value) : result (list string) := _) l)
          as [t|e'] eqn:E; cbn [bind]; [discriminate|].
        intros [= <-]. apply IH. cbn [bind]. reflexivity.
      * intros [= <-]. now apply Hx.
  - destruct (lookup "toString" o); [intros [= <-]; reflexivity|discriminate].
Qed.

Lemma prints_falsy (v : value) : truthy v = false -> prints v = true.
Proof. destruct v; cbn; try reflexivity; discriminate. Qed.

Lemma prints_string (v : value) : is_string v = true -> prints v = true.
Proof. destruct v; cbn; try reflexivity; discriminate. Qed.

Lemma prints_ok (v : value) : prints v = true -> exists s, to_string v = Ok s.
Proof. unfold prints. destruct (to_string v); [eauto|discriminate]. Qed.

Lemma prints_or_else (r n : value) :
  prints n = true -> prints (or_else r n) = prints r.
Proof.
  intros Hn. unfold or_else. destruct (truthy r) eqn:E; [reflexivity|].
  now rewrite Hn, (prints_falsy r E).
Qed.

(** A template literal that prints [v] and then goes on without
    throwing. *)
Lemma throws_print {B} (v : value) (k : string -> B) :
  throws (s <- to_string v ;; Ok (k s)) = negb (prints v).
Proof. unfold prints. destruct (to_string v); reflexivity. Qed.

Lemma name_passes (a : analysis) :
  name_fails a = false -> prints (name a) = true.
Proof.
  unfold name_fails. intros H. apply andb_false_iff in H as [H|H].
  - now apply prints_falsy.
  - apply negb_false_iff in H. now apply prints_string.
Qed.

Ltac by_value v :=
  destruct v as [| |?b|?n|?s|?l|?o];
  cbn [truthy is_string negb andb as_string bind throws];
  try reflexivity;
  repeat (match goal with
          | |- context [Num.truthy ?n] => destruct (Num.truthy n)
          | |- context [is_empty ?s] => destruct (is_empty s)
          | b : bool |- _ => destruct b
          | |- context [if ?c then _ else _] => destruct c
          end; cbn [negb andb bind throws]);
  try reflexivity.

Lemma formatTitle_throws (a : analysis) :
  throws (formatTitle (name a)) = name_fails a.
Proof. unfold formatTitle, name_fails. by_value (name a). Qed.

Lemma npm_badges_throws (a : analysis) :
  throws (npm_badges a) = (type a == "node") && name_fails a.
Proof.
  unfold npm_badges, name_fails. destruct (type a == "node"); [|reflexivity].
  cbn [andb]. by_value (name a).
Qed.

Lemma crates_badges_throws (a : analysis) :
  throws (crates_badges a) = (type a == "rust") && negb (prints (name a)).
Proof.
  unfold crates_badges. destruct (type a == "rust"); [|reflexivity].
  cbn [andb]. destruct (truthy (name a)) eqn:E.
  - apply throws_print.
  - now rewrite (prints_falsy _ E).
Qed.

Lemma pypi_badges_throws (a : analysis) :
  throws (pypi_badges a) = (type a == "python") && negb (prints (name a)).
Proof.
  unfold pypi_badges. destruct (type a == "python"); [|reflexivity].
  cbn [andb]. destruct (truthy (name a)) eqn:E.
  - apply throws_print.
  - now rewrite (prints_falsy _ E).
Qed.

Lemma license_badge_throws (a : analysis) :
  throws (license_badge a)
  = truthy (license a)
    && (negb (is_string (license a)) || unencodable (license a)).
Proof.
  unfold license_badge, unencodable, encodeURIComponent.
  destruct (license a) as [| |b|n|s|l|o];
    cbn [truthy is_string negb andb orb as_string to_string bind throws];
    try reflexivity.
  - destruct b; reflexivity.
  - destruct (Num.truthy n); reflexivity.
  - destruct (negb (is_empty s)); [|reflexivity].
    destruct (lone_surrogate (chars s)); reflexivity.
Qed.

Lemma github_badge_throws (a : analysis) :
  throws (github_badge a)
  = truthy (repository a) && repository_fails (repository a).
Proof.
  unfold github_badge, repository_fails.
  destruct (repository a) as [| |b|n|s|l|o]; simpl; try reflexivity.
  - destruct b; reflexivity.
  - destruct (Num.truthy n); reflexivity.
  - destruct (negb (is_empty s)); [|reflexivity]. cbn [bind].
    destruct (includes s "github.com"); [|reflexivity].
    destruct (github_match s); reflexivity.
  - destruct (existsb _ l); reflexivity.
Qed.

Lemma generateBadges_throws (a : analysis) :
  throws (generateBadges a)
  = ((type a == "node") && name_fails a)
    || ((type a == "rust") && negb (prints (name a)))
    || ((type a == "python") && negb (prints (name a)))
    || (truthy (license a)
        && (negb (is_string (license a)) || unencodable (license a)))
    || (truthy (repository a) && repository_fails (repository a)).
Proof.
  unfold generateBadges.
  rewrite <- npm_badges_throws, <- crates_badges_throws, <- pypi_badges_throws,
    <- license_badge_throws, <- github_badge_throws.
  destruct (npm_badges a); [|reflexivity].
  destruct (crates_badges a); [|reflexivity].
  destruct (pypi_badges a); [|reflexivity].
  destruct (license_badge a); [|reflexivity].
  destruct (github_badge a); reflexivity.
Qed.

Lemma description_line_throws (a : analysis) :
  throws (description_line a) = negb (prints (description a)).
Proof.
  unfold description_line. destruct (truthy (description a)) eqn:E.
  - apply throws_print.
  - now rewrite (prints_falsy _ E).
Qed.

(** Once the title is made, the name prints: the blocks that only
    print the name do not throw. *)
Lemma installation_throws (a : analysis) :
  name_fails a = false ->
  throws (generateInstallation a)
  = (negb (name_method_type (type a)) && negb (prints (repository a)))
    || ((type a == "rust") && negb (prints (version a))).
Proof.
  intros Hn. pose proof (name_passes a Hn) as Hp.
  destruct (prints_ok _ Hp) as [n Hs].
  unfold generateInstallation, installation_lines, name_method_type.
  destruct (String.eqb_spec (type a) "node") as [E|_].
  { rewrite E, Hs. reflexivity. }
  destruct (String.eqb_spec (type a) "python") as [E|_].
  { rewrite E, Hs. reflexivity. }
  destruct (String.eqb_spec (type a) "go") as [E|_].
  { rewrite E. cbn [String.eqb Ascii.eqb Bool.eqb orb negb andb].
    rewrite orb_false_r, <- (prints_or_else (repository a) (name a) Hp).
    unfold prints. destruct (to_string (or_else _ _)); reflexivity. }
  destruct (String.eqb_spec (type a) "rust") as [E|_].
  { rewrite Hs. cbn [bind orb negb andb].
    assert (Hstar : prints (VStr "*") = true) by reflexivity.
    rewrite <- (prints_or_else (version a) (VStr "*") Hstar).
    unfold prints. destruct (to_string (or_else _ _)); reflexivity. }
  cbn [orb negb andb]. rewrite orb_false_r, Hs.
  destruct (truthy (repository a)) eqn:Er.
  - unfold prints. destruct (to_string (repository a)); reflexivity.
  - now rewrite (prints_falsy _ Er).
Qed.

Lemma usage_throws (a : analysis) :
  name_fails a = false ->
  throws (generateUsage a)
  = (name_method_type (type a) && negb (is_string (name a)))
    || ((type a == "go") && negb (prints (repository a))).
Proof.
  intros Hn. pose proof (name_passes a Hn) as Hp.
  unfold generateUsage, usage_lines, name_method_type, toCamelCase.
  destruct (String.eqb_spec (type a) "node") as [E|_].
  { rewrite E. destruct (name a); reflexivity. }
  destruct (String.eqb_spec (type a) "python") as [E|_].
  { rewrite E. destruct (name a); reflexivity. }
  destruct (String.eqb_spec (type a) "go") as [E|_].
  { rewrite E. cbn [String.eqb Ascii.eqb Bool.eqb orb negb andb].
    rewrite <- (prints_or_else (repository a) (name a) Hp).
    unfold prints. destruct (to_string (or_else _ _)); reflexivity. }
  destruct (String.eqb_spec (type a) "rust") as [E|_].
  { destruct (name a); reflexivity. }
  cbn [orb andb]. destruct (negb (is_empty (runCommand a))); reflexivity.
Qed.

Lemma api_throws (a : analysis) :
  name_fails a = false -> throws (generateApi a) = false.
Proof.
  intros Hn. destruct (prints_ok _ (name_passes a Hn)) as [n Hs].
  unfold generateApi, api_lines, cli_lines.
  destruct (has_scripts a); cbn [bind]; rewrite ?api_rows_filter; cbn [bind];
    destruct (includes (runCommand a) "npx" || hasBin (structure a));
    rewrite ?Hs; reflexivity.
Qed.

Lemma license_line_throws (a : analysis) :
  throws (license_line a) = negb (prints (license a)).
Proof.
  unfold license_line. destruct (truthy (license a)) eqn:E.
  - apply throws_print.
  - now rewrite (prints_falsy _ E).
Qed.

Lemma footer_throws (a : analysis) :
  throws (footer a) = negb (prints (author a)).
Proof.
  unfold footer. destruct (truthy (author a)) eqn:E.
  - apply throws_print.
  - now rewrite (prints_falsy _ E).
Qed.

(** A license that does not print is truthy and no string. *)
Lemma license_unprintable (v : value) :
  prints v = false -> truthy v && negb (is_string v) = true.
Proof. destruct v; cbn; try discriminate; reflexivity. Qed.

(** [generateReadme] throws when one of its steps does. *)
Lemma sections_throws (a : analysis) :
  throws (generateReadme a)
  = throws (formatTitle (name a)) || throws (generateBadges a)
    || throws (description_line a) || throws (generateInstallation a)
    || throws (generateUsage a) || throws (generateApi a)
    || throws (license_line a) || throws (footer a).
Proof.
  unfold generateReadme, sections.
  destruct (formatTitle (name a)); [|reflexivity].
  destruct (generateBadges a); [|reflexivity].
  destruct (description_line a); [|reflexivity].
  destruct (generateInstallation a); [|reflexivity].
  destruct (generateUsage a); [|reflexivity].
  destruct (generateApi a); [|reflexivity].
  destruct (license_line a); [|reflexivity].
  destruct (footer a); reflexivity.
Qed.

Lemma generateReadme_throws_spec (a : analysis) :
  throws (generateReadme a) = readme_throws a.
Proof.
  rewrite sections_throws, formatTitle_throws, generateBadges_throws,
    description_line_throws, license_line_throws, footer_throws.
  unfold readme_throws.
  destruct (name_fails a) eqn:Hn; [reflexivity|].
  rewrite (installation_throws a Hn), (usage_throws a Hn), (api_throws a Hn).
  rewrite (name_passes a Hn).
  pose proof (license_unprintable (license a)) as Hl.
  unfold name_method_type.
  assert (Hcases : type a = "node" \/ type a = "python" \/ type a = "go"
                   \/ type a = "rust"
                   \/ ((type a == "node") = false /\ (type a == "python") = false
                       /\ (type a == "go") = false /\ (type a == "rust") = false)).
  { destruct (String.eqb_spec (type a) "node"); auto.
    destruct (String.eqb_spec (type a) "python"); auto.
    destruct (String.eqb_spec (type a) "go"); auto.
    destruct (String.eqb_spec (type a) "rust"); [auto 6|].
    do 4 right. repeat split. }
  destruct Hcases as [E|[E|[E|[E|(E1 & E2 & E3 & E4)]]]];
    [rewrite E|rewrite E|rewrite E|rewrite E|rewrite E1, E2, E3, E4];
    cbn [String.eqb Ascii.eqb Bool.eqb];
    (destruct (prints (license a)); [clear Hl|specialize (Hl eq_refl)]);
    destruct (truthy (license a)), (is_string (license a)),
      (unencodable (license a)),
      (truthy (repository a) && repository_fails (repository a)),
      (prints (description a)), (prints (repository a)), (prints (version a)),
      (prints (author a)), (is_string (name a));
    cbn in *; congruence.
Qed.

(** The conversions throw a TypeError; the URIError comes from the
    license badge alone. *)
Lemma bind_error {A B} (c : result A) (k : A -> result B) (e : error)
    (P : error -> Prop) :
  bind c k = Throw e ->
  (forall e', c = Throw e' -> P e') ->
  (forall x e', k x = Throw e' -> P e') -> P e.
Proof. destruct c as [x|e0]; cbn [bind]; intros H Hc Hk; [eauto|]. injection H as <-. auto. Qed.

Lemma print_error {B} (v : value) (k : string -> result B) (e : error)
    (P : error -> Prop) :
  (s <- to_string v ;; k s) = Throw e ->
  P TypeError -> (forall s e', k s = Throw e' -> P e') -> P e.
Proof.
  intros H Ht Hk. apply (bind_error _ _ _ P H); [|exact Hk].
  intros e' He'. now rewrite (to_string_error _ _ He').
Qed.

Lemma as_string_error (v : value) (e : error) :
  as_string v = Throw e -> e = TypeError.
Proof. destruct v; cbn; try discriminate; now intros [= <-]. Qed.

End GeneratorFacts.

Section GeneratorClaims.
Import Generator Spec Laws Scenario.

(** C10: for a record whose type is none of node, python, go and rust
    and whose repository is the empty string, [generateInstallation]
    emits a git-clone line with the placeholder URL
    [https://github.com/username/<name>] built from the name; the name
    is printed as a template literal prints it, and when that throws
    the block throws. *)
Theorem default_install_clones_placeholder (a : analysis) :
  type a <> "node" -> type a <> "python" ->
  type a <> "go" -> type a <> "rust" ->
  repository a = VStr "" ->
  generateInstallation a
  = (n <- to_string (name a) ;;
     Ok (join NL ([ "```bash"; "# Clone the repository";
                    "git clone https://github.com/username/" +++ n;
                    "cd " +++ n ]
                  ++ (if negb (is_empty (installCommand a))
                      then [ ""; "# Install dependencies"; installCommand a ]
                      else [])
                  ++ [ "```" ])))
  /\ (forall n, to_string (name a) = Ok n ->
        exists lines,
          installation_lines a = Ok lines
          /\ In ("git clone https://github.com/username/" +++ n) lines).
Proof.
  intros Hn Hp Hg Hr Hrepo.
  apply String.eqb_neq in Hn, Hp, Hg, Hr.
  unfold generateInstallation, installation_lines.
  rewrite Hn, Hp, Hg, Hr, Hrepo. cbn [truthy is_empty negb].
  split.
  - destruct (to_string (name a)); reflexivity.
  - intros n Hs. rewrite Hs. cbn [bind]. eexists. split; [reflexivity|].
    right. right. left. reflexivity.
Qed.

Lemma default_install_clones_placeholder_witness :
  exists lines,
    installation_lines default_record = Ok lines
    /\ In "git clone https://github.com/username/plain" lines.
Proof.
  apply (default_install_clones_placeholder default_record);
    solve [discriminate | reflexivity].
Defined.




End GeneratorClaims.

(** * Further properties *)

(** ** analyzeProject: which probe decides *)

Section ProbeOrder.
Import Analyzer Spec Laws.

(** A statement that writes neither [detected] nor [type]. *)
Ltac keeps_fields :=
  intros ? ?; cbv beta delta [copy_or copy_authors does bind];
  repeat match goal with
         | |- context [match ?x with _ => _ end] => destruct x
         end;
  first [ discriminate | intros [= <-]; reflexivity ].


Lemma python_body_tail (toml : value) :
  Forall (keeps verdict) (skipn 2 (python_body toml)).
Proof. unfold python_body. cbn [skipn]. repeat constructor; keeps_fields. Qed.



Lemma try_block_verdict (body : list stmt) (a : analysis) (ty : string) :
  firstn 2 body = [ does (set_detected true); does (set_type ty) ] ->
  Forall (keeps verdict) (skipn 2 body) ->
  verdict (try_block body a) = (true, ty).
Proof.
  intros Hhead Htail.
  rewrite <- (firstn_skipn 2 body), Hhead. cbn [app try_block does].
  now rewrite try_block_keeps.
Qed.






End ProbeOrder.

Section ProbeEffects.
Import Analyzer Spec Laws.

Lemma probes_on_undetected (py rs : result object) (d : directory) :
  last_detected_on py rs d = "unknown" -> probes_on py rs d = initial d.
Proof.
  unfold last_detected_on, probes_on, rust_probe_on, go_probe, python_probe_on,
    node_probe, python_detects_on, returns, readable, json_parsed.
  destruct (Cargo_toml d) as [| |ct], rs as [rt|re];
    cbn [exists_file andb]; try discriminate;
  (destruct (go_mod d) as [| |gt]; cbn [exists_file read bind];
     try discriminate);
  (destruct (pyproject_toml d) as [| |pt], py as [pyt|pe];
     cbn [exists_file]; try discriminate;
     try (destruct (setup_py d), (requirements_txt d); cbn; try discriminate));
  (destruct (package_json d) as [| |pkg]; cbn; try discriminate; reflexivity).
Qed.



End ProbeEffects.

Ltac keeps_by_cases :=
  intros ? ?;
  cbv beta delta [Analyzer.copy_or Analyzer.copy_authors Analyzer.does bind];
  repeat match goal with
         | |- context [match ?x with _ => _ end] => destruct x
         end;
  first [ discriminate | intros [= <-]; reflexivity ].

Section ProbeLeftovers.
Import Analyzer Spec Laws.

Lemma rust_probe_on_skips (rs : result object) (d : directory) (a : analysis) :
  parsed_ok (Cargo_toml d) rs = false -> rust_probe_on rs d a = a.
Proof.
  unfold rust_probe_on, parsed_ok, returns.
  destruct (exists_file (Cargo_toml d)), rs; cbn [andb];
    try discriminate; reflexivity.
Qed.

Lemma go_probe_skips (d : directory) (a : analysis) :
  readable (go_mod d) = false -> go_probe d a = a.
Proof.
  unfold go_probe. destruct (go_mod d); try reflexivity. discriminate.
Qed.




(** X4: with no pyproject.toml, a setup.py or a requirements.txt makes
    the project python; the install command is [pip install .] when
    setup.py exists and [pip install -r requirements.txt] otherwise.
    This path writes [detected], [type] and [installCommand] only: with
    no go.mod and no Cargo.toml read after it, the name and the run,
    build and test commands stay as the Node probe left them.  What
    the two calls of [parseToml] would do is taken as given ([py],
    [rs]). *)
Theorem python_fallback_writes_three_fields
    (py rs : result object) (d : directory) :
  exists_file (pyproject_toml d) = false ->
  setup_py d || requirements_txt d = true ->
  readable (go_mod d) = false ->
  parsed_ok (Cargo_toml d) rs = false ->
  let node := node_probe d (initial d) in
  let a := analyzeProject_on py rs d in
  probes_on py rs d
  = set_installCommand
      (if setup_py d then "pip install ." else "pip install -r requirements.txt")
      (set_type "python" (set_detected true node))
  /\ type a = "python"
  /\ name a = name node
  /\ (runCommand a, buildCommand a, testCommand a)
     = (runCommand node, buildCommand node, testCommand node).
Proof.
  intros Hpy Hs Hg Hc node a.
  assert (Hp : probes_on py rs d
    = set_installCommand
        (if setup_py d then "pip install ." else "pip install -r requirements.txt")
        (set_type "python" (set_detected true node))).
  { unfold probes_on.
    rewrite (rust_probe_on_skips rs d _ Hc), (go_probe_skips d _ Hg).
    unfold python_probe_on. rewrite Hpy, Hs. reflexivity. }
  split; [exact Hp|]. subst a. unfold analyzeProject_on. rewrite Hp.
  repeat split.
Qed.

Lemma python_fallback_writes_three_fields_witness :
  type (analyzeProject node_and_requirements) = "python"
  /\ installCommand (analyzeProject node_and_requirements)
     = "pip install -r requirements.txt"
  /\ runCommand (analyzeProject node_and_requirements) = "node index.js".
Proof.
  pose proof (python_fallback_writes_three_fields
                (parsed (pyproject_toml node_and_requirements))
                (parsed (Cargo_toml node_and_requirements))
                node_and_requirements
                eq_refl eq_refl eq_refl eq_refl) as H.
  cbv zeta in H. destruct H as (Hp & Ht & _ & Hcmd).
  split; [exact Ht|]. split.
  - change (analyzeProject node_and_requirements)
      with (analyzeProject_on (parsed (pyproject_toml node_and_requirements))
              (parsed (Cargo_toml node_and_requirements))
              node_and_requirements).
    unfold analyzeProject_on. rewrite Hp. reflexivity.
  - exact (f_equal (fun t => fst (fst t)) Hcmd).
Defined.

End ProbeLeftovers.

Section NodeProbe.
Import Analyzer Spec Laws.

Lemma get_non_nullish (v : value) (k : string) :
  non_nullish v = true -> get v k = Ok (get_opt v k).
Proof.
  intros H. unfold get_opt. destruct (get v k) eqn:E; [reflexivity|].
  destruct v; try discriminate; simpl in E;
    repeat match type of E with
           | context [if ?b then _ else _] => destruct b
           | context [match ?x with _ => _ end] => destruct x
           end; discriminate.
Qed.

Lemma truthy_non_nullish (v : value) : truthy v = true -> non_nullish v = true.
Proof. destruct v; simpl; auto. Qed.

Lemma keys_non_nullish (v : value) :
  non_nullish v = true -> exists ks, keys v = Ok ks.
Proof. destruct v; try discriminate; simpl; eauto. Qed.

Lemma non_nullish_or_object (v : value) : non_nullish (or_else v (VObj [])) = true.
Proof.
  unfold or_else. destruct (truthy v) eqn:E; [|reflexivity].
  now apply truthy_non_nullish.
Qed.

(** The statements of a prefix that never throw all run; a field they
    keep is as before when the rest of the block starts. *)
Lemma try_block_prefix {X} (f : analysis -> X) (pre post : list stmt)
    (a : analysis) :
  Forall total_stmt pre -> Forall (keeps f) pre ->
  exists a1, try_block (pre ++ post) a = try_block post a1 /\ f a1 = f a.
Proof.
  intros Ht. revert a. induction Ht as [|s pre Hs _ IH]; intros a Hk.
  - exists a. split; reflexivity.
  - inversion Hk as [|? ? Hks Hkpre]; subst.
    destruct (Hs a) as [a' Ha']. cbn [app try_block]. rewrite Ha'.
    destruct (IH a' Hkpre) as (a1 & Hrun & Hf).
    exists a1. split; [exact Hrun|]. rewrite Hf. now apply Hks.
Qed.

Lemma copy_or_total (pkg : value) (k : string) (dflt : value)
    (set : value -> analysis -> analysis) :
  non_nullish pkg = true -> total_stmt (copy_or pkg k dflt set).
Proof.
  intros Hn a. unfold copy_or. rewrite (get_non_nullish pkg k Hn).
  cbn [bind]. eauto.
Qed.

Lemma does_total (g : analysis -> analysis) : total_stmt (does g).
Proof. intros a. unfold does. eauto. Qed.

(** Up to the install command, the statements of the Node block throw
    only on a [pkg] that is null. *)
Lemma node_body_head_total (pkg : value) :
  non_nullish pkg = true -> Forall total_stmt (firstn 14 (node_body pkg)).
Proof.
  intros Hn. pose proof (fun k => get_non_nullish pkg k Hn) as Hget.
  unfold node_body. cbn [firstn].
  repeat (apply Forall_cons; [|]); try apply Forall_nil;
    try apply does_total; try (apply copy_or_total; exact Hn);
    intros a; rewrite ?Hget; cbn [bind]; eauto.
  - destruct (keys_non_nullish _
                (non_nullish_or_object (get_opt pkg "dependencies"))) as [ks ->].
    cbn [bind]. eauto.
  - destruct (keys_non_nullish _
                (non_nullish_or_object (get_opt pkg "devDependencies"))) as [ks ->].
    cbn [bind]. eauto.
Qed.

Lemma Forall_firstn_keep {A} (P : A -> Prop) (n : nat) (l : list A) :
  Forall P l -> Forall P (firstn n l).
Proof.
  intros H. revert n. induction H as [|x l Hx _ IH]; intros [|n]; simpl;
    constructor; auto.
Qed.

Lemma Forall_skipn_keep {A} (P : A -> Prop) (n : nat) (l : list A) :
  Forall P l -> Forall P (skipn n l).
Proof.
  intros H. revert n. induction H as [|x l Hx H IH]; intros [|n]; simpl; auto.
Qed.

Lemma node_body_keeps_commands (pkg : value) :
  Forall (keeps installCommand) (skipn 14 (node_body pkg))
  /\ Forall (keeps (fun a => (runCommand a, buildCommand a, testCommand a)))
            (firstn 14 (node_body pkg))
  /\ Forall (keeps name) (skipn 3 (node_body pkg)).
Proof.
  unfold node_body. cbn [skipn firstn].
  repeat split; repeat constructor; keeps_by_cases.
Qed.

(** X5: a package.json is detected as soon as it parses.  When it holds
    the JSON value null, the first read of a property throws and nothing
    but [detected] and [type] is written.  For any other value the block
    runs as far as the run command: the name is [pkg.name] or else the
    base name, and the install command is [npm install].  The run
    command prints the name of the binary or the main file; when that
    value cannot be made a string the block stops there and the run,
    build and test commands stay empty; otherwise the block runs to its
    end and the build and test commands are written exactly when
    [scripts.build] and [scripts.test] are truthy. *)
Theorem node_block_stops_at_null_or_run_command (d : directory) (pkg : value) :
  package_json d = JParsed pkg ->
  let a := node_probe d (initial d) in
  let build := if truthy (get_opt (get_opt pkg "scripts") "build")
               then "npm run build" else "" in
  let test := if truthy (get_opt (get_opt pkg "scripts") "test")
              then "npm test" else "" in
  (non_nullish pkg = false ->
   a = set_type "node" (set_detected true (initial d)))
  /\ (non_nullish pkg = true ->
      name a = or_else (get_opt pkg "name") (VStr (basename (path d)))
      /\ installCommand a = "npm install"
      /\ match run_target pkg (name a) with
         | None => (runCommand a, buildCommand a, testCommand a) = ("", build, test)
         | Some v =>
             match to_string v with
             | Ok s =>
                 (runCommand a, buildCommand a, testCommand a)
                 = ((if truthy (get_opt pkg "bin") then "npx " else "node ") +++ s,
                    build, test)
             | Throw _ =>
                 (runCommand a, buildCommand a, testCommand a) = ("", "", "")
             end
         end).
Proof.
  intros Hp a build test. subst a. unfold node_probe. rewrite Hp.
  cbn [exists_json read_json].
  split.
  - intros Hn. destruct pkg; try discriminate; reflexivity.
  - intros Hn.
    pose proof (fun k => get_non_nullish pkg k Hn) as Hget.
    pose proof (node_body_head_total pkg Hn) as Htot.
    destruct (node_body_keeps_commands pkg) as (Ki & Kc & Kn).
    assert (Hname : name (try_block (node_body pkg) (initial d))
                    = or_else (get_opt pkg "name") (VStr (basename (path d)))).
    { rewrite <- (firstn_skipn 3 (node_body pkg)).
      set (rest := skipn 3 (node_body pkg)) in *.
      unfold node_body. cbn [firstn app try_block does].
      rewrite Hget. cbn [bind].
      rewrite (try_block_keeps name rest _ Kn). reflexivity. }
    split; [exact Hname|]. split.
    + assert (H13 : Forall total_stmt (firstn 13 (node_body pkg))).
      { change (firstn 13 (node_body pkg))
          with (firstn 13 (firstn 14 (node_body pkg))).
        now apply Forall_firstn_keep. }
      destruct (try_block_prefix (fun _ => tt) (firstn 13 (node_body pkg))
                  (skipn 13 (node_body pkg)) (initial d) H13) as (a1 & Hrun & _).
      { apply Forall_forall. intros s _ x y _. reflexivity. }
      rewrite (firstn_skipn 13) in Hrun. rewrite Hrun.
      change (skipn 13 (node_body pkg))
        with (does (set_installCommand "npm install")
                :: skipn 14 (node_body pkg)).
      cbn [try_block does].
      rewrite (try_block_keeps installCommand _ _ Ki). reflexivity.
    + rewrite Hname.
      destruct (try_block_prefix
                  (fun a => (runCommand a, buildCommand a, testCommand a))
                  (firstn 14 (node_body pkg)) (skipn 14 (node_body pkg))
                  (initial d) Htot Kc) as (a1 & Hrun & Hcmd).
      rewrite (firstn_skipn 14) in Hrun.
      assert (Hn1 : name a1
                    = or_else (get_opt pkg "name") (VStr (basename (path d)))).
      { rewrite <- Hname, Hrun. symmetry. apply try_block_keeps.
        apply (Forall_skipn_keep _ 11 _ Kn). }
      rewrite Hrun. clear Hrun Hname.
      cbn [initial runCommand buildCommand testCommand] in Hcmd.
      injection Hcmd as Hr Hb Ht.
      unfold node_body. cbn [skipn try_block]. rewrite !Hget. cbn [bind].
      unfold run_target. rewrite <- Hn1.
      destruct (truthy (get_opt pkg "bin")) eqn:Hbin.
      * assert (Hv : (if is_string (get_opt pkg "bin") then Ok (name a1)
                      else ks <- keys (get_opt pkg "bin") ;; Ok (first_key ks))
                     = Ok (if is_string (get_opt pkg "bin") then name a1
                           else match keys (get_opt pkg "bin") with
                                | Ok ks => first_key ks
                                | Throw _ => VUndef
                                end)).
        { destruct (is_string (get_opt pkg "bin")); [reflexivity|].
          destruct (keys_non_nullish _ (truthy_non_nullish _ Hbin)) as [ks ->].
          reflexivity. }
        rewrite Hv. cbn [bind].
        destruct (to_string _) as [s|e]; cbn [bind].
        -- rewrite ?Hget; cbn [bind]. subst build test.
           destruct (truthy (get_opt (get_opt pkg "scripts") "build")),
             (truthy (get_opt (get_opt pkg "scripts") "test"));
             cbn [try_block runCommand buildCommand testCommand
                  set_runCommand set_buildCommand set_testCommand];
             rewrite ?Hb, ?Ht; reflexivity.
        -- now rewrite Hr, Hb, Ht.
      * rewrite ?Hget; cbn [bind].
        destruct (truthy (get_opt pkg "main")) eqn:Hmain.
        -- destruct (to_string (get_opt pkg "main")) as [s|e]; cbn [bind].
           ++ rewrite ?Hget; cbn [bind]. subst build test.
              destruct (truthy (get_opt (get_opt pkg "scripts") "build")),
                (truthy (get_opt (get_opt pkg "scripts") "test"));
                cbn [try_block runCommand buildCommand testCommand
                     set_runCommand set_buildCommand set_testCommand];
                rewrite ?Hb, ?Ht; reflexivity.
           ++ now rewrite Hr, Hb, Ht.
        -- rewrite ?Hget; cbn [bind]. subst build test.
           destruct (truthy (get_opt (get_opt pkg "scripts") "build")),
             (truthy (get_opt (get_opt pkg "scripts") "test"));
             cbn [try_block runCommand buildCommand testCommand
                  set_runCommand set_buildCommand set_testCommand];
             rewrite ?Hr, ?Hb, ?Ht; reflexivity.
Qed.

(** A package.json whose main entry is an object with its own
    [toString] property. *)
Lemma node_block_stops_at_null_or_run_command_witness :
  let odd := VObj [ ("main", VObj [ ("toString", VNum (Num.Fin false 0 0)) ]);
                    ("scripts", VObj [ ("test", VStr "jest") ]) ] in
  name (node_probe (node_only VNull) (initial (node_only VNull))) = VStr "app"
  /\ installCommand (node_probe (node_only VNull) (initial (node_only VNull))) = ""
  /\ installCommand (node_probe (node_only odd) (initial (node_only odd)))
     = "npm install"
  /\ testCommand (node_probe (node_only odd) (initial (node_only odd))) = "".
Proof.
  intros odd.
  destruct (node_block_stops_at_null_or_run_command (node_only VNull) VNull eq_refl)
    as [Hnull _].
  destruct (node_block_stops_at_null_or_run_command (node_only odd) odd eq_refl)
    as [_ Hobj].
  cbv zeta in Hnull, Hobj.
  rewrite (Hnull eq_refl).
  destruct (Hobj eq_refl) as (_ & Hi & Hc).
  split; [reflexivity | split; [reflexivity | split; [exact Hi|]]].
  exact (f_equal snd Hc).
Defined.

End NodeProbe.

Section PythonProbe.
Import Analyzer Spec Laws Scenario.

Lemma copy_authors_total (pkg : value) :
  non_nullish pkg = true -> total_stmt (copy_authors pkg).
Proof.
  intros Hn a. unfold copy_authors. rewrite (get_non_nullish pkg _ Hn).
  cbn [bind]. destruct (truthy (get_opt pkg "authors")) eqn:Tr; [|eauto].
  destruct (isArray (get_opt pkg "authors")); [|eauto].
  rewrite (get_non_nullish _ "0" (truthy_non_nullish _ Tr)). cbn [bind]. eauto.
Qed.

Lemma python_body_head_total (toml : value) :
  Forall total_stmt (firstn 9 (python_body toml)).
Proof.
  unfold python_body. cbn [firstn].
  set (project := or_else _ (VObj [])).
  assert (Hn : non_nullish project = true) by apply non_nullish_or_object.
  repeat (apply Forall_cons; [|]); try apply Forall_nil;
    try apply does_total; try (apply copy_or_total; exact Hn);
    try (apply copy_authors_total; exact Hn).
  intros a. rewrite (get_non_nullish project _ Hn). cbn [bind]. eauto.
Qed.

Lemma python_body_keeps (toml : value) :
  Forall (keeps (fun a => (runCommand a, testCommand a)))
         (firstn 9 (python_body toml))
  /\ Forall (keeps name) (skipn 3 (python_body toml))
  /\ Forall (keeps installCommand) (skipn 9 (python_body toml)).
Proof.
  unfold python_body. cbn [skipn firstn].
  repeat split; repeat constructor; keeps_by_cases.
Qed.

(** X6: a pyproject.toml that parses gives type python, the name
    [project.name] (from [project], else [tool.poetry]) or else the
    earlier name, and the install command [pip install .].  The text is
    a plain one (ASCII, no section named after an inherited property or
    after an assigned key): there the parser and the reads of the
    block meet own properties only.  The run
    command is built with a string method of the name: when the name is
    a string, it is [python -m] and the name with hyphens turned into
    underscores, and [pytest] becomes the test command when the
    [tool.pytest] table is there; when the name is not a string the
    block stops there, and the run and test commands stay as they
    were. *)
Theorem python_block_needs_string_name
    (d : directory) (text : string) (toml : object) (a : analysis) :
  pyproject_toml d = Content text ->
  plain text = true ->
  Toml.parseToml text = Ok toml ->
  let project :=
    or_else (or_else (get_opt (VObj toml) "project")
                     (get_opt (get_opt (VObj toml) "tool") "poetry")) (VObj []) in
  let a' := python_probe d a in
  type a' = "python"
  /\ name a' = or_else (get_opt project "name") (name a)
  /\ installCommand a' = "pip install ."
  /\ match name a' with
     | VStr n =>
         runCommand a' = "python -m " +++ replace_char is_hyphen "_"%char n
         /\ testCommand a'
            = (if truthy (get_opt (get_opt (VObj toml) "tool") "pytest")
               then "pytest" else testCommand a)
     | _ => runCommand a' = runCommand a /\ testCommand a' = testCommand a
     end.
Proof.
  intros Hp _ Ht project a'.
  assert (Ha' : a' = try_block (python_body (VObj toml)) a).
  { subst a'. unfold python_probe, python_probe_on. unfold parsed. rewrite Hp. cbn [exists_file read bind].
    now rewrite Ht. }
  rewrite Ha'. clear Ha' a'.
  set (body := python_body (VObj toml)).
  assert (Hnn : non_nullish project = true) by apply non_nullish_or_object.
  destruct (python_body_keeps (VObj toml)) as (Krt & Kn & Ki).
  fold body in Krt, Kn, Ki.
  assert (Hty : type (try_block body a) = "python").
  { pose proof (try_block_verdict body a "python" eq_refl
                  (python_body_tail (VObj toml))) as Hv.
    exact (f_equal snd Hv). }
  assert (Hname : name (try_block body a)
                  = or_else (get_opt project "name") (name a)).
  { rewrite <- (firstn_skipn 3 body).
    set (rest := skipn 3 body) in *.
    unfold body, python_body. fold project.
    cbn [firstn app try_block does].
    rewrite (get_non_nullish project _ Hnn). cbn [bind].
    rewrite (try_block_keeps name rest _ Kn). reflexivity. }
  destruct (try_block_prefix (fun x => (runCommand x, testCommand x))
              (firstn 9 body) (skipn 9 body) a
              (python_body_head_total (VObj toml)) Krt) as (a1 & Hrun & Hrt).
  rewrite (firstn_skipn 9) in Hrun.
  assert (Hn1 : name (try_block body a) = name a1).
  { rewrite Hrun. apply try_block_keeps.
    apply (Forall_skipn_keep _ 6 _ Kn). }
  pose proof (f_equal fst Hrt) as Hr1. pose proof (f_equal snd Hrt) as Ht1.
  cbn [fst snd] in Hr1, Ht1.
  split; [exact Hty|]. split; [exact Hname|]. split.
  - pose proof (try_block_prefix (fun _ => tt) (firstn 8 body) (skipn 8 body) a)
      as Hpre.
    destruct Hpre as (a0 & Hrun0 & _).
    { apply (Forall_firstn_keep _ 8 _ (python_body_head_total (VObj toml))). }
    { apply Forall_forall. intros s _ x y _. reflexivity. }
    rewrite (firstn_skipn 8) in Hrun0. rewrite Hrun0.
    change (skipn 8 body)
      with (does (set_installCommand "pip install .") :: skipn 9 body).
    cbn [try_block does].
    rewrite (try_block_keeps installCommand _ _ Ki). reflexivity.
  - rewrite Hn1. rewrite Hrun.
    unfold body, python_body. cbn [skipn try_block].
    destruct (name a1) as [| | | |n| |]; cbn [as_string bind]; auto.
    destruct (truthy (get_opt (get_opt (VObj toml) "tool") "pytest"));
      split; try reflexivity; exact Ht1.
Qed.

Lemma python_block_needs_string_name_witness :
  let a' := python_probe numeric_name (node_probe numeric_name (initial numeric_name)) in
  type a' = "python" /\ installCommand a' = "pip install ."
  /\ runCommand a' = "" /\ testCommand a' = "".
Proof.
  pose proof (python_block_needs_string_name numeric_name
                (unlines [ "[project]"; "name = 5" ])
                [ ("project", VObj [ ("name", VNum (Num.Fin false 5 0)) ]) ]
                (node_probe numeric_name (initial numeric_name))
                eq_refl eq_refl eq_refl) as H.
  cbv zeta in H. destruct H as (Ht & Hn & Hi & Hrest).
  rewrite Hn in Hrest. cbn in Hrest. destruct Hrest as [Hr Hte].
  cbv zeta. repeat split; assumption.
Defined.

End PythonProbe.

(** ** extractFeatures *)

Section Features.
Import Analyzer Spec Laws.

Lemma push_if_pushed (l : list (bool * string)) (b : bool) (x : string) :
  push_if b x (pushed l) = pushed (l ++ [ (b, x) ]).
Proof.
  unfold pushed, push_if. rewrite filter_app, map_app. simpl.
  destruct b; simpl; [reflexivity | now rewrite app_nil_r].
Qed.

Lemma pushed_NoDup (l : list (bool * string)) :
  NoDup (map snd l) -> NoDup (pushed l).
Proof.
  unfold pushed. induction l as [|[b x] l IH]; simpl; intros H.
  - constructor.
  - inversion H as [|? ? Hnin Hnd]; subst.
    destruct b; simpl; [|auto]. constructor; [|auto].
    intros Hin. apply Hnin. apply in_map_iff in Hin as ([b' y] & <- & Hy).
    apply filter_In in Hy as [Hy _]. apply in_map_iff. now exists (b', y).
Qed.

Lemma pushed_In (l : list (bool * string)) (x : string) :
  In x (pushed l) <-> In (true, x) l.
Proof.
  unfold pushed. rewrite in_map_iff. split.
  - intros ([b y] & <- & Hy). apply filter_In in Hy as [Hy Hb].
    simpl in Hb. now subst b.
  - intros H. exists (true, x). split; [reflexivity|].
    apply filter_In. now split.
Qed.

(** The pushes of a run of [extractFeatures]. *)
Lemma extractFeatures_pushed (d : directory) (projectType : string) :
  let st := analyzeStructure d in
  exists node,
    extractFeatures d projectType
    = pushed ([ (hasTests st, "Comprehensive test suite");
                (hasDocs st, "Detailed documentation");
                (hasExamples st, "Example code included");
                (hasCI st, "CI/CD integration");
                (hasBin st, "CLI support") ] ++ node)
    /\ map snd node = (if projectType == "node" then node_phrases else [])
    /\ (json_parsed (package_json d) = false -> Forall (fun p => fst p = false) node).
Proof.
  intros st. unfold extractFeatures. fold st.
  set (base := [ (hasTests st, "Comprehensive test suite");
                 (hasDocs st, "Detailed documentation");
                 (hasExamples st, "Example code included");
                 (hasCI st, "CI/CD integration");
                 (hasBin st, "CLI support") ]).
  assert (Hbase : push_if (hasBin st) "CLI support"
    (push_if (hasCI st) "CI/CD integration"
    (push_if (hasExamples st) "Example code included"
    (push_if (hasDocs st) "Detailed documentation"
    (push_if (hasTests st) "Comprehensive test suite" [])))) = pushed base).
  { change (@nil string) with (pushed []). now rewrite !push_if_pushed. }
  rewrite Hbase. destruct (projectType == "node").
  - unfold node_features.
    assert (Hnone : exists node,
              pushed base = pushed (base ++ node)
              /\ map snd node = node_phrases
              /\ (json_parsed (package_json d) = false ->
                  Forall (fun p => fst p = false) node)).
    { exists (map (fun x => (false, x)) node_phrases).
      split; [|split; [reflexivity|intros _; repeat constructor]].
      unfold pushed. rewrite filter_app, map_app. simpl.
      now rewrite app_nil_r. }
    destruct (package_json d) as [| |pkg]; cbn [read_json]; try exact Hnone.
    destruct (get pkg "bin") as [bin|]; [|exact Hnone].
    destruct (get pkg "types") as [types|]; [|exact Hnone].
    destruct (get pkg "typings") as [typings|]; [|exact Hnone].
    destruct (get pkg "scripts") as [sc|]; [|exact Hnone].
    rewrite !push_if_pushed, <- !app_assoc. eexists. split; [reflexivity|].
    split; [reflexivity|discriminate].
  - exists []. rewrite app_nil_r. repeat split. constructor.
Qed.

(** X7: the feature list has no repeated phrase; each of its entries is
    one of the five structure phrases or, for a node project only, one
    of the four package phrases; a structure phrase is in the list
    exactly when its flag is set. *)
Theorem features_have_no_repeats (d : directory) (projectType : string) :
  let fs := extractFeatures d projectType in
  let st := analyzeStructure d in
  NoDup fs
  /\ (forall f, In f fs ->
        In f structure_phrases \/ (projectType = "node" /\ In f node_phrases))
  /\ (In "Comprehensive test suite" fs <-> hasTests st = true)
  /\ (In "Detailed documentation" fs <-> hasDocs st = true)
  /\ (In "Example code included" fs <-> hasExamples st = true)
  /\ (In "CI/CD integration" fs <-> hasCI st = true)
  /\ (In "CLI support" fs <-> hasBin st = true).
Proof.
  intros fs st. subst fs.
  destruct (extractFeatures_pushed d projectType) as (node & -> & Hnode & _).
  fold st.
  assert (Hnp : forall b x, In (b, x) node ->
                  projectType = "node" /\ In x node_phrases).
  { intros b x Hin. apply (in_map snd) in Hin. rewrite Hnode in Hin.
    destruct (String.eqb_spec projectType "node"); [auto|contradiction]. }
  split; [|split].
  - apply pushed_NoDup. rewrite map_app, Hnode. simpl.
    destruct (projectType == "node"); simpl;
      repeat constructor; simpl; intuition discriminate.
  - intros f Hf. apply pushed_In in Hf. apply in_app_or in Hf as [Hf|Hf].
    + left. simpl in Hf. unfold structure_phrases. simpl.
      intuition (match goal with H : (_, _) = (_, _) |- _ =>
                   injection H as _ <- end; auto).
    + right. eapply Hnp, Hf.
  - repeat split; rewrite pushed_In, in_app_iff; simpl;
      try (intros [H|H];
           [ intuition (try discriminate; congruence)
           | apply Hnp in H as [_ H]; simpl in H; intuition discriminate ]);
      try (intros ->; left; auto 6).
Qed.

End Features.

(** ** analyzeStructure: the record by filters *)

Section StructureShape.
Import Spec Laws.




End StructureShape.

(** ** path.basename *)

Section Basename.
Import Laws.

Lemma forallb_rev {A} (p : A -> bool) (l : list A) :
  forallb p (rev l) = forallb p l.
Proof.
  induction l as [|x l IH]; simpl; [reflexivity|].
  rewrite forallb_app, IH. simpl. rewrite andb_true_r. apply andb_comm.
Qed.

Lemma drop_while_nil_iff (p : ascii -> bool) (l : list ascii) :
  drop_while p l = [] <-> forallb p l = true.
Proof.
  induction l as [|c l IH]; simpl; [tauto|].
  destruct (p c); simpl; [exact IH|]. split; discriminate.
Qed.

Lemma take_while_nil_iff (p : ascii -> bool) (l : list ascii) :
  take_while p l = [] <-> match l with [] => True | c :: _ => p c = false end.
Proof.
  destruct l as [|c l]; simpl; [tauto|].
  destruct (p c); split; try discriminate; auto.
Qed.

Lemma str_nil_iff (l : list ascii) : str l = "" <-> l = [].
Proof.
  split; [|now intros ->]. destruct l; [auto|discriminate].
Qed.

(** The base name never contains a slash; it is empty exactly when
    the path is empty or made of slashes only; and for a path that ends
    in a slash-free, non-empty segment after a slash, followed by any
    number of slashes, it is that segment. *)
Theorem basename_is_last_segment (p : string) :
  slash_free (basename p) = true
  /\ (basename p = "" <-> is_slash_only p = true)
  /\ (forall dir seg tail,
        p = dir +++ "/" +++ seg +++ tail ->
        seg <> "" -> slash_free seg = true -> is_slash_only tail = true ->
        basename p = seg).
Proof.
  unfold basename, slash_free, is_slash_only. split; [|split].
  - rewrite chars_str, forallb_rev. apply take_while_all.
  - rewrite str_nil_iff. split.
    + intros H. apply (f_equal (@rev ascii)) in H. rewrite rev_involutive in H.
      simpl in H. apply take_while_nil_iff in H.
      destruct (drop_while is_slash (rev (chars p))) as [|c r] eqn:E.
      * apply drop_while_nil_iff in E. now rewrite forallb_rev in E.
      * apply drop_while_head in E. rewrite E in H. discriminate.
    + intros H. rewrite <- forallb_rev in H. apply drop_while_nil_iff in H.
      now rewrite H.
  - intros dir seg tail -> Hne Hseg Htail.
    assert (Hs : chars seg <> []).
    { intros E. apply Hne. apply chars_inj. exact E. }
    destruct (rev (chars seg)) as [|c r] eqn:Er.
    { apply (f_equal (@rev ascii)) in Er. rewrite rev_involutive in Er.
      contradiction. }
    assert (Hr : forallb (fun x => negb (is_slash x)) (c :: r) = true).
    { rewrite <- Er, forallb_rev. exact Hseg. }
    assert (Hc : is_slash c = false).
    { simpl in Hr. apply andb_true_iff in Hr as [Hc _].
      now apply negb_true_iff in Hc. }
    rewrite <- forallb_rev in Htail.
    assert (Hrev : rev (chars (dir +++ "/" +++ seg +++ tail))
                   = rev (chars tail) ++ c :: (r ++ "/"%char :: rev (chars dir))).
    { rewrite !chars_append, !rev_app_distr, Er, <- !app_assoc. reflexivity. }
    rewrite Hrev.
    destruct (take_drop_app is_slash (rev (chars tail)) c
                (r ++ "/"%char :: rev (chars dir)) Htail Hc) as [_ Hd].
    rewrite Hd.
    destruct (take_drop_app (fun x => negb (is_slash x)) (c :: r) "/"%char
                (rev (chars dir)) Hr eq_refl) as [Ht _].
    cbn [app] in Ht. rewrite Ht, <- Er, rev_involutive. apply str_chars.
Qed.

Lemma basename_is_last_segment_witness :
  basename "/home/u/my-app//" = "my-app".
Proof.
  apply (proj2 (proj2 (basename_is_last_segment "/home/u/my-app//"))
           "/home/u" "my-app" "//"); [reflexivity|discriminate|reflexivity..].
Defined.

End Basename.

(** ** The scripts of the record *)

Section ScriptsMerge.
Import Analyzer Spec Laws.

Lemma assign_NoDup (k : string) (v : value) (o : object) :
  NoDup (map fst o) -> NoDup (map fst (assign k v o)).
Proof.
  induction o as [|[k0 v0] o IH]; simpl; intros H.
  - repeat constructor. auto.
  - inversion H as [|? ? Hnin Hnd]; subst.
    destruct (String.eqb_spec k0 k) as [->|Hne]; simpl.
    + now constructor.
    + constructor; [|auto]. rewrite assign_keys. intros [->|Hin]; auto.
Qed.

Lemma fold_assign_NoDup (l acc : object) :
  NoDup (map fst acc) ->
  NoDup (map fst (fold_left (fun a kv => assign (fst kv) (snd kv) a) l acc)).
Proof.
  revert acc. induction l as [|[k v] l IH]; intros acc H; simpl; [exact H|].
  apply IH. now apply assign_NoDup.
Qed.

(** Folding assignments: a key of the list gets its last value there,
    any other key keeps the one it had. *)
Lemma fold_assign_lookup (l acc : object) (k : string) :
  lookup k (fold_left (fun a kv => assign (fst kv) (snd kv) a) l acc)
  = match lookup k (rev l) with
    | Some v => Some v
    | None => lookup k acc
    end.
Proof.
  revert acc. induction l as [|[k0 v0] l IH]; intros acc; simpl; [reflexivity|].
  rewrite IH.
  assert (Happ : forall l1 l2, lookup k (l1 ++ l2)
            = match lookup k l1 with Some v => Some v | None => lookup k l2 end).
  { induction l1 as [|[k1 v1] l1 IH1]; intros l2; simpl; [reflexivity|].
    destruct (k1 == k); [reflexivity|apply IH1]. }
  rewrite Happ. destruct (lookup k (rev l)); [reflexivity|]. simpl.
  destruct (String.eqb_spec k0 k) as [->|Hne].
  - apply lookup_assign_same.
  - apply lookup_assign_other. congruence.
Qed.

Lemma lookup_In (o : object) (k : string) (v : value) :
  NoDup (map fst o) -> (lookup k o = Some v <-> In (k, v) o).
Proof.
  induction o as [|[k0 v0] o IH]; simpl; intros H.
  - split; [discriminate|contradiction].
  - inversion H as [|? ? Hnin Hnd]; subst.
    destruct (String.eqb_spec k0 k) as [->|Hne].
    + split.
      * intros [= ->]. now left.
      * intros [[= ->]|Hin]; [reflexivity|].
        exfalso. apply Hnin. apply in_map_iff. now exists (k, v).
    + rewrite (IH Hnd). split; [auto|]. intros [[= ? ?]|Hin]; [congruence|auto].
Qed.

Lemma lookup_rev (o : object) (k : string) :
  NoDup (map fst o) -> lookup k (rev o) = lookup k o.
Proof.
  intros H.
  assert (Hr : NoDup (map fst (rev o))).
  { rewrite map_rev. apply NoDup_rev. exact H. }
  destruct (lookup k o) as [v|] eqn:E.
  - apply (lookup_In _ _ _ Hr). apply -> in_rev. now apply (lookup_In _ _ _ H).
  - destruct (lookup k (rev o)) as [v|] eqn:E'; [|reflexivity].
    apply (lookup_In _ _ _ Hr) in E'. apply in_rev in E'.
    apply (lookup_In _ _ _ H) in E'. congruence.
Qed.

Lemma add_target_NoDup (s : object) (t : string) :
  NoDup (map fst s) -> NoDup (map fst (add_target s t)).
Proof.
  intros H. unfold add_target.
  destruct (negb (startsWith (target_name t) ".")); [|exact H].
  now apply assign_NoDup.
Qed.

Lemma detectScripts_NoDup (d : directory) (projectType : string) :
  NoDup (map fst (detectScripts d projectType)).
Proof.
  unfold detectScripts, makefile_scripts.
  assert (Hp : NoDup (map fst (package_scripts d projectType))).
  { unfold package_scripts, node_scripts, object_assign.
    destruct (projectType == "node"); [|constructor].
    destruct (read_json (package_json d)) as [pkg|]; [|constructor].
    destruct (get pkg "scripts") as [sc|]; [|constructor].
    destruct (truthy sc); [|constructor].
    apply fold_assign_NoDup. constructor. }
  destruct (exists_file (Makefile d)); [|exact Hp].
  destruct (read (Makefile d)) as [content|]; [|exact Hp].
  generalize (match_targets true (chars content)).
  generalize dependent (package_scripts d projectType).
  intros s Hs ts. revert s Hs.
  induction ts as [|t ts IH]; intros s Hs; simpl; [exact Hs|].
  apply IH. now apply add_target_NoDup.
Qed.

(** X10: the scripts of the returned record are an object whose keys
    are distinct; every entry of [detectScripts] (the scripts of
    package.json for a node project, then the Makefile targets) is in
    it with its value, overriding an entry of the same key that a probe
    wrote; a key [detectScripts] does not have keeps the last value the
    probes' scripts give it. *)
Theorem scripts_keys_are_distinct (d : directory) :
  exists o,
    scripts (analyzeProject d) = VObj o
    /\ NoDup (map fst o)
    /\ (forall k v,
          lookup k (detectScripts d (type (analyzeProject d))) = Some v ->
          lookup k o = Some v)
    /\ (forall k,
          lookup k (detectScripts d (type (analyzeProject d))) = None ->
          lookup k o = lookup k (rev (own_props (scripts (probes d))))).
Proof.
  eexists. split; [reflexivity|].
  change (type (analyzeProject d)) with (type (probes d)).
  cbn [type set_features set_structure scripts].
  unfold spread.
  pose proof (detectScripts_NoDup d (type (probes d))) as Hnd.
  split; [|split].
  - apply fold_assign_NoDup, fold_assign_NoDup. constructor.
  - intros k v Hk. rewrite fold_assign_lookup, (lookup_rev _ _ Hnd), Hk.
    reflexivity.
  - intros k Hk. rewrite fold_assign_lookup, (lookup_rev _ _ Hnd), Hk.
    rewrite fold_assign_lookup. simpl.
    destruct (lookup k (rev (own_props (scripts (probes d))))); reflexivity.
Qed.

End ScriptsMerge.

(** ** parseToml: keys, values and sections *)

Section TrimFacts.

Lemma drop_while_all (p : ascii -> bool) (l r : list ascii) :
  forallb p l = true -> drop_while p (l ++ r) = drop_while p r.
Proof.
  induction l as [|c l IH]; simpl; [reflexivity|].
  intros H. apply andb_true_iff in H as [Hc Hl]. now rewrite Hc, IH.
Qed.

Lemma drop_while_stop (p : ascii -> bool) (c : ascii) (r : list ascii) :
  p c = false -> drop_while p (c :: r) = c :: r.
Proof. intros H. simpl. now rewrite H. Qed.

Lemma rev_two_ends (c c' : ascii) (mid : list ascii) :
  rev (c :: mid ++ [c']) = c' :: rev mid ++ [c].
Proof.
  change (c :: mid ++ [c']) with ((c :: mid) ++ [c']).
  rewrite rev_app_distr. reflexivity.
Qed.

(** [trim] removes the white space around a text that starts and ends
    with other characters. *)
Lemma trim_l_core (pre post : list ascii) (c c' : ascii) (mid : list ascii) :
  forallb is_ws pre = true -> forallb is_ws post = true ->
  is_ws c = false -> is_ws c' = false ->
  trim_l (pre ++ (c :: mid ++ [c']) ++ post) = c :: mid ++ [c'].
Proof.
  intros Hpre Hpost Hc Hc'. unfold trim_l.
  rewrite (drop_while_all _ _ _ Hpre).
  assert (H1 : drop_while is_ws ((c :: mid ++ [c']) ++ post)
               = (c :: mid ++ [c']) ++ post).
  { cbn [app]. apply drop_while_stop. exact Hc. }
  rewrite H1, rev_app_distr, rev_two_ends.
  rewrite (drop_while_all is_ws (rev post)) by (now rewrite forallb_rev).
  rewrite (drop_while_stop _ _ _ Hc').
  rewrite <- rev_two_ends. apply rev_involutive.
Qed.

Lemma trim_l_single (pre post : list ascii) (c : ascii) :
  forallb is_ws pre = true -> forallb is_ws post = true ->
  is_ws c = false -> trim_l (pre ++ [c] ++ post) = [c].
Proof.
  intros Hpre Hpost Hc. unfold trim_l.
  rewrite (drop_while_all _ _ _ Hpre).
  assert (H1 : drop_while is_ws ([c] ++ post) = [c] ++ post).
  { cbn [app]. apply drop_while_stop. exact Hc. }
  rewrite H1, rev_app_distr.
  rewrite (drop_while_all is_ws (rev post)) by (now rewrite forallb_rev).
  cbn [rev app]. now rewrite (drop_while_stop _ _ _ Hc).
Qed.

(** A non-empty list by its two ends. *)
Lemma list_ends (l : list ascii) :
  l = [] \/ (exists c, l = [c]) \/ (exists c mid c', l = c :: mid ++ [c']).
Proof.
  destruct l as [|c l]; [auto|]. right.
  destruct (rev l) as [|c' m] eqn:E.
  - left. exists c. apply (f_equal (@rev ascii)) in E.
    rewrite rev_involutive in E. now rewrite E.
  - right. exists c, (rev m), c'. apply (f_equal (@rev ascii)) in E.
    rewrite rev_involutive in E. now rewrite E.
Qed.

End TrimFacts.

Section TomlLines.
Import Toml Spec Laws Scenario.

Lemma key_char_plain (c : ascii) :
  is_key_char c = true ->
  is_ws c = false /\ not_char 61 c = true
  /\ (code c =? 35) = false /\ (code c =? 91) = false.
Proof.
  destruct c as [[] [] [] [] [] [] [] []]; vm_compute; intros H;
    try discriminate; auto.
Qed.

Lemma key_like_chars (k : string) :
  key_like k = true ->
  exists c r, chars k = c :: r /\ is_key_char c = true
              /\ forallb is_key_char (c :: r) = true.
Proof.
  unfold key_like. intros H. apply andb_true_iff in H as [Hne Hall].
  destruct k as [|c k]; [discriminate|].
  exists c, (chars k). repeat split; auto.
  change (chars (String c k)) with (c :: chars k) in Hall.
  simpl in Hall. now apply andb_true_iff in Hall as [Hc _].
Qed.

Lemma forallb_impl (p q : ascii -> bool) (l : list ascii) :
  (forall c, p c = true -> q c = true) ->
  forallb p l = true -> forallb q l = true.
Proof.
  intros Hpq. induction l as [|c l IH]; simpl; [auto|].
  intros H. apply andb_true_iff in H as [Hc Hl]. now rewrite (Hpq c Hc), IH.
Qed.

Lemma trim_key (k : string) :
  key_like k = true -> trim (str (chars k ++ [ " "%char ])) = k.
Proof.
  intros Hk. destruct (key_like_chars k Hk) as (c0 & r0 & Hch & _ & Hall).
  unfold trim. rewrite chars_str.
  assert (Hws : forall c, In c (chars k) -> is_ws c = false).
  { intros c Hin. rewrite Hch in Hin. rewrite forallb_forall in Hall.
    apply (key_char_plain c). now apply Hall. }
  rewrite <- (str_chars k) at 2. f_equal.
  destruct (list_ends (chars k)) as [E|[[c E]|(c & mid & c' & E)]].
  - rewrite Hch in E. discriminate.
  - rewrite E.
    apply (trim_l_single [] [ " "%char ] c eq_refl eq_refl).
    apply Hws. rewrite E. now left.
  - rewrite E.
    apply (trim_l_core [] [ " "%char ] c c' mid eq_refl eq_refl).
    + apply Hws. rewrite E. now left.
    + apply Hws. rewrite E. right. apply in_or_app. right. now left.
Qed.

Lemma trim_l_ends (c c' : ascii) (mid : list ascii) :
  is_ws c = false -> is_ws c' = false ->
  trim_l (c :: mid ++ [c']) = c :: mid ++ [c'].
Proof.
  intros Hc Hc'.
  pose proof (trim_l_core [] [] c c' mid eq_refl eq_refl Hc Hc') as H.
  cbn [app] in H. now rewrite app_nil_r in H.
Qed.

(** A text between double quotes is stored as it stands, whatever it
    is. *)
Lemma parse_value_quoted (s : string) :
  parse_value (str (DQc :: chars s ++ [DQc])) = VStr s.
Proof.
  unfold parse_value, trim. rewrite chars_str.
  rewrite (trim_l_ends DQc DQc (chars s) eq_refl eq_refl).
  assert (Hs : startsWith (str (DQc :: chars s ++ [DQc])) DQ = true).
  { unfold startsWith. rewrite chars_str. reflexivity. }
  assert (He : endsWith (str (DQc :: chars s ++ [DQc])) DQ = true).
  { unfold endsWith. rewrite chars_str, rev_two_ends. reflexivity. }
  rewrite Hs, He. cbn [andb].
  unfold slice_1_m1. rewrite chars_str. cbn [tl].
  now rewrite removelast_last, str_chars.
Qed.

Lemma quoted_line_chars (k s : string) :
  chars (k +++ " = " +++ DQ +++ s +++ DQ)
  = (chars k ++ [ " "%char ])
    ++ "="%char :: " "%char :: DQc :: chars s ++ [DQc].
Proof. rewrite !chars_append, <- app_assoc. reflexivity. Qed.

(** The line [k = "s"] is a key/value pair with key [k] and the string
    [s] as value. *)
Lemma classify_quoted (k s : string) :
  key_like k = true -> one_line s = true ->
  classify (k +++ " = " +++ DQ +++ s +++ DQ) = KeyValue k (VStr s).
Proof.
  intros Hk Hs. destruct (key_like_chars k Hk) as (c & r & Hch & Hc & Hall).
  destruct (key_char_plain c Hc) as (Hws & _ & Hhash & Hbr).
  assert (HL : chars (k +++ " = " +++ DQ +++ s +++ DQ)
               = c :: (r ++ " "%char :: "="%char :: " "%char :: DQc :: chars s)
                   ++ [DQc]).
  { rewrite quoted_line_chars, Hch. cbn [app]. f_equal.
    rewrite <- !app_assoc. reflexivity. }
  assert (Htrim : trim (k +++ " = " +++ DQ +++ s +++ DQ)
                  = k +++ " = " +++ DQ +++ s +++ DQ).
  { unfold trim. rewrite HL.
    rewrite (trim_l_ends c DQc _ Hws eq_refl).
    rewrite <- HL. apply str_chars. }
  unfold classify. rewrite Htrim.
  assert (Hempty : is_empty (k +++ " = " +++ DQ +++ s +++ DQ) = false).
  { destruct k; [discriminate|reflexivity]. }
  assert (Hstart : startsWith (k +++ " = " +++ DQ +++ s +++ DQ) "#" = false).
  { unfold startsWith. rewrite quoted_line_chars, Hch.
    cbn [chars list_ascii_of_string app starts_l].
    destruct (Ascii.eqb_spec "#"%char c) as [<-|]; [discriminate|reflexivity]. }
  rewrite Hempty, Hstart. cbn [orb].
  assert (Hsec : section_match (k +++ " = " +++ DQ +++ s +++ DQ) = None).
  { unfold section_match. rewrite quoted_line_chars, Hch. cbn [app].
    destruct (rev _); [reflexivity|]. now rewrite Hbr. }
  rewrite Hsec.
  assert (Hkv : kv_match (k +++ " = " +++ DQ +++ s +++ DQ)
                = Some (str (chars k ++ [ " "%char ]),
                        str (DQc :: chars s ++ [DQc]))).
  { unfold kv_match. rewrite quoted_line_chars.
    assert (Hne : forallb (not_char 61) (chars k ++ [ " "%char ]) = true).
    { rewrite forallb_app. apply andb_true_iff. split; [|reflexivity].
      rewrite Hch. eapply forallb_impl; [|exact Hall].
      intros x Hx. now apply key_char_plain. }
    destruct (take_drop_app (not_char 61) (chars k ++ [ " "%char ]) "="%char
                (" "%char :: DQc :: chars s ++ [DQc]) Hne eq_refl) as [-> ->].
    cbn [drop_while]. change (is_ws " ") with true. change (is_ws DQc) with false.
    cbn iota.
    assert (Hnil : Num.is_nil (chars k ++ [ " "%char ]) = false)
      by (rewrite Hch; reflexivity).
    rewrite Hnil. cbn [negb andb Num.is_nil forallb].
    change (is_lt DQc) with false. cbn [negb andb].
    rewrite forallb_app. unfold one_line in Hs. rewrite Hs. reflexivity. }
  rewrite Hkv, (trim_key k Hk), parse_value_quoted. reflexivity.
Qed.

End TomlLines.

Section TomlSections.
Import Toml Spec Laws Scenario.

Lemma classify_header (name : string) :
  header_name name = true -> classify ("[" +++ name +++ "]") = Header name.
Proof.
  unfold header_name. intros H.
  apply andb_true_iff in H as [H _]. apply andb_true_iff in H as [Hne Hbr].
  assert (Hch : chars ("[" +++ name +++ "]") = "["%char :: chars name ++ [ "]"%char ]).
  { rewrite !chars_append. reflexivity. }
  assert (Htrim : trim ("[" +++ name +++ "]") = "[" +++ name +++ "]").
  { unfold trim. rewrite Hch.
    rewrite (trim_l_ends "["%char "]"%char (chars name) eq_refl eq_refl).
    rewrite <- Hch. apply str_chars. }
  unfold classify. rewrite Htrim.
  change (is_empty ("[" +++ name +++ "]")) with false.
  change (startsWith ("[" +++ name +++ "]") "#") with false. cbn [orb].
  unfold section_match. rewrite Hch.
  change (rev (chars name ++ [ "]"%char ])) with (rev (chars name ++ [ "]"%char ])).
  rewrite rev_app_distr. cbn [rev app].
  change (code "[" =? 91) with true. change (code "]" =? 93) with true.
  cbn [andb]. rewrite forallb_rev, Hbr.
  assert (Hnil : Num.is_nil (rev (chars name)) = false).
  { destruct (rev (chars name)) eqn:E; [|reflexivity].
    apply (f_equal (@rev ascii)) in E. rewrite rev_involutive in E.
    simpl in E. apply (f_equal str) in E. rewrite str_chars in E.
    rewrite E in Hne. discriminate. }
  rewrite Hnil. cbn [negb andb]. now rewrite rev_involutive, str_chars.
Qed.

Lemma nest_on_app (a b : list string) (leaf : object) :
  nest_on (a ++ b) leaf = nest_on a (nest_on b leaf).
Proof. induction a as [|k a IH]; simpl; [reflexivity|now rewrite IH]. Qed.

Lemma get_path_nest (a : list string) (leaf : object) :
  get_path (VObj (nest_on a leaf)) a = VObj leaf.
Proof.
  induction a as [|k a IH]; simpl; [reflexivity|].
  now rewrite String.eqb_refl.
Qed.

Lemma update_path_nest (a : list string) (leaf : object) (f : object -> object) :
  update_path (nest_on a leaf) a f = nest_on a (f leaf).
Proof.
  induction a as [|k a IH]; simpl; [reflexivity|].
  rewrite String.eqb_refl. simpl. now rewrite IH.
Qed.

Lemma not_inherited_not_proto (part : string) :
  negb (mem part inherited) = true -> (part == "__proto__") = false.
Proof.
  unfold mem, inherited. cbn [existsb]. intros H.
  destruct (part == "__proto__"); [|reflexivity].
  now rewrite orb_true_r in H.
Qed.

(** Walking a header from the empty mapping builds the chain of nested
    mappings and ends in the innermost one. *)
Lemma descend_all_fresh (done parts : list string) :
  forallb (fun part => negb (mem part inherited)) parts = true ->
  descend_all (nest_on done [], AtPath done) parts
  = Ok (nest_on (done ++ parts) [], AtPath (done ++ parts)).
Proof.
  revert done. induction parts as [|part parts IH]; intros done H.
  - simpl. now rewrite app_nil_r.
  - cbn [forallb] in H. apply andb_true_iff in H as [Hp Hr].
    cbn [descend_all]. unfold descend at 1. cbn [deref].
    rewrite get_path_nest. cbn [get lookup opt_value bind truthy put].
    rewrite (not_inherited_not_proto part Hp).
    rewrite update_path_nest. cbn [assign deref].
    rewrite get_path_nest. cbn [get lookup].
    rewrite String.eqb_refl. cbn [opt_value bind].
    change (nest_on done [ (part, VObj []) ]) with (nest_on done (nest_on [part] [])).
    rewrite <- nest_on_app, (IH _ Hr), <- app_assoc. reflexivity.
Qed.

Lemma no_LF_single (l : string) :
  no_LF l = true -> split LF l = [l].
Proof.
  intros H. change l with (unlines [l]) at 1. apply split_unlines.
  cbn [forallb]. now rewrite H.
Qed.

Lemma no_LF_header (name : string) :
  header_name name = true -> no_LF ("[" +++ name +++ "]") = true.
Proof.
  unfold header_name, no_LF. intros H. apply andb_true_iff in H as [_ H].
  rewrite !chars_append, !forallb_app. unfold no_LF in H. now rewrite H.
Qed.

Lemma key_char_not_LF (c : ascii) :
  is_key_char c = true -> negb (Ascii.eqb c LF) = true.
Proof.
  destruct c as [[] [] [] [] [] [] [] []]; vm_compute; intros H;
    try discriminate; reflexivity.
Qed.

Lemma not_lt_not_LF (c : ascii) :
  negb (is_lt c) = true -> negb (Ascii.eqb c LF) = true.
Proof.
  destruct c as [[] [] [] [] [] [] [] []]; vm_compute; intros H;
    try discriminate; reflexivity.
Qed.

Lemma no_LF_quoted (k s : string) :
  key_like k = true -> one_line s = true ->
  no_LF (k +++ " = " +++ DQ +++ s +++ DQ) = true.
Proof.
  intros Hk Hs. unfold no_LF. rewrite !chars_append, !forallb_app.
  unfold key_like in Hk. apply andb_true_iff in Hk as [_ Hk].
  rewrite (forallb_impl _ _ _ key_char_not_LF Hk).
  unfold one_line in Hs.
  rewrite (forallb_impl _ _ _ not_lt_not_LF Hs). reflexivity.
Qed.

(** X11: a section header [[name]] alone builds the nested mappings of
    the dot-separated parts of [name], taken as they stand (not
    trimmed); a pair [k = "s"] under it binds [k] in the innermost
    mapping to the string [s], whatever [s] is (the text true, digits,
    inner quotes: no coercion, no escapes); without a header the pair
    goes to the root.  The texts are ASCII, no part of the name is a
    property every object inherits: there the parser meets own
    properties only.  The key is not [__proto__], which is never
    bound. *)
Theorem section_and_quoted_value (name k s : string) :
  header_name name = true -> key_like k = true -> one_line s = true ->
  ascii_text name = true -> ascii_text s = true ->
  forallb (fun part => negb (mem part inherited)) (split "."%char name) = true ->
  (k == "__proto__") = false ->
  parseToml ("[" +++ name +++ "]") = Ok (nest_on (split "."%char name) [])
  /\ parseToml (k +++ " = " +++ DQ +++ s +++ DQ) = Ok [ (k, VStr s) ]
  /\ parseToml (unlines [ "[" +++ name +++ "]";
                          k +++ " = " +++ DQ +++ s +++ DQ ])
     = Ok (nest_on (split "."%char name) [ (k, VStr s) ]).
Proof.
  intros Hn Hk Hs _ _ Hparts Hproto.
  pose proof (no_LF_header name Hn) as Hl1.
  pose proof (no_LF_quoted k s Hk Hs) as Hl2.
  pose proof (descend_all_fresh [] (split "."%char name) Hparts) as Hd.
  cbn [app nest_on] in Hd.
  unfold parseToml. split; [|split].
  - rewrite (no_LF_single _ Hl1). cbn [parse_lines]. unfold parse_line.
    rewrite (classify_header name Hn). cbn [fst].
    unfold object in *. rewrite Hd. reflexivity.
  - rewrite (no_LF_single _ Hl2). cbn [parse_lines]. unfold parse_line.
    rewrite (classify_quoted k s Hk Hs). cbn [fst snd put].
    rewrite Hproto. reflexivity.
  - rewrite split_unlines by (cbn [forallb]; now rewrite Hl1, Hl2).
    cbn [parse_lines]. unfold parse_line at 1.
    rewrite (classify_header name Hn). cbn [fst].
    unfold object in *. rewrite Hd. cbn [bind]. unfold parse_line.
    rewrite (classify_quoted k s Hk Hs). cbn [fst snd put bind].
    now rewrite Hproto, update_path_nest.
Qed.

Lemma section_and_quoted_value_witness :
  parseToml (unlines [ "[tool.my app]"; "answer = " +++ DQ +++ "42" +++ DQ ])
  = Ok [ ("tool", VObj [ ("my app", VObj [ ("answer", VStr "42") ]) ]) ].
Proof.
  exact (proj2 (proj2 (section_and_quoted_value "tool.my app" "answer" "42"
                         eq_refl eq_refl eq_refl eq_refl eq_refl eq_refl
                         eq_refl))).
Defined.

(** On a text without section headers every pair is assigned at the
    root, the ones with the key [__proto__] apart. *)
Lemma parse_lines_bindings (ls : list string) (root : object) :
  forallb (fun l => negb (is_header l)) ls = true ->
  parse_lines (root, AtPath []) ls
  = Ok (fold_left (fun a kv => assign (fst kv) (snd kv) a)
                  (filter stored (bindings ls)) root,
        AtPath []).
Proof.
  revert root. induction ls as [|l ls IH]; intros root H; [reflexivity|].
  simpl in H. apply andb_true_iff in H as [Hl Hls].
  cbn [parse_lines]. unfold parse_line, bindings. cbn [flat_map].
  unfold is_header in Hl.
  destruct (classify l) as [|n|k v|]; try discriminate;
    cbn [fst snd put bind update_path app fold_left filter];
    try (now rewrite IH).
  unfold stored. cbn [fst].
  destruct (k == "__proto__"); cbn [negb fold_left fst snd]; now rewrite IH.
Qed.

Lemma lookup_filter_stored (k : string) (o : object) :
  lookup k (filter stored o)
  = if k == "__proto__" then None else lookup k o.
Proof.
  induction o as [|[k0 v0] o IH]; cbn [filter lookup].
  - now destruct (k == "__proto__").
  - unfold stored at 1. cbn [fst].
    destruct (String.eqb_spec k0 "__proto__") as [->|Hne]; cbn [negb lookup].
    + rewrite IH. destruct (String.eqb_spec k "__proto__") as [->|Hk].
      * reflexivity.
      * destruct (String.eqb_spec "__proto__" k); [congruence|reflexivity].
    + rewrite IH. destruct (String.eqb_spec k0 k) as [->|Hk]; [|reflexivity].
      destruct (String.eqb_spec k "__proto__"); [congruence|reflexivity].
Qed.

Lemma filter_rev {A} (f : A -> bool) (l : list A) :
  filter f (rev l) = rev (filter f l).
Proof.
  induction l as [|x l IH]; [reflexivity|].
  cbn [rev filter]. rewrite filter_app, IH. cbn [filter].
  destruct (f x); cbn [rev]; [reflexivity|now rewrite app_nil_r].
Qed.

(** X12: on an ASCII text without section headers, the mapping binds
    each key to the value of its last key/value line and has no other
    key; the key [__proto__] is never bound. *)
Theorem header_free_last_binding_wins (ls : list string) :
  forallb no_LF ls = true ->
  forallb ascii_text ls = true ->
  forallb (fun l => negb (is_header l)) ls = true ->
  exists r,
    parseToml (unlines ls) = Ok r
    /\ NoDup (map fst r)
    /\ forall k, lookup k r
                 = if k == "__proto__" then None
                   else lookup k (rev (bindings ls)).
Proof.
  intros Hlf _ Hh. unfold parseToml.
  rewrite parse_lines_unlines by exact Hlf.
  pose proof (parse_lines_bindings ls [] Hh) as Hb.
  unfold object in *. rewrite Hb. cbn [bind fst].
  eexists. split; [reflexivity|]. split.
  - apply fold_assign_NoDup. constructor.
  - intros k. rewrite fold_assign_lookup, <- filter_rev, lookup_filter_stored.
    destruct (k == "__proto__"); [reflexivity|].
    destruct (lookup k (rev (bindings ls))); reflexivity.
Qed.

Lemma header_free_last_binding_wins_witness :
  exists r,
    parseToml (unlines [ "a = 1"; "__proto__ = 5"; "b = x"; "a = 2" ]) = Ok r
    /\ lookup "a" r = Some (VNum (Num.Fin false 2 0))
    /\ lookup "__proto__" r = None.
Proof.
  destruct (header_free_last_binding_wins
              [ "a = 1"; "__proto__ = 5"; "b = x"; "a = 2" ]
              eq_refl eq_refl eq_refl) as (r & Hr & _ & Hl).
  exists r. split; [exact Hr|]. split; rewrite Hl; reflexivity.
Defined.

(** *** The walk of the headers on a plain text *)

Section Tidy.
Variable K : list string.

Lemma tidy_lookup (o : object) (k : string) (v : value) :
  tidy K (VObj o) -> lookup k o = Some v -> mem k K = false -> tidy K v.
Proof.
  intros H Hl Hk. inversion H as [o' Hall]; subst o'.
  induction Hall as [|[k' v'] r Hkv _ IH]; [discriminate|].
  - cbn [lookup] in Hl. destruct (String.eqb_spec k' k) as [->|_].
    + injection Hl as <-. cbn [fst snd] in Hkv.
      destruct Hkv as [Hm|Ht]; [congruence|exact Ht].
    + apply IH; [|exact Hl]. inversion H as [o' Hall']; subst.
      constructor. now inversion Hall'.
Qed.

Lemma tidy_assign (o : object) (k : string) (v : value) :
  tidy K (VObj o) -> mem k K = true \/ tidy K v ->
  tidy K (VObj (assign k v o)).
Proof.
  intros H Hv. inversion H as [o' Hall]; subst o'. constructor.
  induction Hall as [|[k' v'] r Hkv Hr IH]; cbn [assign].
  - constructor; [exact Hv|constructor].
  - destruct (k' == k).
    + constructor; [exact Hv|exact Hr].
    + constructor; [exact Hkv|]. apply IH. now constructor.
Qed.

Lemma tidy_update_path (p : list string) (f : object -> object) :
  (forall o, tidy K (VObj o) -> tidy K (VObj (f o))) ->
  forall o, tidy K (VObj o) -> tidy K (VObj (update_path o p f)).
Proof.
  intros Hf. induction p as [|k p IH]; intros o H; cbn [update_path].
  - now apply Hf.
  - destruct (lookup k o) as [[| | | | | |o']|] eqn:El; try exact H.
    apply tidy_assign; [exact H|].
    destruct (mem k K) eqn:Hk; [now left|right].
    apply IH. exact (tidy_lookup o k _ H El Hk).
Qed.

Lemma get_path_update (p : list string) (f : object -> object) :
  forall root o,
    get_path (VObj root) p = VObj o ->
    get_path (VObj (update_path root p f)) p = VObj (f o).
Proof.
  induction p as [|k p IH]; intros root o H; cbn [get_path update_path] in *.
  - now injection H as <-.
  - destruct (lookup k root) as [[| | | | | |o']|] eqn:El; cbn [opt_value] in H;
      try (destruct p; discriminate).
    rewrite lookup_assign_same. cbn [opt_value]. now apply IH.
Qed.

Lemma get_path_snoc (p : list string) (k : string) :
  forall v,
    get_path v (p ++ [k])
    = match get_path v p with
      | VObj o => opt_value (lookup k o)
      | _ => VUndef
      end.
Proof.
  induction p as [|a p IH]; intros v; cbn [app get_path].
  - destruct v; reflexivity.
  - destruct v; try reflexivity. apply IH.
Qed.

Lemma get_path_tidy (p : list string) :
  forall root o,
    tidy K (VObj root) -> forallb (unassigned K) p = true ->
    get_path (VObj root) p = VObj o -> tidy K (VObj o).
Proof.
  induction p as [|k p IH]; intros root o H Hp Hg; cbn [get_path] in Hg.
  - now injection Hg as <-.
  - cbn [forallb] in Hp. apply andb_true_iff in Hp as [Hk Hp].
    apply negb_true_iff in Hk.
    destruct (lookup k root) as [x|] eqn:El; cbn [opt_value] in Hg.
    + pose proof (tidy_lookup root k x H El Hk) as Hx.
      inversion Hx as [ox Hall]; subst x. exact (IH ox o Hx Hp Hg).
    + destruct p; discriminate.
Qed.

(** One step of the walk of a header, on a part that no line assigns. *)
Lemma descend_tidy (root : object) (p : list string) (o : object) (part : string) :
  tidy K (VObj root) -> forallb (unassigned K) p = true ->
  get_path (VObj root) p = VObj o ->
  unassigned K part = true -> (part == "__proto__") = false ->
  exists root' o',
    descend (root, AtPath p) part = Ok (root', AtPath (p ++ [part]))
    /\ tidy K (VObj root')
    /\ get_path (VObj root') (p ++ [part]) = VObj o'.
Proof.
  intros H Hp Hg Hk Hproto.
  pose proof (get_path_tidy p root o H Hp Hg) as Ho.
  apply negb_true_iff in Hk.
  unfold descend. cbn [deref]. rewrite Hg. cbn [get bind].
  destruct (lookup part o) as [x|] eqn:El; cbn [opt_value].
  - pose proof (tidy_lookup o part x Ho El Hk) as Hx.
    inversion Hx as [ox Hall]; subst x. cbn [truthy bind deref].
    rewrite Hg. cbn [get bind]. rewrite El. cbn [opt_value].
    exists root, ox. split; [reflexivity|]. split; [exact H|].
    rewrite get_path_snoc, Hg, El. reflexivity.
  - cbn [truthy put bind]. rewrite Hproto. cbn [bind deref].
    rewrite (get_path_update p _ root o Hg). cbn [get bind].
    rewrite lookup_assign_same. cbn [opt_value].
    exists (update_path root p (assign part (VObj []))), [].
    split; [reflexivity|]. split.
    + apply tidy_update_path; [|exact H].
      intros o' Ho'. apply tidy_assign; [exact Ho'|].
      right. constructor. constructor.
    + rewrite get_path_snoc, (get_path_update p _ root o Hg).
      now rewrite lookup_assign_same.
Qed.

Lemma descend_all_tidy (parts : list string) :
  forall root p o,
    tidy K (VObj root) -> forallb (unassigned K) p = true ->
    get_path (VObj root) p = VObj o ->
    forallb (fun part => negb (mem part inherited) && unassigned K part) parts = true ->
    exists root' p' o',
      descend_all (root, AtPath p) parts = Ok (root', AtPath p')
      /\ tidy K (VObj root') /\ forallb (unassigned K) p' = true
      /\ get_path (VObj root') p' = VObj o'.
Proof.
  induction parts as [|part parts IH]; intros root p o H Hp Hg Hparts.
  - exists root, p, o. auto.
  - cbn [forallb] in Hparts. apply andb_true_iff in Hparts as [Hpart Hparts].
    apply andb_true_iff in Hpart as [Hi Hk].
    destruct (descend_tidy root p o part H Hp Hg Hk
                (not_inherited_not_proto part Hi)) as (root1 & o1 & Hd & H1 & Hg1).
    assert (Hp1 : forallb (unassigned K) (p ++ [part]) = true).
    { rewrite forallb_app. cbn [forallb]. now rewrite Hp, Hk. }
    destruct (IH root1 (p ++ [part]) o1 H1 Hp1 Hg1 Hparts)
      as (root2 & p2 & o2 & Hd2 & H2).
    exists root2, p2, o2. split; [|exact H2].
    cbn [descend_all]. unfold object in *. rewrite Hd. exact Hd2.
Qed.

Lemma parse_lines_tidy (ls : list string) :
  forall root p o,
    tidy K (VObj root) -> forallb (unassigned K) p = true ->
    get_path (VObj root) p = VObj o ->
    forallb (line_ok K) ls = true ->
    exists st, parse_lines (root, AtPath p) ls = Ok st.
Proof.
  induction ls as [|l ls IH]; intros root p o H Hp Hg Hls.
  - eexists. reflexivity.
  - cbn [forallb] in Hls. apply andb_true_iff in Hls as [Hl Hls].
    unfold line_ok in Hl.
    assert (Hstep : forall st', parse_lines st' (l :: ls)
                                = (st'' <- parse_line st' l ;; parse_lines st'' ls))
      by reflexivity.
    rewrite Hstep. unfold parse_line.
    destruct (classify l) as [|n|k v|]; cbn [fst snd bind].
    + exact (IH root p o H Hp Hg Hls).
    + destruct (descend_all_tidy (split "."%char n) root [] root H eq_refl
                  eq_refl Hl) as (root1 & p1 & o1 & Hd & H1 & Hp1 & Hg1).
      destruct (IH root1 p1 o1 H1 Hp1 Hg1 Hls) as [st Hst].
      exists st. unfold object in *. rewrite Hd. exact Hst.
    + destruct (k == "__proto__") eqn:Hproto.
      * destruct (IH root p o H Hp Hg Hls) as [st Hst].
        exists st. cbn [put bind]. rewrite Hproto. exact Hst.
      * assert (H1 : tidy K (VObj (update_path root p (assign k v)))).
        { apply tidy_update_path; [|exact H].
          intros o' Ho'. apply tidy_assign; [exact Ho'|now left]. }
        destruct (IH _ p (assign k v o) H1 Hp
                    (get_path_update p _ root o Hg) Hls) as [st Hst].
        exists st. cbn [put bind]. rewrite Hproto. exact Hst.
    + exact (IH root p o H Hp Hg Hls).
Qed.

End Tidy.

Lemma mem_In (x : string) (l : list string) : In x l -> mem x l = true.
Proof.
  intros H. unfold mem. apply existsb_exists. exists x. split; [exact H|].
  apply String.eqb_refl.
Qed.

(** On a plain text every line is one the walk gets through. *)
Lemma plain_lines_ok (text : string) :
  plain text = true ->
  forallb (line_ok (assigned_keys (split LF text))) (split LF text) = true.
Proof.
  unfold plain. intros H. apply andb_true_iff in H as [_ H].
  set (ls := split LF text) in *.
  rewrite forallb_forall in H. apply forallb_forall. intros l Hl.
  unfold line_ok. destruct (classify l) as [|n|k v|] eqn:El; try reflexivity.
  - apply forallb_forall. intros part Hpart.
    assert (Hin : In part (header_parts ls)).
    { unfold header_parts. apply in_flat_map. exists l. split; [exact Hl|].
      now rewrite El. }
    exact (H part Hin).
  - apply mem_In. unfold assigned_keys. apply in_flat_map.
    exists l. split; [exact Hl|]. rewrite El. now left.
Qed.

(** On a plain text [parseToml] does not throw. *)
Lemma parseToml_plain_returns (text : string) :
  plain text = true -> exists r, parseToml text = Ok r.
Proof.
  intros H. unfold parseToml.
  destruct (parse_lines_tidy (assigned_keys (split LF text)) (split LF text)
              [] [] [] (tidy_obj _ [] (Forall_nil _)) eq_refl eq_refl
              (plain_lines_ok text H)) as [st Hst].
  unfold object in *. rewrite Hst. cbn [bind]. eauto.
Qed.

(** X21: on a plain text (ASCII, no section named after an inherited
    property or after a key the text assigns) [parseToml] returns a
    mapping: it does not throw.  A line that is neither blank, a
    comment, a section header nor a key/value pair contributes
    nothing: it leaves the mapping and the current section as they
    are, and deleting such lines does not change what [parseToml]
    returns. *)
Theorem parseToml_ignores_unmatched_lines (ls : list string) :
  forallb no_LF ls = true ->
  plain (unlines ls) = true ->
  (exists r, parseToml (unlines ls) = Ok r)
  /\ (forall st l, In l ls -> unmatched l = true -> parse_line st l = Ok st)
  /\ parseToml (unlines (filter (fun l => negb (unmatched l)) ls))
     = parseToml (unlines ls).
Proof.
  intros Hls Hplain. split; [|split].
  - now apply parseToml_plain_returns.
  - intros st l _ Hu. now apply parse_line_unmatched.
  - unfold parseToml.
    rewrite !parse_lines_unlines by (try apply forallb_filter; exact Hls).
    now rewrite parse_lines_drop_unmatched.
Qed.

Lemma parseToml_ignores_unmatched_lines_witness :
  (exists r, parseToml (unlines lines_with_noise) = Ok r)
  /\ parseToml (unlines [ "[tool.poetry]"; "name = widget"; "  # note";
                          "[tool.pytest]"; "answer = 42" ])
     = parseToml (unlines lines_with_noise).
Proof.
  destruct (parseToml_ignores_unmatched_lines lines_with_noise eq_refl eq_refl)
    as (Htotal & _ & Hdrop).
  split; [exact Htotal | exact Hdrop].
Defined.

End TomlSections.

Section DefaultName.
Import Analyzer Spec Laws.

(** X9: when no manifest is detected, the name of the record is the
    last segment of the path: it never contains a slash, and it is the
    empty string exactly when the path is empty or made of slashes only
    (the root directory).  What the two calls of [parseToml] do is
    taken as given ([py], [rs]). *)
Theorem default_name_is_last_segment (py rs : result object) (d : directory) :
  last_detected_on py rs d = "unknown" ->
  exists n,
    name (analyzeProject_on py rs d) = VStr n
    /\ slash_free n = true
    /\ (n = "" <-> is_slash_only (path d) = true)
    /\ (forall dir seg tail,
          path d = dir +++ "/" +++ seg +++ tail ->
          seg <> "" -> slash_free seg = true -> is_slash_only tail = true ->
          n = seg).
Proof.
  intros H. exists (basename (path d)).
  destruct (basename_is_last_segment (path d)) as (Hfree & Hempty & Hseg).
  split; [|auto].
  unfold analyzeProject_on. rewrite (probes_on_undetected py rs d H).
  reflexivity.
Qed.

Lemma default_name_is_last_segment_witness :
  exists n, name (analyzeProject (Scenario.bare "/" [])) = VStr n /\ n = "".
Proof.
  destruct (default_name_is_last_segment
              (parsed (pyproject_toml (Scenario.bare "/" [])))
              (parsed (Cargo_toml (Scenario.bare "/" [])))
              (Scenario.bare "/" []) eq_refl)
    as (n & Hn & _ & Hempty & _).
  exists n. split; [exact Hn|]. apply Hempty. reflexivity.
Defined.

End DefaultName.

(** ** generateReadme: when it throws *)

Section ReadmeFailure.
Import Generator Spec Laws.

Lemma includes_method_error (v : value) (x : string) (e : error) :
  includes_method v x = Throw e -> e = TypeError.
Proof. destruct v; cbn; try discriminate; now intros [= <-]. Qed.

(** The steps of a block, one after the other: the conditions are
    split, a step that returns lets the next one run, and a step that
    throws gives its error. *)
Ltac error_cases :=
  repeat (match goal with
          | |- context [if ?c then _ else _] => destruct c
          | |- context [bind (to_string ?v) _] =>
              let E := fresh "E" in destruct (to_string v) eqn:E; cbn [bind]
          | |- context [bind (as_string ?v) _] =>
              let E := fresh "E" in destruct (as_string v) eqn:E; cbn [bind]
          | |- context [bind (includes_method ?v ?x) _] =>
              let E := fresh "E" in
              destruct (includes_method v x) eqn:E; cbn [bind]
          | |- context [match github_match ?r with _ => _ end] =>
              destruct (github_match r)
          end; try discriminate);
  intros [= <-];
  first [ reflexivity
        | eapply to_string_error; eassumption
        | eapply as_string_error; eassumption
        | eapply includes_method_error; eassumption ].

Lemma formatTitle_error (v : value) (e : error) :
  formatTitle v = Throw e -> e = TypeError.
Proof. unfold formatTitle. error_cases. Qed.

Lemma npm_badges_error (a : analysis) (e : error) :
  npm_badges a = Throw e -> e = TypeError.
Proof. unfold npm_badges. error_cases. Qed.

Lemma crates_badges_error (a : analysis) (e : error) :
  crates_badges a = Throw e -> e = TypeError.
Proof. unfold crates_badges. error_cases. Qed.

Lemma pypi_badges_error (a : analysis) (e : error) :
  pypi_badges a = Throw e -> e = TypeError.
Proof. unfold pypi_badges. error_cases. Qed.

Lemma github_badge_error (a : analysis) (e : error) :
  github_badge a = Throw e -> e = TypeError.
Proof. unfold github_badge. error_cases. Qed.

Lemma description_line_error (a : analysis) (e : error) :
  description_line a = Throw e -> e = TypeError.
Proof. unfold description_line. error_cases. Qed.

Lemma generateInstallation_error (a : analysis) (e : error) :
  generateInstallation a = Throw e -> e = TypeError.
Proof. unfold generateInstallation, installation_lines. error_cases. Qed.

Lemma generateUsage_error (a : analysis) (e : error) :
  generateUsage a = Throw e -> e = TypeError.
Proof. unfold generateUsage, usage_lines, toCamelCase. error_cases. Qed.

Lemma generateApi_error (a : analysis) (e : error) :
  generateApi a = Throw e -> e = TypeError.
Proof.
  unfold generateApi, api_lines, cli_lines. rewrite api_rows_filter. error_cases.
Qed.

Lemma license_line_error (a : analysis) (e : error) :
  license_line a = Throw e -> e = TypeError.
Proof. unfold license_line. error_cases. Qed.

Lemma footer_error (a : analysis) (e : error) :
  footer a = Throw e -> e = TypeError.
Proof. unfold footer. error_cases. Qed.

(** The license badge throws a URIError exactly on a string that
    [encodeURIComponent] refuses, and a TypeError otherwise. *)
Lemma license_badge_error (a : analysis) (e : error) :
  license_badge a = Throw e ->
  (e = TypeError /\ unencodable (license a) = false)
  \/ (e = URIError /\ unencodable (license a) = true).
Proof.
  unfold license_badge, unencodable, encodeURIComponent.
  destruct (license a) as [| |b|n|s|l|o];
    cbn [truthy as_string to_string bind];
    repeat match goal with
           | |- context [if ?c then _ else _] => destruct c eqn:?
           end;
    try discriminate; intros [= <-]; auto.
Qed.

Lemma license_badge_refuses (a : analysis) :
  unencodable (license a) = true -> license_badge a = Throw URIError.
Proof.
  unfold license_badge, unencodable, encodeURIComponent.
  destruct (license a) as [| |b|n|s|l|o]; try discriminate.
  intros H. cbn [truthy as_string to_string bind]. rewrite H.
  destruct s; [discriminate|reflexivity].
Qed.

Lemma returns_not_throws {A} (c : result A) :
  throws c = false -> exists x, c = Ok x.
Proof. destruct c; [eauto|discriminate]. Qed.

(** The badges throw a URIError exactly when the badges of the name
    are made and the license is refused. *)
Lemma generateBadges_error (a : analysis) (e : error) :
  generateBadges a = Throw e ->
  e = TypeError \/ (e = URIError /\ unencodable (license a) = true).
Proof.
  unfold generateBadges.
  destruct (npm_badges a) eqn:E1; cbn [bind];
    [|intros [= <-]; left; eapply npm_badges_error; eassumption].
  destruct (crates_badges a) eqn:E2; cbn [bind];
    [|intros [= <-]; left; eapply crates_badges_error; eassumption].
  destruct (pypi_badges a) eqn:E3; cbn [bind];
    [|intros [= <-]; left; eapply pypi_badges_error; eassumption].
  destruct (license_badge a) eqn:E4; cbn [bind].
  - destruct (github_badge a) eqn:E5; cbn [bind]; [discriminate|].
    intros [= <-]. left. eapply github_badge_error; eassumption.
  - intros [= <-]. destruct (license_badge_error a _ E4) as [[-> _]|[-> H]]; auto.
Qed.

Lemma generateBadges_refuses (a : analysis) :
  name_fails a = false -> unencodable (license a) = true ->
  generateBadges a = Throw URIError.
Proof.
  intros Hn Hu. unfold generateBadges.
  pose proof (npm_badges_throws a) as H1.
  pose proof (crates_badges_throws a) as H2.
  pose proof (pypi_badges_throws a) as H3.
  rewrite Hn, andb_false_r in H1.
  rewrite (name_passes a Hn), andb_false_r in H2, H3.
  destruct (returns_not_throws _ H1) as [b1 ->].
  destruct (returns_not_throws _ H2) as [b2 ->].
  destruct (returns_not_throws _ H3) as [b3 ->].
  cbn [bind]. now rewrite (license_badge_refuses a Hu).
Qed.

Lemma generator_errors (a : analysis) (e : error) :
  generateReadme a = Throw e ->
  e = TypeError
  \/ (e = URIError /\ name_fails a = false /\ unencodable (license a) = true).
Proof.
  unfold generateReadme, sections.
  destruct (formatTitle (name a)) eqn:E1; cbn [bind];
    [|intros [= <-]; left; eapply formatTitle_error; eassumption].
  assert (Hn : name_fails a = false).
  { rewrite <- formatTitle_throws, E1. reflexivity. }
  destruct (generateBadges a) eqn:E2; cbn [bind].
  2:{ intros [= <-]. destruct (generateBadges_error a _ E2) as [->|[-> H]]; auto. }
  destruct (description_line a) eqn:E3; cbn [bind];
    [|intros [= <-]; left; eapply description_line_error; eassumption].
  destruct (generateInstallation a) eqn:E4; cbn [bind];
    [|intros [= <-]; left; eapply generateInstallation_error; eassumption].
  destruct (generateUsage a) eqn:E5; cbn [bind];
    [|intros [= <-]; left; eapply generateUsage_error; eassumption].
  destruct (generateApi a) eqn:E6; cbn [bind];
    [|intros [= <-]; left; eapply generateApi_error; eassumption].
  destruct (license_line a) eqn:E7; cbn [bind];
    [|intros [= <-]; left; eapply license_line_error; eassumption].
  destruct (footer a) eqn:E8; cbn [bind]; [discriminate|].
  intros [= <-]. left. eapply footer_error; eassumption.
Qed.

(** X13: [generateReadme] throws exactly on the records of
    [readme_throws] (records with the field types [analyzeProject]
    gives): a truthy name that is not a string; a name that is not a
    string in a node, python or rust record; a truthy license that is
    not a string, or a license string with a surrogate outside a pair;
    a truthy repository that is neither a string nor an array, or an
    array with the element github.com; a description or an author that
    does not print, a repository that does not print in a record that
    is not node, python or rust, a version that does not print in a
    rust record.  On every other record it returns a string.  What it
    throws is a TypeError, except for the URIError of a refused
    license, which comes exactly when the name lets the title be
    made. *)
Theorem generateReadme_throws_exactly (a : analysis) :
  throws (generateReadme a) = readme_throws a
  /\ (readme_throws a = false -> exists s, generateReadme a = Ok s)
  /\ (forall e, generateReadme a = Throw e -> e = TypeError \/ e = URIError)
  /\ (generateReadme a = Throw URIError
      <-> name_fails a = false /\ unencodable (license a) = true).
Proof.
  pose proof (generateReadme_throws_spec a) as H.
  split; [exact H|]. split; [|split].
  - intros Hf. rewrite Hf in H. destruct (generateReadme a) as [s|e]; [eauto|].
    discriminate.
  - intros e He. destruct (generator_errors a e He) as [->|[-> _]]; auto.
  - split.
    + intros He. destruct (generator_errors a _ He) as [E|(_ & Hn & Hu)];
        [discriminate|auto].
    + intros [Hn Hu]. unfold generateReadme, sections.
      pose proof (formatTitle_throws a) as Ht. rewrite Hn in Ht.
      destruct (returns_not_throws _ Ht) as [t ->]. cbn [bind].
      now rewrite (generateBadges_refuses a Hn Hu).
Qed.

End ReadmeFailure.

(** ** generator.js: the helpers *)

Section GeneratorHelpers.
Import Generator Spec Laws.

Lemma encode_char_safe (c : ascii) :
  forallb (fun x => unreserved x || Ascii.eqb x "%"%char) (encode_char c) = true.
Proof.
  destruct c as [[] [] [] [] [] [] [] []]; vm_compute; reflexivity.
Qed.

Lemma encode_char_length (c : ascii) :
  length (encode_char c) = if unreserved c then 1 else 3.
Proof. unfold encode_char. destruct (unreserved c); reflexivity. Qed.

(** When [encodeURIComponent] returns, it has written only unreserved
    characters and percent signs, between one and three characters for
    each byte; it leaves a text of unreserved characters as it is. *)
Theorem encodeURIComponent_alphabet (s e : string) :
  encodeURIComponent s = Ok e ->
  forallb (fun x => unreserved x || Ascii.eqb x "%"%char) (chars e) = true
  /\ (forallb unreserved (chars s) = true -> e = s)
  /\ String.length s <= String.length e <= 3 * String.length s.
Proof.
  unfold encodeURIComponent.
  destruct (lone_surrogate (chars s)); [discriminate|]. intros [= <-].
  assert (Hlen : forall x, String.length x = length (chars x)).
  { induction x as [|c x IH]; simpl; [reflexivity|]. now rewrite IH. }
  split; [|split].
  - rewrite chars_str. induction (chars s) as [|c l IH]; [reflexivity|].
    cbn [flat_map]. rewrite forallb_app, encode_char_safe, IH. reflexivity.
  - intros H. rewrite <- (str_chars s) at 2. f_equal.
    induction (chars s) as [|c l IH]; [reflexivity|].
    cbn [flat_map forallb] in *. apply andb_true_iff in H as [Hc Hl].
    unfold encode_char at 1. rewrite Hc, (IH Hl). reflexivity.
  - rewrite !Hlen, chars_str.
    induction (chars s) as [|c l IH]; [simpl; lia|].
    cbn [flat_map length]. rewrite length_app, encode_char_length.
    destruct (unreserved c); lia.
Qed.

Lemma cap_words_word (p : bool) (c : ascii) :
  is_word (if is_word c && negb p then to_upper_c c else c) = is_word c.
Proof.
  destruct p; [now rewrite andb_false_r|]. rewrite andb_true_r.
  destruct c as [[] [] [] [] [] [] [] []]; vm_compute; reflexivity.
Qed.

Lemma to_upper_twice (c : ascii) : to_upper_c (to_upper_c c) = to_upper_c c.
Proof. destruct c as [[] [] [] [] [] [] [] []]; vm_compute; reflexivity. Qed.

Lemma to_upper_sep (c : ascii) : is_sep (to_upper_c c) = is_sep c.
Proof. destruct c as [[] [] [] [] [] [] [] []]; vm_compute; reflexivity. Qed.

Lemma cap_words_twice (p : bool) (l : list ascii) :
  cap_words p (cap_words p l) = cap_words p l.
Proof.
  revert p. induction l as [|c l IH]; intros p; [reflexivity|].
  cbn [cap_words]. rewrite cap_words_word, IH. f_equal.
  destruct (is_word c && negb p) eqn:E.
  - apply to_upper_twice.
  - reflexivity.
Qed.

Lemma cap_words_shape (p : bool) (l : list ascii) :
  length (cap_words p l) = length l
  /\ (forallb (fun c => negb (is_sep c)) l = true ->
      forallb (fun c => negb (is_sep c)) (cap_words p l) = true).
Proof.
  revert p. induction l as [|c l IH]; intros p; [split; reflexivity|].
  cbn [cap_words length forallb]. destruct (IH (is_word c)) as [Hl Hs].
  split; [now rewrite Hl|].
  intros H. apply andb_true_iff in H as [Hc Hr]. rewrite (Hs Hr), andb_true_r.
  destruct (is_word c && negb p); [now rewrite to_upper_sep | exact Hc].
Qed.

Lemma replace_sep_free (l : list ascii) :
  forallb (fun c => negb (is_sep c))
          (map (fun c => if is_sep c then " "%char else c) l) = true.
Proof.
  induction l as [|c l IH]; [reflexivity|]. cbn [map forallb]. rewrite IH.
  destruct (is_sep c) eqn:E; [reflexivity|]. now rewrite E.
Qed.

Lemma replace_sep_id (l : list ascii) :
  forallb (fun c => negb (is_sep c)) l = true ->
  map (fun c => if is_sep c then " "%char else c) l = l.
Proof.
  induction l as [|c l IH]; [reflexivity|]. cbn [map forallb].
  intros H. apply andb_true_iff in H as [Hc Hl].
  apply negb_true_iff in Hc. now rewrite Hc, (IH Hl).
Qed.

(** X15: the title of a non-empty name has the length of the name and
    no hyphen or underscore, and formatting a title again gives the
    same title; a falsy name gives the title Project. *)
Theorem formatTitle_is_idempotent (s : string) :
  s <> "" ->
  exists t,
    formatTitle (VStr s) = Ok t
    /\ String.length t = String.length s
    /\ forallb (fun c => negb (is_sep c)) (chars t) = true
    /\ formatTitle (VStr t) = Ok t
    /\ formatTitle (VStr "") = Ok "Project"
    /\ formatTitle VUndef = Ok "Project".
Proof.
  intros Hs.
  assert (Hlen : forall x, String.length x = length (chars x)).
  { induction x as [|c x IH]; simpl; [reflexivity|]. now rewrite IH. }
  assert (Hfmt : forall x, x <> "" ->
            formatTitle (VStr x)
            = Ok (str (cap_words false
                         (map (fun c => if is_sep c then " "%char else c)
                              (chars x))))).
  { intros x Hx. unfold formatTitle. cbn [truthy as_string bind].
    destruct x; [contradiction|]. cbn [is_empty negb].
    unfold replace_char. now rewrite chars_str. }
  set (m := map (fun c => if is_sep c then " "%char else c) (chars s)).
  exists (str (cap_words false m)).
  destruct (cap_words_shape false m) as [Hl Hfree].
  specialize (Hfree (replace_sep_free (chars s))).
  split; [apply Hfmt; exact Hs|]. split; [|split; [|split]].
  - rewrite !Hlen, chars_str, Hl. unfold m. apply length_map.
  - now rewrite chars_str.
  - assert (Hne : str (cap_words false m) <> "").
    { intros E. apply (f_equal String.length) in E.
      rewrite Hlen, chars_str, Hl in E. unfold m in E.
      rewrite length_map, <- Hlen in E. destruct s; [contradiction|discriminate]. }
    rewrite (Hfmt _ Hne), chars_str, (replace_sep_id _ Hfree).
    now rewrite cap_words_twice.
  - split; reflexivity.
Qed.

Lemma formatTitle_is_idempotent_witness :
  exists t, formatTitle (VStr "my-cool_lib") = Ok t
            /\ formatTitle (VStr t) = Ok t.
Proof.
  destruct (formatTitle_is_idempotent "my-cool_lib") as (t & H1 & _ & _ & H2 & _).
  - discriminate.
  - exists t. split; assumption.
Defined.

End GeneratorHelpers.

Section GithubBadge.
Import Generator Analyzer Spec Laws.

Lemma first_match_suffix {A} (f : list ascii -> option A) (l : list ascii) (x : A) :
  first_match f l = Some x -> exists pre suf, l = pre ++ suf /\ f suf = Some x.
Proof.
  induction l as [|c l IH]; cbn [first_match].
  - destruct (f []) eqn:E; [|discriminate]. intros [= <-]. now exists [], [].
  - destruct (f (c :: l)) eqn:E.
    + intros [= <-]. now exists [], (c :: l).
    + intros H. destruct (IH H) as (pre & suf & -> & Hs).
      now exists (c :: pre), suf.
Qed.

(** X16: when the pattern of the stars badge matches, the repository
    text has the form [pre github.com sep owner / repo rest] with [sep]
    a slash or a colon; the badge path is [owner/repo], where [owner]
    is not empty and has no slash, [repo] is not empty and has neither
    slash nor dot, and [rest] is empty or starts with a slash or a dot
    (a [.git] suffix or a deeper path is cut off).  A repository the
    pattern matches always passes the [includes('github.com')] test. *)
Theorem github_match_is_owner_repo (repository g : string) :
  github_match repository = Some g ->
  exists pre sep owner repo rest,
    chars repository
    = pre ++ chars "github.com" ++ sep :: owner ++ "/"%char :: repo ++ rest
    /\ (sep = "/"%char \/ sep = ":"%char)
    /\ chars g = owner ++ "/"%char :: repo
    /\ owner <> [] /\ forallb (fun x => negb (code x =? 47)) owner = true
    /\ repo <> []
    /\ forallb (fun x => negb ((code x =? 47) || (code x =? 46))) repo = true
    /\ match rest with
       | [] => True
       | c :: _ => c = "/"%char \/ c = "."%char
       end
    /\ includes repository "github.com" = true.
Proof.
  unfold github_match. intros H.
  destruct (first_match github_at (chars repository)) as [m|] eqn:Hm;
    [|discriminate].
  injection H as <-.
  apply first_match_suffix in Hm as (pre & suf & Hl & Hat).
  unfold github_at in Hat.
  destruct (starts_l (chars "github.com") suf) eqn:Hst; [|discriminate].
  apply starts_l_prefix in Hst.
  destruct (skipn 10 suf) as [|sep r] eqn:Hsk; [discriminate|].
  change (length (chars "github.com")) with 10 in Hst. rewrite Hsk in Hst.
  destruct ((code sep =? 47) || (code sep =? 58)) eqn:Hsep; [|discriminate].
  pose proof (take_drop_while (fun x => negb (code x =? 47)) r) as Hr.
  pose proof (take_while_all (fun x => negb (code x =? 47)) r) as Ho.
  destruct (drop_while (fun x => negb (code x =? 47)) r) as [|sl r2] eqn:Hd;
    [discriminate|].
  pose proof (drop_while_head _ _ _ _ Hd) as Hsl.
  apply negb_false_iff in Hsl. apply code_inj in Hsl.
  pose proof (take_drop_while
                (fun x => negb ((code x =? 47) || (code x =? 46))) r2) as Hr2.
  pose proof (take_while_all
                (fun x => negb ((code x =? 47) || (code x =? 46))) r2) as Hrp.
  set (owner := take_while (fun x => negb (code x =? 47)) r) in *.
  set (repo := take_while
                 (fun x => negb ((code x =? 47) || (code x =? 46))) r2) in *.
  destruct (negb (Num.is_nil owner) && negb (Num.is_nil repo)) eqn:Hne;
    [|discriminate].
  injection Hat as <-.
  apply andb_true_iff in Hne as [Hno Hnr].
  exists pre, sep, owner, repo,
    (drop_while (fun x => negb ((code x =? 47) || (code x =? 46))) r2).
  assert (Hshape : chars repository
    = pre ++ chars "github.com" ++ sep :: owner ++ "/"%char :: repo
        ++ drop_while (fun x => negb ((code x =? 47) || (code x =? 46))) r2).
  { rewrite Hl, Hst. do 3 f_equal. rewrite <- Hr. f_equal.
    rewrite Hsl. f_equal. symmetry. exact Hr2. }
  split; [exact Hshape|]. split.
  { apply orb_true_iff in Hsep as [E|E]; apply code_inj in E; auto. }
  split; [rewrite chars_str, Hsl; reflexivity|].
  split; [destruct owner; [discriminate|discriminate]|].
  split; [exact Ho|].
  split; [destruct repo; [discriminate|discriminate]|].
  split; [exact Hrp|]. split.
  - destruct (drop_while _ r2) as [|c rest] eqn:Hd2; [exact I|].
    apply drop_while_head in Hd2. apply negb_false_iff in Hd2.
    apply orb_true_iff in Hd2 as [E|E]; apply code_inj in E; auto.
  - unfold includes. rewrite Hshape. apply includes_l_intro.
Qed.

Lemma github_match_is_owner_repo_witness :
  exists pre sep owner repo rest,
    chars "git+https://github.com/acme/widget.git"
    = pre ++ chars "github.com" ++ sep :: owner ++ "/"%char :: repo ++ rest
    /\ chars "acme/widget" = owner ++ "/"%char :: repo.
Proof.
  destruct (github_match_is_owner_repo
              "git+https://github.com/acme/widget.git" "acme/widget" eq_refl)
    as (pre & sep & owner & repo & rest & H1 & _ & H2 & _).
  exists pre, sep, owner, repo, rest. split; assumption.
Defined.

End GithubBadge.

(** ** The pipeline: analyzeProject, then generateReadme *)

Section Pipeline.
Import Analyzer Generator Spec Laws.







End Pipeline.

(** ** The command line *)

Section CommandLine.
Import Cli.






End CommandLine.

(** ** parseToml: the coercion of values *)

Section Coercion.
Import Toml Spec Laws.

Lemma digit_char_plain (c : ascii) :
  is_digit c = true ->
  is_ws c = false
  /\ (code c =? 43) = false /\ (code c =? 45) = false
  /\ (forall x, is_digit x = true ->
        ((code c =? 48) && ((code x =? 120) || (code x =? 88)) = false)
        /\ ((code c =? 48) && ((code x =? 111) || (code x =? 79)) = false)
        /\ ((code c =? 48) && ((code x =? 98) || (code x =? 66)) = false))
  /\ Ascii.eqb c "I"%char = false
  /\ Ascii.eqb DQc c = false /\ Ascii.eqb "'"%char c = false
  /\ Ascii.eqb c "t"%char = false /\ Ascii.eqb c "f"%char = false.
Proof.
  intros Hc. repeat split;
    try (destruct c as [[] [] [] [] [] [] [] []]; vm_compute in Hc |- *;
         try discriminate; reflexivity);
    rewrite andb_false_iff; right;
    destruct x as [[] [] [] [] [] [] [] []]; vm_compute in H |- *;
    try discriminate; reflexivity.
Qed.

Lemma take_while_id (p : ascii -> bool) (l : list ascii) :
  forallb p l = true -> take_while p l = l /\ drop_while p l = [].
Proof.
  induction l as [|c l IH]; [split; reflexivity|]. cbn [forallb].
  intros H. apply andb_true_iff in H as [Hc Hl].
  cbn [take_while drop_while]. rewrite Hc. destruct (IH Hl) as [-> ->].
  split; reflexivity.
Qed.

Lemma trim_l_digits (l : list ascii) :
  forallb is_digit l = true -> trim_l l = l.
Proof.
  intros H.
  assert (Hws : forall c, In c l -> is_ws c = false).
  { intros c Hin. rewrite forallb_forall in H.
    apply (digit_char_plain c). now apply H. }
  destruct (list_ends l) as [->|[[c ->]|(c & mid & c' & ->)]].
  - reflexivity.
  - apply (trim_l_single [] [] c eq_refl eq_refl). apply Hws. now left.
  - apply trim_l_ends; apply Hws; [now left|].
    right. apply in_or_app. right. now left.
Qed.

(** The Number of a text of decimal digits below 2^53. *)
Lemma of_string_digits (l : list ascii) :
  l <> [] -> forallb is_digit l = true ->
  (Num.radix_val 10 l < 9007199254740992)%N ->
  Num.of_string (str l) = Num.Fin false (Num.radix_val 10 l) 0.
Proof.
  intros Hne Hd Hsmall.
  assert (Hlit : Num.literal (str l) = Num.Fin false (Num.radix_val 10 l) 0).
  { unfold Num.literal. rewrite chars_str, (trim_l_digits l Hd).
    destruct l as [|c r]; [contradiction|].
    pose proof Hd as Hd'. cbn [forallb] in Hd'.
    apply andb_true_iff in Hd' as [Hc Hr].
    destruct (digit_char_plain c Hc) as (_ & Hp & Hm & Hx & HI & _).
    rewrite Hp, Hm.
    assert (Hdec : Num.str_decimal false (c :: r)
                   = Num.Fin false (Num.radix_val 10 (c :: r)) 0).
    { unfold Num.str_decimal.
      assert (Hinf : (str (c :: r) == "Infinity") = false).
      { change (str (c :: r)) with (String c (str r)).
        cbn [String.eqb]. now rewrite HI. }
      rewrite Hinf. unfold Num.unsigned_decimal.
      destruct (take_while_id is_digit (c :: r) Hd) as [-> ->].
      cbn [Num.is_nil andb Num.exponent_part length]. now rewrite app_nil_r. }
    destruct r as [|x r']; [exact Hdec|].
    cbn [forallb] in Hr. apply andb_true_iff in Hr as [Hxd _].
    destruct (Hx x Hxd) as (H1 & H2 & H3). rewrite H1, H2, H3. exact Hdec. }
  unfold Num.of_string. rewrite Hlit. unfold Num.norm, Num.round.
  destruct (N.eqb_spec (Num.radix_val 10 l) 0) as [->|_]; [reflexivity|].
  change (Num.pow10 0) with 1%N. rewrite N.mul_1_r.
  apply N.ltb_lt in Hsmall. rewrite Hsmall. reflexivity.
Qed.

(** X20: the coercion of an ASCII value text.  The result is a boolean,
    a number or a string, and a number is never NaN.  It is the boolean
    [true] (or [false]) exactly when the trimmed text is the word true
    (or false); a text of decimal digits whose value is below 2^53
    becomes the number they denote, leading zeros included (from 2^53
    on the value is rounded to binary64). *)
Theorem parse_value_coerces (raw : string) :
  ascii_text raw = true ->
  match parse_value raw with
  | VBool _ | VStr _ => True
  | VNum n => Num.isNaN n = false
  | _ => False
  end
  /\ (forall b, parse_value raw = VBool b <->
                trim raw = (if b then "true" else "false"))
  /\ (forall l, l <> [] -> forallb is_digit l = true ->
        (Num.radix_val 10 l < 9007199254740992)%N -> raw = str l ->
        parse_value raw = VNum (Num.Fin false (Num.radix_val 10 l) 0)).
Proof.
  intros _. split; [|split].
  - unfold parse_value.
    repeat match goal with
           | |- context [if ?b then _ else _] => destruct b eqn:?
           end; auto.
    now apply negb_true_iff.
  - intros b. unfold parse_value. split.
    + destruct (startsWith (trim raw) DQ && endsWith (trim raw) DQ);
        [discriminate|].
      destruct (startsWith (trim raw) "'" && endsWith (trim raw) "'");
        [discriminate|].
      destruct (String.eqb_spec (trim raw) "true") as [E|_].
      { intros [= <-]. exact E. }
      destruct (String.eqb_spec (trim raw) "false") as [E|_].
      { intros [= <-]. exact E. }
      destruct (negb (Num.isNaN (Num.of_string (trim raw)))); discriminate.
    + intros E. rewrite E. destruct b; reflexivity.
  - intros l Hne Hd Hsmall ->. unfold parse_value, trim.
    rewrite chars_str, (trim_l_digits l Hd).
    rewrite (of_string_digits l Hne Hd Hsmall).
    destruct l as [|c r]; [contradiction|].
    cbn [forallb] in Hd. apply andb_true_iff in Hd as [Hc _].
    destruct (digit_char_plain c Hc) as (_ & _ & _ & _ & _ & Hq & Ha & Ht & Hf).
    assert (Hs1 : startsWith (str (c :: r)) DQ = false).
    { unfold startsWith. rewrite chars_str.
      cbn [chars DQ list_ascii_of_string starts_l]. fold DQc. now rewrite Hq. }
    assert (Hs2 : startsWith (str (c :: r)) "'" = false).
    { unfold startsWith. rewrite chars_str.
      cbn [chars list_ascii_of_string starts_l]. now rewrite Ha. }
    assert (Ht' : (str (c :: r) == "true") = false).
    { change (str (c :: r)) with (String c (str r)).
      cbn [String.eqb]. now rewrite Ht. }
    assert (Hf' : (str (c :: r) == "false") = false).
    { change (str (c :: r)) with (String c (str r)).
      cbn [String.eqb]. now rewrite Hf. }
    rewrite Hs1, Hs2, Ht', Hf'. reflexivity.
Qed.

Lemma parse_value_coerces_witness :
  parse_value "007" = VNum (Num.Fin false 7 0)
  /\ parse_value "9007199254740993" = VNum (Num.Fin false 9007199254740992 0).
Proof.
  split; [|vm_compute; reflexivity].
  exact (proj2 (proj2 (parse_value_coerces "007" eq_refl))
           (chars "007") ltac:(discriminate) eq_refl eq_refl eq_refl).
Defined.

End Coercion.

Section LicenseBadge.
Import Generator Spec Laws.

(** X14: for a license that is a non-empty string without a surrogate
    outside a pair, the license badge is one markdown image link whose
    label shows the license as written and whose URL embeds it
    percent-encoded: that part is made of unreserved characters and
    percent signs only (no space, slash, quote or bracket), and is the
    license itself when the license has unreserved characters only.
    With such a surrogate [encodeURIComponent] throws a URIError and
    so does the badge; an empty license gives no badge. *)
Theorem license_badge_embeds_encoded_license (a : analysis) (l : string) :
  license a = VStr l ->
  (l = "" -> license_badge a = Ok [])
  /\ (l <> "" -> lone_surrogate (chars l) = true ->
      license_badge a = Throw URIError)
  /\ (l <> "" -> lone_surrogate (chars l) = false ->
      exists e,
        encodeURIComponent l = Ok e
        /\ license_badge a
           = Ok [ "[![License: " +++ l
                    +++ "](https://img.shields.io/badge/License-" +++ e
                    +++ "-blue.svg)](LICENSE)" ]
        /\ forallb (fun x => unreserved x || Ascii.eqb x "%"%char) (chars e) = true
        /\ (forallb unreserved (chars l) = true -> e = l)).
Proof.
  intros Hl. unfold license_badge. rewrite Hl. split; [|split].
  - intros ->. reflexivity.
  - intros Hne Hs. cbn [truthy as_string bind to_string].
    destruct l; [contradiction|]. cbn [is_empty negb].
    unfold encodeURIComponent. now rewrite Hs.
  - intros Hne Hs.
    assert (He : exists e, encodeURIComponent l = Ok e).
    { unfold encodeURIComponent. rewrite Hs. eauto. }
    destruct He as [e He]. exists e.
    destruct (encodeURIComponent_alphabet l e He) as (Hsafe & Hid & _).
    split; [exact He|]. split; [|auto].
    cbn [truthy as_string bind to_string].
    destruct l; [contradiction|]. cbn [is_empty negb]. now rewrite He.
Qed.

Lemma license_badge_embeds_encoded_license_witness :
  exists e,
    license_badge (set_license (VStr "Apache 2.0") Scenario.default_record)
    = Ok [ "[![License: Apache 2.0](https://img.shields.io/badge/License-" +++ e
             +++ "-blue.svg)](LICENSE)" ]
    /\ e = "Apache%202.0".
Proof.
  destruct (license_badge_embeds_encoded_license
              (set_license (VStr "Apache 2.0") Scenario.default_record)
              "Apache 2.0" eq_refl) as (_ & _ & H).
  destruct H as (e & Henc & He & _); [discriminate|reflexivity|].
  exists e. split; [exact He|].
  vm_compute in Henc. now injection Henc as <-.
Defined.

End LicenseBadge.
